(** * Usage-reporting engine of the Decodo traffic bot (src/bot.py)

    A shallow embedding of the pure core of [bot.py]: the candidate query
    executor, the billing-cycle date arithmetic, the tolerant date parser,
    the schema-tolerant extraction passes, the daily series builder and the
    usage formatter, followed by the properties proved about them; then
    the parser of the allowed chats and the access rule, the text buttons,
    the date window of the traffic query (with [ts_or_date] of
    [debug_decodo.py]), the days, bars and labels of the chart and its
    hourly fallback, with their properties in Part III.

    Conventions of the embedding.
    - A Python [str] is a [string] whose characters are the code points
      0..255; the character classes below are Python's on that range.
    - A Python [int] is a [Z]; a Python [float] is a binary64 [float].
    - A call that may raise returns a [result]; [try]/[except] is [catch].
    - A JSON object is an association list read by its first binding. *)

From Stdlib Require Import ZArith String Ascii List Floats Lia Bool.
From Stdlib Require Import Permutation DecimalString Sorted.
From stdpp Require Import gmap strings.
Import ListNotations.
Local Open Scope string_scope.
Local Open Scope Z_scope.

(* ================================================================== *)
(** * Part I. The embedding                                            *)
(* ================================================================== *)

(** ** Exceptions and results *)

(** The exception classes the modelled code meets.  [HTTPStatusError]
    carries the status code of [e.response] ([None] when [e.response] is
    [None]); [OtherException] is any other subclass of [Exception] (a
    transport failure, a JSON decoding error); [BaseOnly] is a
    [BaseException] that is no [Exception] (a cancellation). *)
Inductive exn : Type :=
| ValueError
| TypeError
| OverflowError
| AttributeError
| AssertionError
| HTTPStatusError (status : option Z)
| OtherException (what : string)
| BaseOnly (what : string).

Inductive result (A : Type) : Type :=
| Ok (a : A)
| Raise (e : exn).
Arguments Ok {A} a.
Arguments Raise {A} e.

Definition bind {A B} (r : result A) (k : A -> result B) : result B :=
  match r with
  | Ok a => k a
  | Raise e => Raise e
  end.

Notation "'let*' x ':=' r 'in' k" := (bind r (fun x => k))
  (at level 10, x pattern, r at level 100, k at level 200).

(** [isinstance(e, Exception)]. *)
Definition is_Exception (e : exn) : bool :=
  match e with
  | BaseOnly _ => false
  | _ => true
  end.

(** [try: r  except Exception: h]. *)
Definition catch {A} (r : result A) (h : result A) : result A :=
  match r with
  | Ok a => Ok a
  | Raise e => if is_Exception e then h else Raise e
  end.

(** [try: r  except (TypeError, ValueError): h]. *)
Definition catch_type_value {A} (r : result A) (h : result A) : result A :=
  match r with
  | Raise TypeError | Raise ValueError => h
  | _ => r
  end.

Definition is_ok {A} (r : result A) : bool :=
  match r with
  | Ok _ => true
  | Raise _ => false
  end.

(** ** Characters and strings *)

Definition code (c : ascii) : Z := Z.of_N (N_of_ascii c).

Definition chr (z : Z) : ascii := ascii_of_N (Z.to_N z).

(** [c.isspace()]: the code points below 256 that are whitespace. *)
Definition isspace (c : ascii) : bool :=
  let n := code c in
  ((9 <=? n) && (n <=? 13)) || ((28 <=? n) && (n <=? 32))
  || (n =? 133) || (n =? 160).

(** The characters [float()] and [int()] skip around a literal: C's
    white space, and the two non-ASCII spaces they first turn into a
    blank.  The separators 28..31 are not among them. *)
Definition is_number_space (c : ascii) : bool :=
  let n := code c in
  ((9 <=? n) && (n <=? 13)) || (n =? 32) || (n =? 133) || (n =? 160).

(** A decimal digit (the class [\d] and [str.isdecimal]). *)
Definition is_digit (c : ascii) : bool :=
  let n := code c in (48 <=? n) && (n <=? 57).

Definition digit_val (c : ascii) : Z := code c - 48.

(** [c.isdigit()]: the decimal digits and the superscripts 1, 2, 3. *)
Definition is_py_isdigit (c : ascii) : bool :=
  let n := code c in
  is_digit c || (n =? 178) || (n =? 179) || (n =? 185).

(** [c.lower()]: ASCII and Latin-1 capitals move down by 32. *)
Definition lower_char (c : ascii) : ascii :=
  let n := code c in
  if ((65 <=? n) && (n <=? 90))
     || ((192 <=? n) && (n <=? 222) && negb (n =? 215))
  then chr (n + 32) else c.

Fixpoint lower (s : string) : string :=
  match s with
  | EmptyString => EmptyString
  | String c r => String (lower_char c) (lower r)
  end.

Fixpoint drop_while (p : ascii -> bool) (s : string) : string :=
  match s with
  | EmptyString => EmptyString
  | String c r => if p c then drop_while p r else s
  end.

(** Drops the characters satisfying [p] from the right end. *)
Fixpoint drop_while_end (p : ascii -> bool) (s : string) : string :=
  match s with
  | EmptyString => EmptyString
  | String c r =>
      match drop_while_end p r with
      | EmptyString => if p c then EmptyString else String c EmptyString
      | r' => String c r'
      end
  end.

(** [s.strip()]. *)
Definition strip (s : string) : string :=
  drop_while_end isspace (drop_while isspace s).

(** [s.replace(old, new)] for a one-character [old]. *)
Fixpoint replace (old : ascii) (new : string) (s : string) : string :=
  match s with
  | EmptyString => EmptyString
  | String c r =>
      if Ascii.eqb c old then new ++ replace old new r
      else String c (replace old new r)
  end.

(** [s.split(sep)[0]] for a one-character [sep]. *)
Fixpoint split_head (sep : ascii) (s : string) : string :=
  match s with
  | EmptyString => EmptyString
  | String c r => if Ascii.eqb c sep then EmptyString else String c (split_head sep r)
  end.

(** [s[:n]]. *)
Fixpoint take (n : nat) (s : string) : string :=
  match n, s with
  | S n', String c r => String c (take n' r)
  | _, _ => EmptyString
  end.

(** [s[:-n]] for [n > 0]. *)
Definition drop_end (n : nat) (s : string) : string :=
  take (String.length s - n) s.

(** [s[i]], where the index is in range. *)
Definition char_at (i : nat) (s : string) : option ascii := String.get i s.

Fixpoint endswith_rev (rsuffix rs : list ascii) : bool :=
  match rsuffix, rs with
  | [], _ => true
  | a :: x, b :: y => Ascii.eqb a b && endswith_rev x y
  | _ :: _, [] => false
  end.

(** [s.endswith(suffix)]. *)
Definition endswith (s suffix : string) : bool :=
  endswith_rev (rev (list_ascii_of_string suffix)) (rev (list_ascii_of_string s)).

Fixpoint string_forall (p : ascii -> bool) (s : string) : bool :=
  match s with
  | EmptyString => true
  | String c r => p c && string_forall p r
  end.

(** [s.isdigit()]. *)
Definition str_isdigit (s : string) : bool :=
  match s with
  | EmptyString => false
  | _ => string_forall is_py_isdigit s
  end.

Definition str_nonempty (s : string) : bool :=
  match s with
  | EmptyString => false
  | _ => true
  end.

(** ** Calendar dates ([datetime.date], [calendar.monthrange]) *)

Record date : Type := Date { year : Z; month : Z; day : Z }.

Record datetime : Type :=
  DateTime { dt_date : date; hour : Z; minute : Z; second : Z }.

Definition MINYEAR : Z := 1.
Definition MAXYEAR : Z := 9999.

(** [calendar.isleap]. *)
Definition isleap (y : Z) : bool :=
  (y mod 4 =? 0) && (negb (y mod 100 =? 0) || (y mod 400 =? 0)).

(** [calendar.mdays]. *)
Definition mdays (m : Z) : Z :=
  nth (Z.to_nat m) [0; 31; 28; 31; 30; 31; 30; 31; 31; 30; 31; 30; 31] 0.

(** [calendar.monthrange(year, month)[1]]: an illegal month raises
    [IllegalMonthError], a [ValueError]; any year is accepted. *)
Definition monthrange_ndays (y m : Z) : result Z :=
  if (1 <=? m) && (m <=? 12)
  then Ok (mdays m + (if (m =? 2) && isleap y then 1 else 0))
  else Raise ValueError.

Definition _last_day_of_month (y m : Z) : result Z := monthrange_ndays y m.

(** The days of a month as [datetime] counts them, for a month in 1..12. *)
Definition days_in_month (y m : Z) : Z :=
  if (m =? 2) && isleap y then 29 else mdays m.

Definition valid_date (d : date) : bool :=
  (MINYEAR <=? year d) && (year d <=? MAXYEAR)
  && (1 <=? month d) && (month d <=? 12)
  && (1 <=? day d) && (day d <=? days_in_month (year d) (month d)).

(** [dt.date(y, m, d)]: [ValueError] outside the supported range. *)
Definition date_new (y m d : Z) : result date :=
  if valid_date (Date y m d) then Ok (Date y m d) else Raise ValueError.

(** [dt.datetime(y, m, d, H, M, S)]. *)
Definition datetime_new (y m d H M S : Z) : result datetime :=
  let* dd := date_new y m d in
  if (0 <=? H) && (H <=? 23) && (0 <=? M) && (M <=? 59) && (0 <=? S) && (S <=? 59)
  then Ok (DateTime dd H M S) else Raise ValueError.

(** Dates compare as the triples (year, month, day). *)
Definition date_ltb (a b : date) : bool :=
  (year a <? year b)
  || ((year a =? year b)
      && ((month a <? month b) || ((month a =? month b) && (day a <? day b)))).

Definition date_eqb (a b : date) : bool :=
  (year a =? year b) && (month a =? month b) && (day a =? day b).

Definition date_leb (a b : date) : bool := date_ltb a b || date_eqb a b.

(** ** [datetime.strptime] for the two formats the parser uses

    [_strptime] compiles the format to a regular expression, takes its
    first match at the start of the text (alternatives are tried in
    order, with backtracking), refuses text left over, and then builds
    the date.  A matcher returns every way to match a prefix, in the
    order a backtracking search finds them, each with the value read and
    the rest of the text. *)

Definition matcher (A : Type) : Type := string -> list (A * string).

Definition m_ret {A} (a : A) : matcher A := fun s => [(a, s)].

Definition m_bind {A B} (m : matcher A) (k : A -> matcher B) : matcher B :=
  fun s => flat_map (fun '(a, r) => k a r) (m s).

Definition m_alt {A} (m1 m2 : matcher A) : matcher A :=
  fun s => (m1 s ++ m2 s)%list.

(** One literal character. *)
Definition m_lit (c : ascii) : matcher unit :=
  fun s =>
    match s with
    | String c' r => if Ascii.eqb c' c then [(tt, r)] else []
    | EmptyString => []
    end.

(** A character class of digits, [[lo-hi]]. *)
Definition m_digit (lo hi : Z) : matcher Z :=
  fun s =>
    match s with
    | String c r =>
        if is_digit c && (lo <=? digit_val c) && (digit_val c <=? hi)
        then [(digit_val c, r)] else []
    | EmptyString => []
    end.

(** Two digit classes in a row, read as a number. *)
Definition m_digit2 (lo1 hi1 lo2 hi2 : Z) : matcher Z :=
  m_bind (m_digit lo1 hi1) (fun a =>
  m_bind (m_digit lo2 hi2) (fun b => m_ret (10 * a + b))).

(** [\s*], greedy: the longest run first, then each shorter one. *)
Fixpoint m_spaces_star (s : string) : list (unit * string) :=
  match s with
  | String c r => if isspace c then (m_spaces_star r ++ [(tt, s)])%list else [(tt, s)]
  | EmptyString => [(tt, s)]
  end.

(** [\s+], which a blank in the format stands for. *)
Definition m_spaces : matcher unit :=
  fun s =>
    match s with
    | String c r => if isspace c then m_spaces_star r else []
    | EmptyString => []
    end.

(** [%Y]: [\d\d\d\d]. *)
Definition re_Y : matcher Z :=
  m_bind (m_digit2 0 9 0 9) (fun hi =>
  m_bind (m_digit2 0 9 0 9) (fun lo => m_ret (100 * hi + lo))).

(** [%m]: [1[0-2]|0[1-9]|[1-9]]. *)
Definition re_m : matcher Z :=
  m_alt (m_digit2 1 1 0 2) (m_alt (m_digit2 0 0 1 9) (m_digit 1 9)).

(** [%d]: [3[0-1]|[1-2]\d|0[1-9]|[1-9]| [1-9]]. *)
Definition re_d : matcher Z :=
  m_alt (m_digit2 3 3 0 1)
 (m_alt (m_digit2 1 2 0 9)
 (m_alt (m_digit2 0 0 1 9)
 (m_alt (m_digit 1 9)
        (m_bind (m_lit " ") (fun _ => m_digit 1 9))))).

(** [%H]: [2[0-3]|[0-1]\d|\d]. *)
Definition re_H : matcher Z :=
  m_alt (m_digit2 2 2 0 3) (m_alt (m_digit2 0 1 0 9) (m_digit 0 9)).

(** [%M]: [[0-5]\d|\d]. *)
Definition re_M : matcher Z :=
  m_alt (m_digit2 0 5 0 9) (m_digit 0 9).

(** [%S]: [6[0-1]|[0-5]\d|\d]. *)
Definition re_S : matcher Z :=
  m_alt (m_digit2 6 6 0 1) (m_alt (m_digit2 0 5 0 9) (m_digit 0 9)).

(** The pattern of ["%Y-%m-%d"]. *)
Definition re_ymd : matcher (Z * Z * Z) :=
  m_bind re_Y (fun y =>
  m_bind (m_lit "-") (fun _ =>
  m_bind re_m (fun m =>
  m_bind (m_lit "-") (fun _ =>
  m_bind re_d (fun d => m_ret (y, m, d)))))).

(** The pattern of ["%Y-%m-%d %H:%M:%S"]. *)
Definition re_ymd_hms : matcher (Z * Z * Z * (Z * Z * Z)) :=
  m_bind re_ymd (fun ymd =>
  m_bind m_spaces (fun _ =>
  m_bind re_H (fun H =>
  m_bind (m_lit ":") (fun _ =>
  m_bind re_M (fun M =>
  m_bind (m_lit ":") (fun _ =>
  m_bind re_S (fun S => m_ret (ymd, (H, M, S))))))))).

(** The first match, which must consume the whole text. *)
Definition first_full_match {A} (m : matcher A) (s : string) : result A :=
  match m s with
  | [] => Raise ValueError
  | (a, EmptyString) :: _ => Ok a
  | (_, String _ _) :: _ => Raise ValueError
  end.

(** [dt.datetime.strptime(s, "%Y-%m-%d")]. *)
Definition strptime_ymd (s : string) : result datetime :=
  let* (y, m, d) := first_full_match re_ymd s in
  datetime_new y m d 0 0 0.

(** [dt.datetime.strptime(s, "%Y-%m-%d %H:%M:%S")]. *)
Definition strptime_ymd_hms (s : string) : result datetime :=
  let* (y, m, d, (hh, mi, ss)) := first_full_match re_ymd_hms s in
  datetime_new y m d hh mi ss.

(** ** The tolerant date parser and the billing cycle *)

(** The first attempt of [_parse_date_guess]: a full timestamp, after the
    ISO clean-up. *)
Definition parse_full_timestamp (s : string) : result date :=
  let s2 := split_head "." (replace "Z" "" (replace "T" " " s)) in
  let* t := strptime_ymd_hms s2 in
  Ok (dt_date t).

(** Its second attempt: a date in the first ten characters. *)
Definition parse_date_only (s : string) : result date :=
  let* t := strptime_ymd (take 10 s) in
  Ok (dt_date t).

Definition _parse_date_guess (s : string) : result (option date) :=
  let s := strip s in
  if negb (str_nonempty s) then Ok None
  else
    catch (let* d := parse_full_timestamp s in Ok (Some d))
      (catch (let* d := parse_date_only s in Ok (Some d))
         (Ok None)).

Definition _anchored_period_start (anchor_date_str : string) (now_utc : datetime)
  : result (option date) :=
  let* anchor := _parse_date_guess anchor_date_str in
  match anchor with
  | None => Ok None
  | Some anchor =>
      let anchor_day := day anchor in
      let today := dt_date now_utc in
      let* ld := _last_day_of_month (year today) (month today) in
      let day := Z.min anchor_day ld in
      let* candidate := date_new (year today) (month today) day in
      if date_leb candidate today then Ok (Some candidate)
      else
        let '(py, pm) :=
          if month today =? 1 then (year today - 1, 12)
          else (year today, month today - 1) in
        let* ld_prev := _last_day_of_month py pm in
        let pday := Z.min anchor_day ld_prev in
        let* start := date_new py pm pday in
        Ok (Some start)
  end.

Definition _anchored_period_end (anchor_date_str : string) (start : date)
  : result (option date) :=
  let* anchor := _parse_date_guess anchor_date_str in
  match anchor with
  | None => Ok None
  | Some anchor =>
      let anchor_day := day anchor in
      let '(y, m) :=
        if month start =? 12 then (year start + 1, 1)
        else (year start, month start + 1) in
      let* ld := _last_day_of_month y m in
      let* e := date_new y m (Z.min anchor_day ld) in
      Ok (Some e)
  end.

(** ** Proxy-type candidates *)

Definition option_string_eqb (a b : option string) : bool :=
  match a, b with
  | Some x, Some y => String.eqb x y
  | None, None => true
  | _, _ => false
  end.

(** [x in xs] for a list of optional strings. *)
Definition py_in (x : option string) (xs : list (option string)) : bool :=
  existsb (option_string_eqb x) xs.

(** [dict.get(k, default)] on a literal table. *)
Fixpoint table_get (table : list (string * string)) (k default : string) : string :=
  match table with
  | [] => default
  | (k', v) :: rest => if String.eqb k' k then v else table_get rest k default
  end.

Definition proxy_type_mapping : list (string * string) :=
  [ ("residential", "residential_proxies");
    ("residential_proxies", "residential_proxies");
    ("mobile", "mobile_proxies");
    ("mobile_proxies", "mobile_proxies");
    ("datacenter", "datacenter_proxies");
    ("datacenter_proxies", "datacenter_proxies");
    ("rtc_universal_proxies", "rtc_universal_proxies");
    ("rtc_universal_core_proxies", "rtc_universal_core_proxies");
    ("site_unblocker", "rtc_site_unblocker_proxies");
    ("rtc_site_unblocker_proxies", "rtc_site_unblocker_proxies");
    ("rtc_site_unblocker_req_proxies", "rtc_site_unblocker_req_proxies") ].

Definition _map_service_to_proxy_type (value : option string) : option string :=
  match value with
  | None => None
  | Some value =>
      if negb (str_nonempty value) then None
      else
        let v := lower (strip value) in
        Some (table_get proxy_type_mapping v v)
  end.

(** The fixed fallback sequence, in the order the loop walks it. *)
Definition canonical_proxy_types : list string :=
  [ "mobile_proxies";
    "residential_proxies";
    "rtc_universal_proxies";
    "rtc_universal_core_proxies";
    "datacenter_proxies";
    "rtc_site_unblocker_proxies";
    "rtc_site_unblocker_req_proxies" ].

(** The truth value of an optional string: [None] and [""] are false. *)
Definition option_string_truthy (v : option string) : bool :=
  match v with
  | Some s => str_nonempty s
  | None => false
  end.

Definition _build_proxy_type_candidates (env_value : option string)
  : list (option string) :=
  let first := _map_service_to_proxy_type env_value in
  let candidates : list (option string) := [] in
  let candidates :=
    if option_string_truthy first && negb (py_in first candidates)
    then (candidates ++ [first])%list else candidates in
  let candidates :=
    if negb (py_in None candidates)
    then (candidates ++ [None])%list else candidates in
  fold_left
    (fun candidates v =>
       if negb (option_string_eqb (Some v) first)
       then (candidates ++ [Some v])%list else candidates)
    canonical_proxy_types candidates.

(** ** The candidate query executor *)

(** The awaited query, [client.get_current_month_usage(type_=pt)]: it
    reads and changes the world [W] (the network, the clock) and returns
    a response or raises. *)
Definition query_fn (W R : Type) : Type := option string -> W -> result R * W.

(** What one run of the executor leaves behind: what it returned or
    raised, the world after it, and the candidates it queried, in the
    order of the calls. *)
Record run (W R : Type) : Type :=
  Run { outcome : result R; world : W; calls : list (option string) }.
Arguments Run {W R} outcome world calls.
Arguments outcome {W R} r.
Arguments world {W R} r.
Arguments calls {W R} r.

Definition called {W R} (pt : option string) (r : run W R) : run W R :=
  Run (outcome r) (world r) (pt :: calls r).

(** The loop of [_fetch_month_usage_with_fallback], from the candidates
    left and the error recorded so far. *)
Fixpoint fetch_loop {W R} (query : query_fn W R) (proxy_types : list (option string))
  (last_err : option exn) (w : W) : run W R :=
  match proxy_types with
  | [] =>
      match last_err with
      | Some e => Run (Raise e) w []
      | None => Run (Raise AssertionError) w []
      end
  | pt :: rest =>
      match query pt w with
      | (Ok r, w') => Run (Ok r) w' [pt]
      | (Raise e, w') =>
          match e with
          | HTTPStatusError status =>
              match status with
              | Some 400 => called pt (fetch_loop query rest (Some e) w')
              | _ => Run (Raise e) w' [pt]
              end
          | _ =>
              if is_Exception e
              then called pt (fetch_loop query rest (Some e) w')
              else Run (Raise e) w' [pt]
          end
      end
  end.

Definition _fetch_month_usage_with_fallback {W R} (query : query_fn W R)
  (proxy_types : list (option string)) (w : W) : run W R :=
  fetch_loop query proxy_types None w.

(** ** Ordinals and date arithmetic ([datetime]'s [_ymd2ord], [_ord2ymd]) *)

Definition _days_before_year (y : Z) : Z :=
  let y := y - 1 in
  y * 365 + y / 4 - y / 100 + y / 400.

Definition _DAYS_IN_MONTH (m : Z) : Z :=
  nth (Z.to_nat m) [-1; 31; 28; 31; 30; 31; 30; 31; 31; 30; 31; 30; 31] 0.

Definition _DAYS_BEFORE_MONTH (m : Z) : Z :=
  nth (Z.to_nat m) [-1; 0; 31; 59; 90; 120; 151; 181; 212; 243; 273; 304; 334] 0.

Definition _days_before_month (y m : Z) : Z :=
  _DAYS_BEFORE_MONTH m + (if (2 <? m) && isleap y then 1 else 0).

Definition _ymd2ord (y m d : Z) : Z :=
  _days_before_year y + _days_before_month y m + d.

Definition _DI400Y : Z := 146097.
Definition _DI100Y : Z := 36524.
Definition _DI4Y : Z := 1461.
Definition _MAXORDINAL : Z := 3652059.

Definition _ord2ymd (n : Z) : Z * Z * Z :=
  let n := n - 1 in
  let n400 := n / _DI400Y in
  let n := n mod _DI400Y in
  let y := n400 * 400 + 1 in
  let n100 := n / _DI100Y in
  let n := n mod _DI100Y in
  let n4 := n / _DI4Y in
  let n := n mod _DI4Y in
  let n1 := n / 365 in
  let n := n mod 365 in
  let y := y + n100 * 100 + n4 * 4 + n1 in
  if (n1 =? 4) || (n100 =? 4) then (y - 1, 12, 31)
  else
    let leapyear := (n1 =? 3) && (negb (n4 =? 24) || (n100 =? 3)) in
    let m := Z.shiftr (n + 50) 5 in
    let preceding := _DAYS_BEFORE_MONTH m + (if (2 <? m) && leapyear then 1 else 0) in
    if n <? preceding then
      let m := m - 1 in
      let preceding :=
        preceding - (_DAYS_IN_MONTH m + (if (m =? 2) && leapyear then 1 else 0)) in
      (y, m, n - preceding + 1)
    else (y, m, n - preceding + 1).

(** [d.toordinal()]. *)
Definition toordinal (d : date) : Z := _ymd2ord (year d) (month d) (day d).

(** [date.fromordinal(n)]. *)
Definition fromordinal (n : Z) : result date :=
  let '(y, m, d) := _ord2ymd n in date_new y m d.

(** [d + dt.timedelta(days=i)]: [OverflowError] outside the range of
    dates. *)
Definition date_add_days (d : date) (i : Z) : result date :=
  let o := toordinal d + i in
  if (0 <? o) && (o <=? _MAXORDINAL) then fromordinal o else Raise OverflowError.

(** [range(n)]. *)
Definition py_range (n : Z) : list Z := map Z.of_nat (seq 0 (Z.to_nat n)).

(** A list comprehension whose element expression may raise. *)
Fixpoint map_result {A B} (f : A -> result B) (l : list A) : result (list B) :=
  match l with
  | [] => Ok []
  | a :: rest =>
      let* b := f a in
      let* bs := map_result f rest in
      Ok (b :: bs)
  end.

Definition _build_date_span (start end_ : date) : result (list date) :=
  let '(start, end_) :=
    if date_ltb end_ start then (end_, start) else (start, end_) in
  let days := toordinal end_ - toordinal start in
  map_result (fun i => date_add_days start i) (py_range (days + 1)).

(** [d.strftime("%Y-%m-%d")], the year written with four digits (a C
    library that drops the leading zeros of a year below 1000 gives
    other, still distinct, keys). *)
Definition digit_char (n : Z) : ascii := chr (48 + n mod 10).

Definition strftime_ymd (d : date) : string :=
  String (digit_char (year d / 1000))
 (String (digit_char (year d / 100))
 (String (digit_char (year d / 10))
 (String (digit_char (year d))
 (String "-"
 (String (digit_char (month d / 10))
 (String (digit_char (month d))
 (String "-"
 (String (digit_char (day d / 10))
 (String (digit_char (day d)) EmptyString))))))))).

(** ** Numbers: [float] and [int] conversions *)

(** [float(n)] for an [int]: the nearest double, ties to even;
    [OverflowError] when that is no finite double. *)
Definition float_of_int (n : Z) : result float :=
  match binary_normalize prec emax n 0 false with
  | S754_infinity _ => Raise OverflowError
  | sf => Ok (SF2Prim sf)
  end.

(** [int(f)] for a [float]: truncation toward zero; an infinity raises
    [OverflowError], a NaN [ValueError]. *)
Definition int_of_float (f : float) : result Z :=
  match Prim2SF f with
  | S754_zero _ => Ok 0
  | S754_finite s m e =>
      let v := if 0 <=? e then Z.pos m * 2 ^ e else Z.pos m / 2 ^ (- e) in
      Ok (if s then - v else v)
  | S754_infinity _ => Raise OverflowError
  | S754_nan => Raise ValueError
  end.

(** The double nearest to [p / q] (ties to even) for [p, q > 0], with
    the sign asked for: the quotient is taken with 64 bits or more and a
    sticky bit, then rounded once. *)
Definition round_ratio (neg : bool) (p q : Z) : float :=
  let s := Z.max 0 (Z.log2 q - Z.log2 p + 64) in
  let m := (p * 2 ^ s) / q in
  let r := (p * 2 ^ s) mod q in
  let m' := 2 * m + (if r =? 0 then 0 else 1) in
  SF2Prim (binary_normalize prec emax (if neg then - m' else m') (- s - 1) neg).

(** The double nearest to [m * 10^e], with the sign asked for. *)
Definition float_of_decimal (neg : bool) (m e : Z) : float :=
  if m =? 0 then (if neg then (-0)%float else 0%float)
  else if 0 <=? e then round_ratio neg (m * 10 ^ e) 1
  else round_ratio neg m (10 ^ (- e)).

(** The digits after the first one of [digit (["_"] digit)*], and the
    text after them. *)
Fixpoint read_digits_tail (s : string) : list Z * string :=
  match s with
  | String c r =>
      if is_digit c then
        let '(ds, rest) := read_digits_tail r in (digit_val c :: ds, rest)
      else if Ascii.eqb c "_" then
        match r with
        | String c2 r2 =>
            if is_digit c2 then
              let '(ds, rest) := read_digits_tail r2 in (digit_val c2 :: ds, rest)
            else ([], s)
        | EmptyString => ([], s)
        end
      else ([], s)
  | EmptyString => ([], s)
  end.

(** [digitpart ::= digit (["_"] digit)*]. *)
Definition read_digitpart (s : string) : option (list Z * string) :=
  match s with
  | String c r =>
      if is_digit c then
        let '(ds, rest) := read_digits_tail r in Some (digit_val c :: ds, rest)
      else None
  | EmptyString => None
  end.

Definition digits_value (ds : list Z) : Z :=
  fold_left (fun acc d => 10 * acc + d) ds 0.

(** An optional sign: whether it is a minus, and the text after it. *)
Definition read_sign (s : string) : bool * string :=
  match s with
  | String "-" r => (true, r)
  | String "+" r => (false, r)
  | _ => (false, s)
  end.

(** [number ::= [digitpart] "." digitpart | digitpart ["."]]: the digits
    before and after the point, and the text left. *)
Definition read_number (s : string) : option (list Z * list Z * string) :=
  match read_digitpart s with
  | Some (ip, rest) =>
      match rest with
      | String "." rest' =>
          match read_digitpart rest' with
          | Some (fp, rest'') => Some (ip, fp, rest'')
          | None => Some (ip, [], rest')
          end
      | _ => Some (ip, [], rest)
      end
  | None =>
      match s with
      | String "." rest' =>
          match read_digitpart rest' with
          | Some (fp, rest'') => Some ([], fp, rest'')
          | None => None
          end
      | _ => None
      end
  end.

(** [exponent ::= ("e" | "E") [sign] digitpart], when one is there. *)
Definition read_exponent (s : string) : Z * string :=
  match s with
  | String c r =>
      if Ascii.eqb (lower_char c) "e" then
        let '(neg, r') := read_sign r in
        match read_digitpart r' with
        | Some (ds, rest) => ((if neg then - digits_value ds else digits_value ds), rest)
        | None => (0, s)
        end
      else (0, s)
  | EmptyString => (0, s)
  end.

(** [float(s)] for a [str]. *)
Definition float_of_str (s : string) : result float :=
  let s := drop_while_end is_number_space (drop_while is_number_space s) in
  let '(neg, body) := read_sign s in
  let word := lower body in
  if String.eqb word "inf" || String.eqb word "infinity"
  then Ok (if neg then neg_infinity else infinity)
  else if String.eqb word "nan" then Ok nan
  else
    match read_number body with
    | Some (ip, fp, rest) =>
        let '(ex, rest') := read_exponent rest in
        match rest' with
        | EmptyString =>
            Ok (float_of_decimal neg (digits_value (ip ++ fp)%list)
                  (ex - Z.of_nat (List.length fp)))
        | _ => Raise ValueError
        end
    | None => Raise ValueError
    end.

(** [sys.get_int_max_str_digits()], the default. *)
Definition int_max_str_digits : Z := 4300.

(** [int(s)] for a [str], base ten. *)
Definition int_of_str (s : string) : result Z :=
  let s := drop_while_end is_number_space (drop_while is_number_space s) in
  let '(neg, body) := read_sign s in
  match read_digitpart body with
  | Some (ds, EmptyString) =>
      if int_max_str_digits <? Z.of_nat (List.length ds) then Raise ValueError
      else Ok (if neg then - digits_value ds else digits_value ds)
  | _ => Raise ValueError
  end.

(** [max(a, b)] on floats: [b] only when [b > a]. *)
Definition py_max (a b : float) : float :=
  if (a <? b)%float then b else a.

Definition GB : float := 1000000000%float.

(** ** JSON-like values *)

(** What [r.json()] returns: [None], a [bool], an [int], a [float], a
    [str], a [list] or a [dict] with string keys. *)
#[warnings="-register-all"]
Inductive value : Type :=
| VNone
| VBool (b : bool)
| VInt (n : Z)
| VFloat (f : float)
| VStr (s : string)
| VList (items : list value)
| VDict (fields : list (string * value)).

Definition fields_t : Type := list (string * value).

(** [k in d] and [d[k]]: the first binding of [k]. *)
Fixpoint dict_lookup (d : fields_t) (k : string) : option value :=
  match d with
  | [] => None
  | (k', v) :: rest => if String.eqb k' k then Some v else dict_lookup rest k
  end.

(** [d.get(k, default)]. *)
Definition dict_get_default (d : fields_t) (k : string) (default : value) : value :=
  match dict_lookup d k with
  | Some v => v
  | None => default
  end.

(** [d.get(k)]. *)
Definition dict_get (d : fields_t) (k : string) : value :=
  dict_get_default d k VNone.

(** [v.get(k, default)] on any value: only a [dict] has the method. *)
Definition py_get (v : value) (k : string) (default : value) : result value :=
  match v with
  | VDict d => Ok (dict_get_default d k default)
  | _ => Raise AttributeError
  end.

(** The truth value of a value. *)
Definition truthy (v : value) : bool :=
  match v with
  | VNone => false
  | VBool b => b
  | VInt n => negb (n =? 0)
  | VFloat f => negb (f =? 0)%float
  | VStr s => str_nonempty s
  | VList items => match items with [] => false | _ => true end
  | VDict d => match d with [] => false | _ => true end
  end.

(** [a or b]. *)
Definition py_or (a b : value) : value := if truthy a then a else b.

Definition is_none (v : value) : bool :=
  match v with VNone => true | _ => false end.

(** [isinstance(v, (int, float))]; a [bool] is an [int]. *)
Definition is_number (v : value) : bool :=
  match v with
  | VBool _ | VInt _ | VFloat _ => true
  | _ => false
  end.

(** [float(v)]. *)
Definition py_float (v : value) : result float :=
  match v with
  | VBool b => Ok (if b then 1%float else 0%float)
  | VInt n => float_of_int n
  | VFloat f => Ok f
  | VStr s => float_of_str s
  | VNone | VList _ | VDict _ => Raise TypeError
  end.

(** [int(v)]. *)
Definition py_int (v : value) : result Z :=
  match v with
  | VBool b => Ok (if b then 1 else 0)
  | VInt n => Ok n
  | VFloat f => int_of_float f
  | VStr s => int_of_str s
  | VNone | VList _ | VDict _ => Raise TypeError
  end.

(** The first of two stages that returned: [None] means the stage fell
    through to the code after it. *)
Definition or_else {A} (r1 r2 : result (option A)) : result (option A) :=
  let* o := r1 in
  match o with
  | Some a => Ok (Some a)
  | None => r2
  end.

(** A [for k in keys] loop whose body may [return]. *)
Fixpoint first_of {A} (body : string -> result (option A)) (keys : list string)
  : result (option A) :=
  match keys with
  | [] => Ok None
  | k :: rest => or_else (body k) (first_of body rest)
  end.

(** A [for k in keys] loop whose body may [return] and cannot raise. *)
Fixpoint first_some {A} (body : string -> option A) (keys : list string) : option A :=
  match keys with
  | [] => None
  | k :: rest =>
      match body k with
      | Some a => Some a
      | None => first_some body rest
      end
  end.

(** [f(m)] for the first binding [m] of [k], when there is one. *)
Definition lookup_with {A} (f : value -> A) (k : string) : fields_t -> option A :=
  fix go (d : fields_t) : option A :=
    match d with
    | [] => None
    | (k', v) :: rest => if String.eqb k' k then Some (f v) else go rest
    end.

(** ** Per-day byte extraction *)

Definition MB : float := 1000000%float.
Definition KB : float := 1000%float.

(** [parse_unit_value], the inner helper of [extract_bytes]. *)
Definition parse_unit_value (v : value) : result (option Z) :=
  if is_number v then
    let* n := py_int v in Ok (Some n)
  else
    match v with
    | VStr v =>
        let s := lower (strip v) in
        catch
          (if endswith s "gb" then
             let* f := float_of_str (strip (drop_end 2 s)) in
             let* n := int_of_float (f * GB) in Ok (Some n)
           else if endswith s "mb" then
             let* f := float_of_str (strip (drop_end 2 s)) in
             let* n := int_of_float (f * MB) in Ok (Some n)
           else if endswith s "kb" then
             let* f := float_of_str (strip (drop_end 2 s)) in
             let* n := int_of_float (f * KB) in Ok (Some n)
           else if endswith s "b" then
             let* f := float_of_str (strip (drop_end 1 s)) in
             let* n := int_of_float f in Ok (Some n)
           else
             let* f := float_of_str s in
             let* n := int_of_float f in Ok (Some n))
          (Ok None)
    | _ => Ok None
    end.

(** The [rx]/[tx] pair summed, inside its [try]. *)
Definition sum_rx_tx (d : fields_t) : result (option Z) :=
  let rx := py_or (dict_get d "rx_bytes") (dict_get d "rxBytes") in
  let tx := py_or (dict_get d "tx_bytes") (dict_get d "txBytes") in
  catch
    (if is_number rx || is_number tx then
       let* a := py_int (py_or rx (VInt 0)) in
       let* b := py_int (py_or tx (VInt 0)) in
       Ok (Some (a + b))
     else Ok None)
    (Ok None).

(** A numeric field in a named unit, turned into bytes. *)
Definition scaled_field (d : fields_t) (unit : float) (k : string) : result (option Z) :=
  let v := dict_get d k in
  if is_number v then
    let* f := py_float v in
    let* n := int_of_float (f * unit) in Ok (Some n)
  else Ok None.

(** A numeric field taken as bytes. *)
Definition plain_field (d : fields_t) (k : string) : result (option Z) :=
  let v := dict_get d k in
  if is_number v then let* n := py_int v in Ok (Some n) else Ok None.

(** The [totals] sub-object. *)
Definition totals_bytes (it : fields_t) : result (option Z) :=
  match dict_get it "totals" with
  | VDict totals =>
      or_else
        (first_of (plain_field totals)
           ["rx_tx_bytes"; "rxTxBytes"; "rx_tx"; "rxTx"; "bytes"; "total_rx_tx"])
        (sum_rx_tx totals)
  | _ => Ok None
  end.

(** [extract_bytes(it)]; its stages run in the order of the source, and
    the last one calls it again on the nested maps. *)
Fixpoint extract_bytes (it : value) : result Z :=
  match it with
  | VDict d =>
      let* found :=
        or_else
          (first_of
             (fun k =>
                let v := dict_get d k in
                if is_number v then let* n := py_int v in Ok (Some n)
                else parse_unit_value v)
             ["rx_tx_bytes"; "rxTxBytes"; "rx_tx"; "rxTx"; "traffic_bytes";
              "trafficBytes"; "bytes"])
       (or_else (sum_rx_tx d)
       (or_else (first_of (scaled_field d GB)
                   ["traffic_gb"; "trafficGB"; "usage_gb"; "usageGB"])
       (or_else (first_of (scaled_field d MB)
                   ["traffic_mb"; "trafficMB"; "usage_mb"; "usageMB"])
       (or_else (first_of (fun k => parse_unit_value (dict_get d k))
                   ["traffic"; "usage"])
       (or_else (totals_bytes d)
                (first_of
                   (fun nest_key =>
                      match
                        lookup_with
                          (fun m =>
                             match m with
                             | VDict _ =>
                                 let* vv := extract_bytes m in
                                 Ok (if vv =? 0 then None else Some vv)
                             | _ => Ok None
                             end)
                          nest_key d
                      with
                      | Some r => r
                      | None => Ok None
                      end)
                   ["value"; "metrics"; "stat"; "stats"])))))) in
      match found with
      | Some n => Ok n
      | None => Ok 0
      end
  | _ => Raise AttributeError
  end.

Section Extraction.

(** [repr(v)] of a [float], a [list] or a [dict]: the interpreter's
    text for it, which the code only passes on or tries to read as a
    date. *)
Variable py_repr : value -> string.

(** [str(v)]. *)
Definition py_str (v : value) : string :=
  match v with
  | VStr s => s
  | VNone => "None"
  | VBool true => "True"
  | VBool false => "False"
  | VInt n => NilEmpty.string_of_int (Z.to_int n)
  | VFloat _ | VList _ | VDict _ => py_repr v
  end.

(** [extract_date_str(it)]. *)
Definition extract_date_str (it : fields_t) : option string :=
  match
    first_some
      (fun k => let v := dict_get it k in if truthy v then Some (py_str v) else None)
      ["date"; "day"; "timestamp"; "time"; "bucket"; "startDate";
       "grouping_key"; "groupingValue"; "group"; "key"]
  with
  | Some s => Some s
  | None =>
      first_some
        (fun k =>
           match dict_get it k with
           | VDict v =>
               first_some
                 (fun dk =>
                    let dv := dict_get v dk in
                    if truthy dv then Some (py_str dv) else None)
                 ["date"; "day"; "timestamp"; "time"; "bucket"; "startDate"; "value"]
           | _ => None
           end)
        ["grouping"; "groupKey"; "grouping_key"]
  end.

(** The list-valued containers of a response, in the order scanned. *)
Definition traffic_containers (traffic : fields_t) : list (list value) :=
  flat_map
    (fun key =>
       match dict_get traffic key with
       | VList val => [val]
       | VDict val =>
           match dict_get val "items" with
           | VList items => [items]
           | _ => []
           end
       | _ => []
       end)
    ["data"; "result"; "records"; "rows"; "items"].

(** The body of the inner loop: what one item does to the mapping [result] built so far, here [acc]. *)
Definition accumulate_item (acc : gmap string Z) (item : value)
  : result (gmap string Z) :=
  match item with
  | VDict d =>
      match extract_date_str d with
      | None => Ok acc
      | Some date_str =>
          if negb (str_nonempty date_str) then Ok acc
          else
            let* parsed := _parse_date_guess date_str in
            match parsed with
            | None => Ok acc
            | Some dd =>
                let* b := extract_bytes item in
                let key := strftime_ymd dd in
                Ok (<[key := default 0 (acc !! key) + b]> acc)
            end
      end
  | _ => Ok acc
  end.

(** A [for] loop that updates an accumulator and may raise. *)
Fixpoint fold_result {A B} (f : A -> B -> result A) (l : list B) (a : A) : result A :=
  match l with
  | [] => Ok a
  | b :: rest => let* a' := f a b in fold_result f rest a'
  end.

Definition _daily_bytes_from_traffic (traffic : value) : result (gmap string Z) :=
  let result0 : gmap string Z := ∅ in
  match traffic with
  | VDict traffic =>
      let containers := traffic_containers traffic in
      match containers with
      | [] => Ok result0
      | _ =>
          fold_result (fun acc data => fold_result accumulate_item data acc)
            containers result0
      end
  | _ => Ok result0
  end.

(** ** Snapshot extraction *)

Definition _first_mapping_candidate (obj : value) : option value :=
  match obj with
  | VDict _ => Some obj
  | VList (VDict d :: _) => Some (VDict d)
  | _ => None
  end.

(** The [info] dictionary of [_extract_subs_info]; [VNone] is [None]. *)
Record subs_info : Type :=
  SubsInfo {
    info_limit : value;
    info_used : value;
    info_period_start : value;
    info_period_end : value;
    info_plan : value
  }.

Definition keys_limit : list string :=
  ["traffic_limit"; "limit"; "data_limit"; "max_traffic"; "max_usage"; "max"].
Definition keys_used : list string :=
  ["traffic_per_period"; "used"; "usage"; "traffic_used"; "data_used"].
Definition keys_start : list string :=
  ["current_period_start"; "period_start"; "start_date"; "cycle_start"; "from";
   "startAt"; "start_at"].
Definition keys_end : list string :=
  ["current_period_end"; "period_end"; "end_date"; "cycle_end"; "to"; "endAt";
   "end_at"; "next_billing_date"; "renews_at"; "valid_until"; "expires_at"].
Definition keys_plan : list string :=
  ["plan"; "name"; "subscription_plan"; "package_name"].

(** The value of the first key of [keys] that is in [node] with a value
    that passes [ok]: where the inner [for k in keys] loop breaks. *)
Definition first_key (ok : value -> bool) (node : fields_t) (keys : list string)
  : option value :=
  first_some
    (fun k =>
       match dict_lookup node k with
       | Some v => if ok v then Some v else None
       | None => None
       end)
    keys.

(** A numeric field: [float(node[k])], or the raw value when that
    raises [TypeError] or [ValueError]. *)
Definition numeric_or_raw (current : value) (node : fields_t) (keys : list string)
  : result value :=
  if is_none current then
    match first_key (fun v => negb (is_none v)) node keys with
    | Some v => catch_type_value (let* f := py_float v in Ok (VFloat f)) (Ok v)
    | None => Ok current
    end
  else Ok current.

(** A text field: [str(node[k])] of the first true value. *)
Definition text_field (current : value) (node : fields_t) (keys : list string) : value :=
  if is_none current then
    match first_key truthy node keys with
    | Some v => VStr (py_str v)
    | None => current
    end
  else current.

(** The body of [for node in candidates]; a candidate is a mapping. *)
Definition subs_info_step (info : subs_info) (node : value) : result subs_info :=
  match node with
  | VDict node =>
      let* limit := numeric_or_raw (info_limit info) node keys_limit in
      let* used := numeric_or_raw (info_used info) node keys_used in
      Ok (SubsInfo limit used
            (text_field (info_period_start info) node keys_start)
            (text_field (info_period_end info) node keys_end)
            (text_field (info_plan info) node keys_plan))
  | _ => Raise TypeError
  end.

Definition _extract_subs_info (subscriptions : value) : result subs_info :=
  let info := SubsInfo VNone VNone VNone VNone VNone in
  match subscriptions with
  | VDict _ | VList _ =>
      let roots :=
        (subscriptions ::
         match subscriptions with
         | VDict d =>
             flat_map
               (fun k => match dict_lookup d k with Some v => [v] | None => [] end)
               ["data"; "subscription"; "result"]
         | _ => []
         end)%list in
      let candidates :=
        flat_map
          (fun r =>
             match _first_mapping_candidate r with
             | Some n => if truthy n then [n] else []
             | None => []
             end)
          roots in
      fold_result subs_info_step candidates info
  | _ => Ok info
  end.

(** ** The usage formatter *)

(** The lines of a report.  A line stands for the text the source
    formats from its arguments; a figure is printed with two decimals. *)
Inductive report_line : Type :=
| TitleLine (proxy_type : option string)
| PeriodLine (label : string)
| SubscriptionPeriodLine (ps pe : string)
| PlanLine (plan : string)
| UsageOfLine (used limit : float)
| RemainingLine (remaining : float)
| UsedLine (used : float)
| LimitLine (limit : float)
| BlankLine
| AsOfLine (now : datetime) (tz_name : string).

(** What [format_usage] returns: the one-sentence report that usage
    could not be determined, or the lines joined into the report. *)
Inductive usage_report : Type :=
| CouldNotDetermineUsage
| ReportLines (lines : list report_line).

(** [try: x = float(v)  except (TypeError, ValueError): x = None]. *)
Definition try_float (v : value) : result (option float) :=
  catch_type_value (let* f := py_float v in Ok (Some f)) (Ok None).

(** The first block of [format_usage]: the raw [limit] and the [used]
    figure read from the subscription input. *)
Definition subscription_figures (subscriptions : value) : result (value * option float) :=
  match subscriptions with
  | VDict d =>
      let limit := py_or (dict_get d "traffic_limit") (dict_get d "limit") in
      let used_period := dict_get d "traffic_per_period" in
      let* used :=
        if negb (is_none used_period) then try_float used_period else Ok None in
      fold_result
        (fun '(limit, used) key =>
           match dict_lookup d key with
           | Some (VDict sub) =>
               let limit := py_or limit (dict_get sub "traffic_limit") in
               let used_period := dict_get sub "traffic_per_period" in
               match used with
               | None =>
                   if negb (is_none used_period) then
                     let* used := try_float used_period in Ok (limit, used)
                   else Ok (limit, used)
               | Some _ => Ok (limit, used)
               end
           | _ => Ok (limit, used)
           end)
        ["data"; "subscription"; "result"] (limit, used)
  | VList (first :: _) =>
      match first with
      | VDict first =>
          let limit := dict_get first "traffic_limit" in
          let used_period := dict_get first "traffic_per_period" in
          if negb (is_none used_period) then
            let* used := try_float used_period in Ok (limit, used)
          else Ok (limit, None)
      | _ => Ok (VNone, None)
      end
  | _ => Ok (VNone, None)
  end.

(** The total from [metadata.totals.total_rx_tx], inside its [try]. *)
Definition metadata_total_gb (traffic : value) : option float :=
  match
    catch
      (let* totals :=
         match traffic with
         | VDict t =>
             py_get (dict_get_default t "metadata" (VDict [])) "totals" (VDict [])
         | _ => Ok (VDict [])
         end in
       let* total_rx_tx := py_get totals "total_rx_tx" VNone in
       if is_number total_rx_tx then
         let* f := py_float total_rx_tx in Ok (Some (f / GB)%float)
       else Ok None)
      (Ok None)
  with
  | Ok o => o
  | Raise _ => None
  end.

(** The total summed over [traffic["data"]], inside its [try]. *)
Definition itemized_total_gb (traffic : value) : option float :=
  match
    catch
      (match traffic with
       | VDict t =>
           match dict_get t "data" with
           | VList data =>
               let* total_bytes :=
                 fold_result
                   (fun total_bytes item =>
                      match item with
                      | VDict item =>
                          let* n := py_int (dict_get_default item "rx_tx_bytes" (VInt 0)) in
                          Ok (total_bytes + n)
                      | _ => Ok total_bytes
                      end)
                   data 0 in
               let* f := float_of_int total_bytes in
               Ok (Some (f / GB)%float)
           | _ => Ok None
           end
       | _ => Ok None
       end)
      (Ok None)
  with
  | Ok o => o
  | Raise _ => None
  end.

Definition total_used_gb (traffic : value) : option float :=
  match metadata_total_gb traffic with
  | Some g => Some g
  | None => itemized_total_gb traffic
  end.

(** The inner helper [_date_only_text]. *)
Definition _date_only_text (val : value) : option string :=
  if negb (truthy val) then None
  else
    let s := strip (py_str val) in
    let s := split_head "." (replace "Z" "" (replace "T" " " s)) in
    if (10 <=? String.length s)%nat
       && match char_at 4 s with Some c => Ascii.eqb c "-" | None => false end
       && match char_at 7 s with Some c => Ascii.eqb c "-" | None => false end
       && str_isdigit (replace "-" "" (take 10 s))
    then Some (take 10 s)
    else Some s.

(** [text or "?"]. *)
Definition or_question (text : option string) : string :=
  match text with
  | Some s => if str_nonempty s then s else "?"
  | None => "?"
  end.

(** The figure a snapshot field holds, when it is a number. *)
Definition limit_final_of (limit : value) (info : subs_info) : result (option float) :=
  let* limit_final :=
    if negb (is_none limit) then try_float limit else Ok None in
  match limit_final with
  | Some l => Ok (Some l)
  | None =>
      if negb (is_none (info_limit info)) then try_float (info_limit info)
      else Ok None
  end.

(** The usage lines, from the two figures. *)
Definition usage_lines (used_final limit_final : option float) : list report_line :=
  match used_final, limit_final with
  | Some u, Some l =>
      let remaining := py_max (l - u)%float 0%float in
      [UsageOfLine u l; RemainingLine remaining]
  | Some u, None => [UsedLine u]
  | None, Some l => [LimitLine l]
  | None, None => []
  end.

(** [format_usage]; [now] and [tz_name] are the clock reading and the
    zone name of its last line. *)
Definition format_usage (subscriptions traffic : value)
  (timeframe_label proxy_type : option string) (now : datetime) (tz_name : string)
  : result usage_report :=
  let* (limit, used) := subscription_figures subscriptions in
  let used_final :=
    match used with
    | Some u => Some u
    | None => total_used_gb traffic
    end in
  match used_final, limit with
  | None, VNone => Ok CouldNotDetermineUsage
  | _, _ =>
      let* info := _extract_subs_info subscriptions in
      let* limit_final := limit_final_of limit info in
      let title := [TitleLine (if option_string_truthy proxy_type then proxy_type else None)] in
      let period :=
        if option_string_truthy timeframe_label then
          [PeriodLine (default "" timeframe_label)]
        else if truthy (info_period_start info) || truthy (info_period_end info) then
          [SubscriptionPeriodLine
             (or_question (_date_only_text (info_period_start info)))
             (or_question (_date_only_text (info_period_end info)))]
        else [] in
      let plan :=
        if truthy (info_plan info) then [PlanLine (py_str (info_plan info))] else [] in
      Ok (ReportLines
            (title ++ period ++ plan ++ usage_lines used_final limit_final
             ++ [BlankLine; AsOfLine now tz_name])%list)
  end.

(** ** Notions the statements about the per-day pass use *)

(** The items the loops of [_daily_bytes_from_traffic] visit, in order. *)
Definition traffic_items (traffic : value) : list value :=
  match traffic with
  | VDict d => concat (traffic_containers d)
  | _ => []
  end.

(** The calendar-day key an item resolves to, when it resolves to one:
    it is a mapping, a date token is found in it and parses to a date. *)
Definition item_day_key (item : value) : option string :=
  match item with
  | VDict d =>
      match extract_date_str d with
      | Some date_str =>
          if str_nonempty date_str then
            match _parse_date_guess date_str with
            | Ok (Some dd) => Some (strftime_ymd dd)
            | _ => None
            end
          else None
      | None => None
      end
  | _ => None
  end.

(** The byte counts of the items that resolve to [key], in list order. *)
Definition keyed_bytes (key : string) (items : list value) : list Z :=
  flat_map
    (fun item =>
       if option_string_eqb (item_day_key item) (Some key) then
         match extract_bytes item with
         | Ok b => [b]
         | Raise _ => []
         end
       else [])
    items.

(** The loop raises exactly when the byte extraction of an item with a
    day key raises. *)
Definition item_ok (item : value) : Prop :=
  item_day_key item <> None -> is_ok (extract_bytes item) = true.

End Extraction.

(** ** The daily series *)

(** The values of the chart, one per day of the span:
    [max(0.0, float(per_day_bytes.get(key, 0)) / 1e9)]. *)
Definition chart_values (per_day_bytes : gmap string Z) (days : list date)
  : result (list float) :=
  map_result
    (fun d =>
       let* f := float_of_int (default 0 (per_day_bytes !! strftime_ymd d)) in
       Ok (py_max 0%float (f / GB)%float))
    days.

(** The series the chart handler builds: the span and its values. *)
Definition build_daily_series (start end_ : date) (per_day_bytes : gmap string Z)
  : result (list date * list float) :=
  let* days := _build_date_span start end_ in
  let* y_gb := chart_values per_day_bytes days in
  Ok (days, y_gb).

(** ** Notions the statements below use *)

(** The failures after which the loop goes on to the next candidate: an
    HTTP status error whose status is 400, and any [Exception] that is
    no HTTP status error. *)
Definition retried (e : exn) : bool :=
  match e with
  | HTTPStatusError (Some 400) => true
  | HTTPStatusError _ => false
  | _ => is_Exception e
  end.

(** A call that failed in a way the loop retries. *)
Definition retried_failure {R} (o : result R) : Prop :=
  match o with
  | Raise e => retried e = true
  | Ok _ => False
  end.

(** What the calls [pts] return when made one after the other from the
    world [w], and the world they leave. *)
Fixpoint replay {W R} (query : query_fn W R) (pts : list (option string)) (w : W)
  : list (result R) * W :=
  match pts with
  | [] => ([], w)
  | pt :: rest =>
      let '(o, w') := query pt w in
      let '(os, w'') := replay query rest w' in
      (o :: os, w'')
  end.

(** A query that fails with a transport error for "a" and succeeds for
    any other candidate. *)
Definition transport_error_for_a : query_fn unit string :=
  fun pt w =>
    match pt with
    | Some "a" => (Raise (OtherException "ConnectError"), w)
    | _ => (Ok "response", w)
    end.

(** The characters of a date text: digits and the hyphen. *)
Definition is_date_char (c : ascii) : bool := is_digit c || Ascii.eqb c "-".

(** The strict order of dates, as a relation. *)
Definition date_lt (a b : date) : Prop := date_ltb a b = true.

(** [f] holds on the [count] integers from [r] on. *)
Fixpoint all_from (f : Z -> bool) (r : Z) (count : nat) : bool :=
  match count with
  | O => true
  | S k => if f r then all_from f (r + 1) k else false
  end.

(** The second half of [_ord2ymd]: the month and the day from the offset
    in the year. *)
Definition month_day_of (leapyear : bool) (n : Z) : Z * Z :=
  let m := Z.shiftr (n + 50) 5 in
  let preceding := _DAYS_BEFORE_MONTH m + (if (2 <? m) && leapyear then 1 else 0) in
  if n <? preceding then
    let m := m - 1 in
    let preceding :=
      preceding - (_DAYS_IN_MONTH m + (if (m =? 2) && leapyear then 1 else 0)) in
    (m, n - preceding + 1)
  else (m, n - preceding + 1).

(** The month and day found for the offset [r] are in range and lie [r]
    days after the first of January. *)
Definition month_day_ok (leapyear : bool) (r : Z) : bool :=
  let '(m, d) := month_day_of leapyear r in
  (1 <=? m) && (m <=? 12) && (1 <=? d)
  && (d <=? (if (m =? 2) && leapyear then 29 else mdays m))
  && (_DAYS_BEFORE_MONTH m + (if (2 <? m) && leapyear then 1 else 0) + d =? r + 1).

(** The sum of a list of byte counts. *)
Definition Z_sum (l : list Z) : Z := fold_right Z.add 0 l.

(** What a stored value becomes after more byte counts for its key. *)
Definition add_bytes (o : option Z) (bs : list Z) : option Z :=
  match bs with
  | [] => o
  | _ => Some (default 0 o + Z_sum bs)
  end.

(** Two items of one day, in two of the accepted spellings. *)
Definition sample_item_a : value :=
  VDict [("date", VStr "2024-01-01"); ("bytes", VInt 5)].

Definition sample_item_b : value :=
  VDict [("day", VStr "2024-01-01T10:00:00Z"); ("rx_bytes", VInt 1); ("tx_bytes", VInt 2)].

(* ================================================================== *)
(** * Part I, continued. Settings, windows and the chart                *)
(* ================================================================== *)

(** ** Settings and access control *)

(** [s.split(sep)] for a one-character [sep]: never an empty list. *)
Fixpoint str_split (sep : ascii) (s : string) : list string :=
  match s with
  | EmptyString => [EmptyString]
  | String c r =>
      if Ascii.eqb c sep then EmptyString :: str_split sep r
      else
        match str_split sep r with
        | p :: ps => String c p :: ps
        | [] => [String c EmptyString]
        end
  end.

(** The body of the loop over the parts of the setting. *)
Definition chat_id_step (items : gset Z) (part : string) : result (gset Z) :=
  let part := strip part in
  if negb (str_nonempty part) then Ok items
  else
    match int_of_str part with
    | Ok n => Ok (items ∪ {[ n ]})
    | Raise ValueError => Raise ValueError
    | Raise e => Raise e
    end.

(** [parse_allowed_chat_ids]; the set is a [gset]. *)
Definition parse_allowed_chat_ids (value : option string) : result (option (gset Z)) :=
  if negb (option_string_truthy value) then Ok None
  else
    let* items := fold_result chat_id_step (str_split "," (default "" value)) ∅ in
    if decide (items = ∅) then Ok None else Ok (Some items).

Definition _is_allowed (chat_id : Z) (allowed : option (gset Z)) : bool :=
  match allowed with
  | None => true
  | Some ids => bool_decide (chat_id ∈ ids)
  end.

(** ** Text buttons *)

(** What [on_text_buttons] awaits. *)
Inductive button_action : Type :=
| NoHandler
| HandleUsage
| HandleChart.

Definition chart_button_texts : list string :=
  ["daily chart"; "chart"; "stats image"; "statistic image"; "daily usage"].

Definition on_text_buttons (text : option string) : button_action :=
  if negb (option_string_truthy text) then NoHandler
  else
    let t := lower (strip (default "" text)) in
    if String.eqb t "usage" then HandleUsage
    else if existsb (String.eqb t) chart_button_texts then HandleChart
    else NoHandler.

(** ** Time stamps and the window of the query *)

(** [s[i] == c]. *)
Definition char_is (i : nat) (c : ascii) (s : string) : bool :=
  match char_at i s with
  | Some c' => Ascii.eqb c' c
  | None => false
  end.

(** The inner helper [to_ts] of the two handlers ([ts_or_date] in
    [debug_decodo.py]): a text shaped like a date becomes the first or
    the last second of that day. *)
Definition to_ts (date_str : string) (end_of_day : bool) : string :=
  let date_str := strip date_str in
  if (String.length date_str =? 10)%nat && char_is 4 "-" date_str
     && char_is 7 "-" date_str
  then date_str ++ " " ++ (if end_of_day then "23:59:59" else "00:00:00")
  else date_str.

(** The inner helper [d_only] of [_handle_usage]. *)
Definition d_only (s : string) : string :=
  let s := split_head "." (replace "Z" "" (replace "T" " " s)) in
  if (10 <=? String.length s)%nat && char_is 4 "-" s && char_is 7 "-" s
  then take 10 s else s.

(** [n] written with two digits, as [%m], [%d], [%H], [%M] and [%S] do. *)
Definition two_digits (n : Z) : string :=
  String (digit_char (n / 10)) (String (digit_char n) EmptyString).

(** [t.strftime("%Y-%m-%d %H:%M:%S")]. *)
Definition strftime_ymd_hms (t : datetime) : string :=
  strftime_ymd (dt_date t) ++ " " ++ two_digits (hour t) ++ ":"
  ++ two_digits (minute t) ++ ":" ++ two_digits (second t).

(** Instants of one time zone compare as (date, hour, minute, second). *)
Definition datetime_ltb (a b : datetime) : bool :=
  date_ltb (dt_date a) (dt_date b)
  || (date_eqb (dt_date a) (dt_date b)
      && ((hour a <? hour b)
          || ((hour a =? hour b)
              && ((minute a <? minute b)
                  || ((minute a =? minute b) && (second a <? second b)))))).

(** [min(a, b)] on instants: [b] only when [b < a]. *)
Definition py_min_datetime (a b : datetime) : datetime :=
  if datetime_ltb b a then b else a.

(** The date window of the traffic query, as [_handle_chart] computes it
    from the two subscription dates of the settings and the clock
    ([_handle_usage] computes its first two cases in the same way):
    [from_date] and [to_date]. *)
Definition query_window (env_from env_to : option string) (now : datetime)
  : result (option string * string) :=
  if option_string_truthy env_from then
    let env_from := default "" env_from in
    let* start_d := _anchored_period_start env_from now in
    let* end_d :=
      match start_d with
      | Some s => _anchored_period_end env_from s
      | None => Ok None
      end in
    let from_date :=
      match start_d with
      | Some s => strftime_ymd s ++ " 00:00:00"
      | None => to_ts env_from false
      end in
    let* to_dt :=
      match end_d with
      | Some e =>
          let* end_dt := datetime_new (year e) (month e) (day e) 23 59 59 in
          Ok (py_min_datetime now end_dt)
      | None => Ok now
      end in
    Ok (Some from_date, strftime_ymd_hms to_dt)
  else if option_string_truthy env_to then
    Ok (None, to_ts (default "" env_to) true)
  else
    let today := dt_date now in
    let* start_dt := datetime_new (year today) (month today) 1 0 0 0 in
    Ok (Some (strftime_ymd_hms start_dt), strftime_ymd_hms now).

(** ** The days, the bars and the labels of the chart *)

(** The days the chart shows, as [_handle_chart] picks them from the
    settings, the clock and the local date. *)
Definition chart_span (subscription_start_date subscription_end_date : option string)
  (now_utc : datetime) (today_local : date) : result (list date) :=
  let* (sd, ed) :=
    if option_string_truthy subscription_start_date then
      let start_text := default "" subscription_start_date in
      let* sd :=
        let* cycle := _anchored_period_start start_text now_utc in
        match cycle with
        | Some d => Ok d
        | None =>
            let* guess := _parse_date_guess start_text in
            match guess with
            | Some d => Ok d
            | None => date_new (year today_local) (month today_local) 1
            end
        end in
      let* ed_cycle := _anchored_period_end start_text sd in
      Ok (sd, match ed_cycle with Some e => e | None => today_local end)
    else if option_string_truthy subscription_end_date then
      let* guess := _parse_date_guess (default "" subscription_end_date) in
      let ed := match guess with Some d => d | None => today_local end in
      let* sd := date_new (year ed) (month ed) 1 in
      Ok (sd, ed)
    else
      let* sd := date_new (year today_local) (month today_local) 1 in
      Ok (sd, today_local) in
  _build_date_span sd ed.

(** [sum(values)] on floats: the additions from the left, from zero.
    (CPython 3.12 and later also carry a compensation term for the
    rounding errors; on values that are all zero, the case the statement
    below uses, every addition is exact and the result is the same.) *)
Definition py_sum (values : list float) : float :=
  fold_left (fun acc y => (acc + y)%float) values 0%float.

(** What [_handle_chart] gives [_render_daily_chart]: the days, their
    values and the title; a series whose sum is zero is cut to its first
    seven days and marked in the title. *)
Definition chart_bars (days : list date) (y_gb : list float) (title : string)
  : list date * list float * string :=
  if (py_sum y_gb =? 0)%float then
    let ann_days := if (List.length days <=? 7)%nat then days else firstn 7 days in
    let ann_vals := map (fun _ => 0%float) ann_days in
    (ann_days, ann_vals, title ++ " (no data)")
  else (days, y_gb, title).

(** [range(0, stop, step)] for a positive [step]. *)
Definition py_range_step (stop step : Z) : list Z :=
  map (fun k => k * step) (py_range ((stop + step - 1) / step)).

(** The positions of the date labels under a chart of [n] bars, in
    [_render_daily_chart]: [step = max(1, n // 12)], then
    [range(0, n, step)]. *)
Definition tick_step (n : Z) : Z := Z.max 1 (n / 12).

Definition tick_positions (n : Z) : list Z := py_range_step n (tick_step n).

(** ** The hourly fallback of the chart *)

(** The loop of the fallback: as the loop of the executor, except that
    it ends with [None] when no candidate answered. *)
Fixpoint hourly_loop {W R} (query : query_fn W R) (proxy_types : list (option string))
  (w : W) : run W (option R) :=
  match proxy_types with
  | [] => Run (Ok None) w []
  | pt :: rest =>
      match query pt w with
      | (Ok r, w') => Run (Ok (Some r)) w' [pt]
      | (Raise e, w') =>
          match e with
          | HTTPStatusError status =>
              match status with
              | Some 400 => called pt (hourly_loop query rest w')
              | _ => Run (Raise e) w' [pt]
              end
          | _ =>
              if is_Exception e
              then called pt (hourly_loop query rest w')
              else Run (Raise e) w' [pt]
          end
      end
  end.

Section HourlyFallback.

Variable py_repr : value -> string.

(** What [_handle_chart] does when the per-day mapping is empty: it
    queries by hour and aggregates, all inside [try ... except Exception:
    pass]. *)
Definition hourly_fallback {W} (per_day_bytes : gmap string Z) (query : query_fn W value)
  (proxy_types : list (option string)) (w : W) : run W (gmap string Z) :=
  if decide (per_day_bytes = ∅) then
    let r := hourly_loop query proxy_types w in
    Run
      (catch
         (let* traffic_hour := outcome r in
          match traffic_hour with
          | Some t =>
              if truthy t then _daily_bytes_from_traffic py_repr t else Ok per_day_bytes
          | None => Ok per_day_bytes
          end)
         (Ok per_day_bytes))
      (world r) (calls r)
  else Run (Ok per_day_bytes) w [].

End HourlyFallback.

(** ** Notions the further statements use *)

(** The non-blank parts of the setting, stripped: the texts [int()] is
    given. *)
Definition chat_id_parts (value : string) : list string :=
  List.filter str_nonempty (map strip (str_split "," value)).

(** The integers the parts of the setting read as. *)
Definition parsed_ids (parts : list string) : list Z :=
  flat_map (fun p => match int_of_str p with Ok n => [n] | Raise _ => [] end) parts.

(** The start of the cycle of [today] for an anchor day, and the end of
    the cycle that starts at [start], written out. *)
Definition cycle_start_of (anchor_day : Z) (today : date) : date :=
  let c := Z.min anchor_day (days_in_month (year today) (month today)) in
  if c <=? day today then Date (year today) (month today) c
  else if month today =? 1
       then Date (year today - 1) 12 (Z.min anchor_day (days_in_month (year today - 1) 12))
       else Date (year today) (month today - 1)
              (Z.min anchor_day (days_in_month (year today) (month today - 1))).

Definition cycle_end_of (anchor_day : Z) (start : date) : date :=
  if month start =? 12
  then Date (year start + 1) 1 (Z.min anchor_day (days_in_month (year start + 1) 1))
  else Date (year start) (month start + 1)
         (Z.min anchor_day (days_in_month (year start) (month start + 1))).

(** The days of a month from the first to day [d]. *)
Definition month_days_to (y m d : Z) : list date :=
  map (fun i => Date y m (i + 1)) (py_range d).

(** The subscription dictionary the handlers build from the settings:
    the limit is a [float] or [None], the two period bounds are texts or
    [None]. *)
Definition env_subscription (limit : option float) (period_start period_end : option string)
  : value :=
  VDict [("traffic_limit", match limit with Some f => VFloat f | None => VNone end);
         ("current_period_start",
          match period_start with Some s => VStr s | None => VNone end);
         ("current_period_end",
          match period_end with Some s => VStr s | None => VNone end)].

(** A text field of the snapshot: [None] or a [str]. *)
Definition is_text_or_none (v : value) : bool :=
  match v with
  | VNone | VStr _ => true
  | _ => false
  end.

(** A numeric field of the snapshot: [None], a [float], or a raw value
    that [float()] refuses with [TypeError] or [ValueError]. *)
Definition is_figure_or_raw (v : value) : Prop :=
  match v with
  | VNone | VFloat _ => True
  | _ => py_float v = Raise TypeError \/ py_float v = Raise ValueError
  end.

(** The five fields are typed. *)
Definition snapshot_typed (info : subs_info) : Prop :=
  is_figure_or_raw (info_limit info) /\ is_figure_or_raw (info_used info)
  /\ is_text_or_none (info_period_start info) = true
  /\ is_text_or_none (info_period_end info) = true
  /\ is_text_or_none (info_plan info) = true.

(** A field that is set is the same in [info']. *)
Definition snapshot_kept (info info' : subs_info) : Prop :=
  (is_none (info_limit info) = false -> info_limit info' = info_limit info)
  /\ (is_none (info_used info) = false -> info_used info' = info_used info)
  /\ (is_none (info_period_start info) = false ->
      info_period_start info' = info_period_start info)
  /\ (is_none (info_period_end info) = false ->
      info_period_end info' = info_period_end info)
  /\ (is_none (info_plan info) = false -> info_plan info' = info_plan info).

(** The sum of the byte counts of a per-day mapping. *)
Definition map_sum (m : gmap string Z) : Z := map_fold (fun _ b acc => b + acc) 0 m.

(** An item of a response that resolves to a day and carries its byte
    count as an integer under [rx_tx_bytes]. *)
Definition dated_count (py_repr : value -> string) (item : value) (n : Z) : Prop :=
  exists d,
    item = VDict d /\ dict_get d "rx_tx_bytes" = VInt n
    /\ item_day_key py_repr item <> None.

(* ================================================================== *)
(** * Part II. Properties                                              *)
(* ================================================================== *)

(** ** Checks of the embedding against the interpreter's behaviour *)

Example float_of_str_samples :
  float_of_str "1.5" = Ok 1.5%float /\
  float_of_str " -1_0.5e1_0 " = Ok (-105000000000)%float /\
  float_of_str "1e400" = Ok infinity /\
  float_of_str "9007199254740993" = Ok 9007199254740992%float /\
  float_of_str "1._5" = Raise ValueError /\
  float_of_str "1.e5" = Ok 100000%float /\
  float_of_str "." = Raise ValueError /\
  float_of_str "1__0" = Raise ValueError /\
  float_of_str "+iNf" = Ok infinity /\
  float_of_str "-0" = Ok (-0)%float /\
  float_of_str "-1e-400" = Ok (-0)%float /\
  float_of_str "5e-324" = Ok (Z.ldexp 1 (-1074)).
Proof. vm_compute. repeat split; reflexivity. Qed.

Example int_float_samples :
  int_of_float (1.5 * GB) = Ok 1500000000 /\
  int_of_float (-1.5) = Ok (-1) /\
  int_of_float infinity = Raise OverflowError /\
  int_of_float nan = Raise ValueError /\
  float_of_int (2 ^ 1024 - 2 ^ 970) = Raise OverflowError /\
  float_of_int (2 ^ 53 + 1) = Ok 9007199254740992%float /\
  int_of_str " +1_0 " = Ok 10 /\
  int_of_str "1.5" = Raise ValueError.
Proof. vm_compute. repeat split; reflexivity. Qed.

Example strptime_samples :
  _parse_date_guess " 2024-01-15T10:20:30.123Z " = Ok (Some (Date 2024 1 15)) /\
  _parse_date_guess "2024-1-5" = Ok (Some (Date 2024 1 5)) /\
  _parse_date_guess "2023-02-29" = Ok None /\
  _parse_date_guess "0000-01-15" = Ok None /\
  is_ok (strptime_ymd "2024-01-315") = false /\
  is_ok (strptime_ymd_hms "2024-01-01 00:00:60") = false.
Proof. vm_compute. repeat split; reflexivity. Qed.

(** The scenarios the specification lists, run on the embedding. *)
Example scenario_B_cycle :
  _anchored_period_start "2024-01-31" (DateTime (Date 2024 3 5) 12 0 0)
  = Ok (Some (Date 2024 2 29))
  /\ _anchored_period_end "2024-01-31" (Date 2024 2 29) = Ok (Some (Date 2024 3 31)).
Proof. vm_compute. split; reflexivity. Qed.

Example scenario_D_aggregate_total :
  total_used_gb
    (VDict [("metadata", VDict [("totals", VDict [("total_rx_tx", VInt 5000000000)])])])
  = Some 5%float.
Proof. vm_compute. reflexivity. Qed.

Example scenario_E_snapshot (py_repr : value -> string) :
  _extract_subs_info py_repr
    (VDict [("data", VDict [("traffic_limit", VInt 100);
                            ("current_period_start", VStr "2024-01-01T00:00:00Z")])])
  = Ok (SubsInfo (VFloat 100) VNone (VStr "2024-01-01T00:00:00Z") VNone VNone).
Proof. vm_compute. reflexivity. Qed.

Example format_usage_sample (py_repr : value -> string) (now : datetime) :
  format_usage py_repr
    (VDict [("traffic_limit", VFloat 100); ("current_period_start", VStr "2024-01-31")])
    (VDict [("data", VList [VDict [("rx_tx_bytes", VInt 2500000000)];
                            VDict [("rx_tx_bytes", VStr "500000000")]])])
    (Some "2024-01-31 -> 2024-02-29") (Some "mobile_proxies") now "UTC"
  = Ok (ReportLines
          [TitleLine (Some "mobile_proxies");
           PeriodLine "2024-01-31 -> 2024-02-29";
           UsageOfLine 3 100; RemainingLine 97;
           BlankLine; AsOfLine now "UTC"]).
Proof. vm_compute. reflexivity. Qed.

Example py_str_samples (py_repr : value -> string) :
  py_str py_repr (VInt 0) = "0" /\ py_str py_repr (VInt (-12)) = "-12"
  /\ py_str py_repr (VInt 20240115) = "20240115" /\ py_str py_repr VNone = "None".
Proof. vm_compute. repeat split; reflexivity. Qed.

Example extract_bytes_samples :
  extract_bytes (VDict [("rxBytes", VInt 3); ("tx_bytes", VFloat 2.5)]) = Ok 5
  /\ extract_bytes (VDict [("traffic_gb", VFloat 1.5)]) = Ok 1500000000
  /\ extract_bytes (VDict [("usage", VStr " 567 MB ")]) = Ok 567000000
  /\ extract_bytes (VDict [("totals", VDict [("total_rx_tx", VInt 9)])]) = Ok 9
  /\ extract_bytes (VDict [("stats", VDict [("value", VDict [("bytes", VStr "10KB")])])])
     = Ok 10000
  /\ extract_bytes (VDict [("label", VStr "none")]) = Ok 0.
Proof. vm_compute. repeat split; reflexivity. Qed.

Example ordinal_samples :
  _ord2ymd 738000 = (2021, 7, 29) /\
  _ymd2ord 2021 7 29 = 738000 /\
  _ymd2ord 9999 12 31 = _MAXORDINAL /\
  _build_date_span (Date 2024 3 1) (Date 2024 2 27)
  = Ok [Date 2024 2 27; Date 2024 2 28; Date 2024 2 29; Date 2024 3 1].
Proof. vm_compute. repeat split; reflexivity. Qed.

(** ** The candidate list *)

Lemma option_string_eqb_eq (a b : option string) :
  option_string_eqb a b = true <-> a = b.
Proof.
  destruct a as [x|], b as [y|]; simpl; split; intro H;
    try discriminate; try reflexivity.
  - apply String.eqb_eq in H. congruence.
  - injection H as ->. apply String.eqb_refl.
Qed.

Lemma fold_left_append_filter {A B} (keep : A -> bool) (g : A -> B) (l : list A)
  (init : list B) :
  fold_left (fun acc v => if keep v then (acc ++ [g v])%list else acc) l init
  = (init ++ map g (List.filter keep l))%list.
Proof.
  revert init. induction l as [|a l IH]; intro init; simpl.
  - now rewrite app_nil_r.
  - rewrite IH. destruct (keep a); simpl; [now rewrite <- app_assoc | reflexivity].
Qed.

Lemma canonical_proxy_types_NoDup : List.NoDup canonical_proxy_types.
Proof.
  unfold canonical_proxy_types.
  repeat (apply List.NoDup_cons;
          [ simpl; intro H; repeat (destruct H as [H|H]; [discriminate H|]);
            exact H | ]).
  apply List.NoDup_nil.
Qed.

Lemma NoDup_map_Some {A} (l : list A) : List.NoDup l -> List.NoDup (map Some l).
Proof.
  induction 1 as [|x l Hx _ IH]; simpl; constructor; [|exact IH].
  intro H. apply in_map_iff in H. destruct H as (y & Hy & Hin).
  injection Hy as ->. contradiction.
Qed.

Lemma NoDup_map_Some_filter (keep : string -> bool) :
  List.NoDup (map Some (List.filter keep canonical_proxy_types)).
Proof.
  apply NoDup_map_Some, List.NoDup_filter, canonical_proxy_types_NoDup.
Qed.

(** C8. Whatever preference is configured (none included), the candidate
    list has no duplicates and reads: the mapped preferred value when it
    is a non-empty token, then the absent candidate, then the canonical
    fallback sequence in its order without the preferred value. *)
Theorem candidates_no_duplicates_in_priority_order (env_value : option string) :
  let first := _map_service_to_proxy_type env_value in
  List.NoDup (_build_proxy_type_candidates env_value) /\
  _build_proxy_type_candidates env_value
  = ((if option_string_truthy first then [first] else []) ++ [None]
     ++ map Some
          (List.filter (fun v => negb (option_string_eqb (Some v) first))
             canonical_proxy_types))%list.
Proof.
  intro first.
  assert (E : _build_proxy_type_candidates env_value
              = ((if option_string_truthy first then [first] else []) ++ [None]
                 ++ map Some
                      (List.filter (fun v => negb (option_string_eqb (Some v) first))
                         canonical_proxy_types))%list).
  { unfold _build_proxy_type_candidates. fold first.
    rewrite (fold_left_append_filter
               (fun v => negb (option_string_eqb (Some v) first)) Some).
    destruct first as [p|]; simpl option_string_truthy; [destruct (str_nonempty p)|];
      simpl; reflexivity. }
  split; [rewrite E | exact E].
  pose proof (NoDup_map_Some_filter
                (fun v => negb (option_string_eqb (Some v) first))) as ND.
  assert (NN : ~ List.In None
                 (map Some (List.filter (fun v => negb (option_string_eqb (Some v) first))
                              canonical_proxy_types))).
  { intro H. apply in_map_iff in H. destruct H as (x & Hx & _). discriminate. }
  assert (NF : ~ List.In first
                 (map Some (List.filter (fun v => negb (option_string_eqb (Some v) first))
                              canonical_proxy_types))).
  { intro H. apply in_map_iff in H. destruct H as (x & Hx & Hin).
    apply filter_In in Hin. destruct Hin as [_ Hk].
    apply negb_true_iff in Hk.
    assert (option_string_eqb (Some x) first = true) by now apply option_string_eqb_eq.
    congruence. }
  set (tail := map Some _) in *.
  assert (NT : List.NoDup (None :: tail)) by (apply List.NoDup_cons; assumption).
  destruct (option_string_truthy first) eqn:T; cbn [app]; [|exact NT].
  apply List.NoDup_cons; [|exact NT].
  intros [H|H]; [|contradiction].
  rewrite <- H in T. discriminate T.
Qed.

(** ** The candidate query executor *)

Lemma fetch_loop_step {W R} (query : query_fn W R) pt rest last_err (w : W) :
  fetch_loop query (pt :: rest) last_err w
  = match query pt w with
    | (Ok r, w') => Run (Ok r) w' [pt]
    | (Raise e, w') =>
        if retried e then called pt (fetch_loop query rest (Some e) w')
        else Run (Raise e) w' [pt]
    end.
Proof.
  simpl. destruct (query pt w) as [[r|e] w']; [reflexivity|].
  destruct e as [| | | | |[[|[]|]|] | |]; try reflexivity.
  all: unfold retried; simpl; try reflexivity.
  all: repeat match goal with |- context [match ?p with xH => _ | xO _ => _ | xI _ => _ end] => destruct p end; reflexivity.
Qed.

Lemma replay_cons {W R} (query : query_fn W R) pt rest (w : W) :
  replay query (pt :: rest) w
  = (fst (query pt w) :: fst (replay query rest (snd (query pt w))),
     snd (replay query rest (snd (query pt w)))).
Proof.
  simpl. destruct (query pt w) as [o w']. simpl.
  destruct (replay query rest w') as [os w'']. reflexivity.
Qed.

Lemma last_cons_default {A} (l : list A) (a d : A) :
  List.last (a :: l) d = List.last l a.
Proof.
  revert a d. induction l as [|b l IH]; intros a d; [reflexivity|].
  change (List.last (a :: b :: l) d) with (List.last (b :: l) d).
  now rewrite (IH b d), (IH b a).
Qed.

Lemma fetch_loop_spec {W R} (query : query_fn W R) (pts : list (option string)) :
  forall (last_err : option exn) (w : W),
    let r := fetch_loop query pts last_err w in
    let outs := fst (replay query (calls r) w) in
    (exists n, calls r = firstn n pts) /\
    world r = snd (replay query (calls r) w) /\
    match outcome r with
    | Ok v => exists before, outs = (before ++ [Ok v])%list /\ Forall retried_failure before
    | Raise e =>
        (exists before,
            outs = (before ++ [Raise e])%list /\ Forall retried_failure before
            /\ retried e = false)
        \/ (calls r = pts /\ Forall retried_failure outs
            /\ Raise e
               = List.last outs
                   (match last_err with
                    | Some e0 => Raise e0
                    | None => Raise AssertionError
                    end))
    end.
Proof.
  induction pts as [|pt rest IH]; intros last_err w.
  - simpl. destruct last_err as [e0|]; simpl.
    all: split; [exists 0%nat; reflexivity|]; split; [reflexivity|].
    all: right; split; [reflexivity|]; split; [constructor | reflexivity].
  - rewrite fetch_loop_step.
    destruct (query pt w) as [[v|e] w'] eqn:Q.
    + cbn [calls world outcome]. rewrite replay_cons, Q. cbn [fst snd replay].
      split; [exists 1%nat; reflexivity|]. split; [reflexivity|].
      exists []. split; [reflexivity | constructor].
    + destruct (retried e) eqn:Re.
      * specialize (IH (Some e) w').
        cbv zeta in IH. destruct IH as ((n & Hn) & Hw & Ho).
        unfold called. cbn [calls world outcome].
        rewrite replay_cons, Q. cbn [fst snd].
        split; [exists (S n); simpl; now rewrite Hn|]. split; [exact Hw|].
        set (r := fetch_loop query rest (Some e) w') in *.
        set (outs := fst (replay query (calls r) w')) in *.
        destruct (outcome r) as [v|e'].
        -- destruct Ho as (before & Hb & Hf).
           exists (Raise e :: before). rewrite Hb. split; [reflexivity|].
           constructor; [exact Re | exact Hf].
        -- destruct Ho as [(before & Hb & Hf & Hr) | (Hc & Hf & Hl)].
           ++ left. exists (Raise e :: before). rewrite Hb.
              split; [reflexivity|]. split; [|exact Hr].
              constructor; [exact Re | exact Hf].
           ++ right. split; [now rewrite Hc|]. split.
              ** constructor; [exact Re | exact Hf].
              ** rewrite Hl. symmetry. apply last_cons_default.
      * cbn [calls world outcome]. rewrite replay_cons, Q. cbn [fst snd replay].
        split; [exists 1%nat; reflexivity|]. split; [reflexivity|].
        left. exists []. split; [reflexivity|]. split; [constructor | exact Re].
Qed.

(** C1, as the code has it.  The executor queries the candidates in list
    order, each at most once, one call after the other; it returns the
    result of the first call that succeeds.  An HTTP status error with
    status 400 and any exception that is no HTTP status error (a
    transport failure) are recorded and the next candidate is tried; an
    HTTP status error with another status propagates at once, with no
    further call.  When every candidate failed in a retried way, the last
    recorded error is raised. *)
Theorem executor_first_success_or_first_fatal {W R} (query : query_fn W R)
  (proxy_types : list (option string)) (w : W) :
  let r := _fetch_month_usage_with_fallback query proxy_types w in
  let outs := fst (replay query (calls r) w) in
  (exists n, calls r = firstn n proxy_types) /\
  world r = snd (replay query (calls r) w) /\
  match outcome r with
  | Ok v => exists before, outs = (before ++ [Ok v])%list /\ Forall retried_failure before
  | Raise e =>
      (exists before,
          outs = (before ++ [Raise e])%list /\ Forall retried_failure before
          /\ retried e = false)
      \/ (calls r = proxy_types /\ Forall retried_failure outs
          /\ Raise e = List.last outs (Raise AssertionError))
  end.
Proof.
  exact (fetch_loop_spec query proxy_types None w).
Qed.

(** The classes of failure, as [retried] sorts them. *)
Lemma retried_classes :
  retried (HTTPStatusError (Some 400)) = true /\
  retried (HTTPStatusError (Some 401)) = false /\
  retried (HTTPStatusError (Some 429)) = false /\
  retried (HTTPStatusError (Some 503)) = false /\
  retried (HTTPStatusError None) = false /\
  (forall what, retried (OtherException what) = true) /\
  (forall what, retried (BaseOnly what) = false).
Proof. repeat split. Qed.

(** C1 as stated fails: a transport failure is no HTTP 400 failure, yet
    it does not propagate; the executor goes on to the next candidate and
    returns its response. *)
Lemma transport_failure_does_not_propagate :
  let r := _fetch_month_usage_with_fallback transport_error_for_a
             [Some "a"; Some "b"] tt in
  fst (transport_error_for_a (Some "a") tt) = Raise (OtherException "ConnectError")
  /\ outcome r = Ok "response"
  /\ calls r = [Some "a"; Some "b"].
Proof. repeat split. Qed.

(** ** Calendar facts *)

Lemma andb_true_split (a b : bool) : a && b = true -> a = true /\ b = true.
Proof. destruct a, b; simpl; intro H; (discriminate H || (split; reflexivity)). Qed.

Lemma valid_date_iff (d : date) :
  valid_date d = true
  <-> MINYEAR <= year d <= MAXYEAR /\ 1 <= month d <= 12
      /\ 1 <= day d <= days_in_month (year d) (month d).
Proof.
  unfold valid_date. rewrite !andb_true_iff, !Z.leb_le. lia.
Qed.

Lemma days_in_month_bounds (y m : Z) :
  1 <= m <= 12 -> 28 <= days_in_month y m <= 31.
Proof.
  intro Hm. unfold days_in_month.
  assert (C : m = 1 \/ m = 2 \/ m = 3 \/ m = 4 \/ m = 5 \/ m = 6 \/ m = 7 \/ m = 8
              \/ m = 9 \/ m = 10 \/ m = 11 \/ m = 12) by lia.
  destruct (isleap y);
    repeat (destruct C as [->|C]; [vm_compute; split; discriminate|]);
    subst m; vm_compute; split; discriminate.
Qed.

Lemma last_day_of_month_ok (y m : Z) :
  1 <= m <= 12 -> _last_day_of_month y m = Ok (days_in_month y m).
Proof.
  intro Hm. unfold _last_day_of_month, monthrange_ndays, days_in_month.
  replace ((1 <=? m) && (m <=? 12)) with true
    by (symmetry; apply andb_true_iff; split; apply Z.leb_le; lia).
  f_equal.
  destruct (m =? 2) eqn:E2; simpl.
  - apply Z.eqb_eq in E2. subst m. destruct (isleap y); reflexivity.
  - lia.
Qed.

Lemma date_new_ok (y m d : Z) :
  MINYEAR <= y <= MAXYEAR -> 1 <= m <= 12 -> 1 <= d <= days_in_month y m ->
  date_new y m d = Ok (Date y m d).
Proof.
  intros Hy Hm Hd. unfold date_new.
  replace (valid_date (Date y m d)) with true; [reflexivity|].
  symmetry. apply valid_date_iff. simpl. auto.
Qed.

Lemma date_new_inv (y m d : Z) (r : date) :
  date_new y m d = Ok r -> r = Date y m d /\ valid_date r = true.
Proof.
  unfold date_new. destruct (valid_date (Date y m d)) eqn:V; intro H; [|discriminate H].
  injection H as <-. auto.
Qed.

Lemma date_new_raises (y m d : Z) (e : exn) :
  date_new y m d = Raise e -> e = ValueError.
Proof.
  unfold date_new. destruct (valid_date _); intro H; [discriminate H|].
  now injection H.
Qed.

Lemma date_ltb_lt (a b : date) :
  date_ltb a b = true
  <-> year a < year b
      \/ (year a = year b
          /\ (month a < month b \/ (month a = month b /\ day a < day b))).
Proof.
  unfold date_ltb.
  rewrite !orb_true_iff, !andb_true_iff, !orb_true_iff, !andb_true_iff,
    !Z.ltb_lt, !Z.eqb_eq. tauto.
Qed.

Lemma date_eqb_eq (a b : date) : date_eqb a b = true <-> a = b.
Proof.
  unfold date_eqb. rewrite !andb_true_iff, !Z.eqb_eq.
  destruct a, b; simpl. split; [intros [[-> ->] ->]; reflexivity|].
  intro H. injection H as -> -> ->. auto.
Qed.

Lemma date_leb_le (a b : date) :
  date_leb a b = true
  <-> year a < year b
      \/ (year a = year b
          /\ (month a < month b \/ (month a = month b /\ day a <= day b))).
Proof.
  unfold date_leb. rewrite orb_true_iff, date_ltb_lt, date_eqb_eq.
  split.
  - intros [H | ->]; lia.
  - intro H.
    destruct (Z.eq_dec (year a) (year b)) as [Ey|]; [|left; lia].
    destruct (Z.eq_dec (month a) (month b)) as [Em|]; [|left; lia].
    destruct (Z.eq_dec (day a) (day b)) as [Ed|]; [|left; lia].
    right. destruct a, b; simpl in *; congruence.
Qed.

(** ** The tolerant parser never raises *)

Lemma datetime_new_inv (y m d hh mi ss : Z) (t : datetime) :
  datetime_new y m d hh mi ss = Ok t ->
  dt_date t = Date y m d /\ valid_date (Date y m d) = true.
Proof.
  unfold datetime_new. destruct (date_new y m d) as [dd|e] eqn:D; simpl; [|discriminate].
  apply date_new_inv in D. destruct D as [-> V].
  destruct (_ && _); intro H; [|discriminate H].
  injection H as <-. auto.
Qed.

Lemma datetime_new_raises (y m d hh mi ss : Z) (e : exn) :
  datetime_new y m d hh mi ss = Raise e -> e = ValueError.
Proof.
  unfold datetime_new. destruct (date_new y m d) as [dd|e'] eqn:D; simpl.
  - destruct (_ && _); intro H; [discriminate H | now injection H].
  - intro H. injection H as <-. now apply date_new_raises in D.
Qed.

Lemma first_full_match_raises {A} (m : matcher A) (s : string) (e : exn) :
  first_full_match m s = Raise e -> e = ValueError.
Proof.
  unfold first_full_match. destruct (m s) as [|[a [|c r]] l]; intro H;
    try discriminate H; now injection H.
Qed.

Lemma strptime_ymd_raises (s : string) (e : exn) :
  strptime_ymd s = Raise e -> e = ValueError.
Proof.
  unfold strptime_ymd.
  destruct (first_full_match re_ymd s) as [[[y m] d]|e'] eqn:F; simpl.
  - apply datetime_new_raises.
  - intro H. injection H as <-. now apply first_full_match_raises in F.
Qed.

Lemma strptime_ymd_hms_raises (s : string) (e : exn) :
  strptime_ymd_hms s = Raise e -> e = ValueError.
Proof.
  unfold strptime_ymd_hms.
  destruct (first_full_match re_ymd_hms s) as [[[[y m] d] [[hh mi] ss]]|e'] eqn:F; simpl.
  - apply datetime_new_raises.
  - intro H. injection H as <-. now apply first_full_match_raises in F.
Qed.

Lemma parse_full_timestamp_cases (s : string) :
  parse_full_timestamp s = Raise ValueError
  \/ exists d, parse_full_timestamp s = Ok d /\ valid_date d = true.
Proof.
  unfold parse_full_timestamp.
  destruct (strptime_ymd_hms _) as [t|e] eqn:P; simpl.
  - right. exists (dt_date t). split; [reflexivity|].
    unfold strptime_ymd_hms in P.
    destruct (first_full_match re_ymd_hms _) as [[[[y m] d] [[hh mi] ss]]|e']; simpl in P;
      [|discriminate P].
    apply datetime_new_inv in P. destruct P as [-> V]. exact V.
  - left. now apply strptime_ymd_hms_raises in P as ->.
Qed.

Lemma parse_date_only_cases (s : string) :
  parse_date_only s = Raise ValueError
  \/ exists d, parse_date_only s = Ok d /\ valid_date d = true.
Proof.
  unfold parse_date_only.
  destruct (strptime_ymd _) as [t|e] eqn:P; simpl.
  - right. exists (dt_date t). split; [reflexivity|].
    unfold strptime_ymd in P.
    destruct (first_full_match re_ymd _) as [[[y m] d]|e']; simpl in P; [|discriminate P].
    apply datetime_new_inv in P. destruct P as [-> V]. exact V.
  - left. now apply strptime_ymd_raises in P as ->.
Qed.

(** What [_parse_date_guess] returns, by the outcome of its two attempts
    on the stripped text. *)
Lemma parse_date_guess_cases (s : string) :
  _parse_date_guess s
  = if negb (str_nonempty (strip s)) then Ok None
    else match parse_full_timestamp (strip s) with
         | Ok d => Ok (Some d)
         | Raise _ =>
             match parse_date_only (strip s) with
             | Ok d => Ok (Some d)
             | Raise _ => Ok None
             end
         end.
Proof.
  unfold _parse_date_guess.
  destruct (negb (str_nonempty (strip s))); [reflexivity|].
  destruct (parse_full_timestamp_cases (strip s)) as [-> | (d & -> & _)]; simpl;
    [|reflexivity].
  destruct (parse_date_only_cases (strip s)) as [-> | (d & -> & _)]; reflexivity.
Qed.

Lemma parse_date_guess_total (s : string) :
  exists o, _parse_date_guess s = Ok o.
Proof.
  rewrite parse_date_guess_cases.
  destruct (negb _); [eauto|].
  destruct (parse_full_timestamp _); [eauto|].
  destruct (parse_date_only _); eauto.
Qed.

Lemma parse_date_guess_valid (s : string) (d : date) :
  _parse_date_guess s = Ok (Some d) -> valid_date d = true.
Proof.
  rewrite parse_date_guess_cases.
  destruct (negb _); [discriminate|].
  destruct (parse_full_timestamp_cases (strip s)) as [-> | (d1 & -> & V1)].
  - destruct (parse_date_only_cases (strip s)) as [-> | (d2 & -> & V2)];
      [discriminate|].
    intro H. injection H as <-. exact V2.
  - intro H. injection H as <-. exact V1.
Qed.




(** ** The billing cycle *)

(** The cycle start, from the parsed anchor: total except where the
    previous month would fall before year 1. *)
Lemma period_start_spec (s : string) (anchor : date) (now_utc : datetime) :
  _parse_date_guess s = Ok (Some anchor) ->
  valid_date (dt_date now_utc) = true ->
  ~ (year (dt_date now_utc) = MINYEAR /\ month (dt_date now_utc) = 1
     /\ day (dt_date now_utc) < day anchor) ->
  exists start,
    _anchored_period_start s now_utc = Ok (Some start)
    /\ valid_date start = true
    /\ date_leb start (dt_date now_utc) = true
    /\ day start = Z.min (day anchor) (days_in_month (year start) (month start)).
Proof.
  intros P V Hrange.
  pose proof (parse_date_guess_valid _ _ P) as Va.
  apply valid_date_iff in Va. destruct Va as (_ & Hma & Hda).
  pose proof (days_in_month_bounds (year anchor) (month anchor) Hma) as Ba.
  set (today := dt_date now_utc) in *.
  apply valid_date_iff in V. destruct V as (Hy & Hm & Hd).
  pose proof (days_in_month_bounds (year today) (month today) Hm) as Bt.
  unfold _anchored_period_start. rewrite P. cbn [bind]. fold today.
  rewrite (last_day_of_month_ok _ _ Hm). cbn [bind].
  rewrite date_new_ok by lia. cbn [bind].
  destruct (date_leb _ today) eqn:L.
  - eexists. split; [reflexivity|]. split; [apply valid_date_iff; simpl; lia|].
    split; [exact L | reflexivity].
  - assert (NL : ~ (Z.min (day anchor) (days_in_month (year today) (month today))
                    <= day today)).
    { intro H. assert (date_leb (Date (year today) (month today)
                          (Z.min (day anchor) (days_in_month (year today) (month today))))
                          today = true) as C
        by (apply date_leb_le; simpl; lia).
      congruence. }
    destruct (month today =? 1) eqn:M1.
    + apply Z.eqb_eq in M1.
      assert (year today <> MINYEAR) by (intro; apply Hrange; lia).
      unfold MINYEAR, MAXYEAR in *.
      rewrite (last_day_of_month_ok (year today - 1) 12) by lia. cbn [bind].
      pose proof (days_in_month_bounds (year today - 1) 12 ltac:(lia)) as Bp.
      rewrite date_new_ok by (unfold MINYEAR, MAXYEAR; lia). cbn [bind].
      eexists. split; [reflexivity|].
      split; [apply valid_date_iff; unfold MINYEAR, MAXYEAR; simpl; lia|].
      split; [apply date_leb_le; simpl; lia | reflexivity].
    + apply Z.eqb_neq in M1.
      rewrite (last_day_of_month_ok (year today) (month today - 1)) by lia. cbn [bind].
      pose proof (days_in_month_bounds (year today) (month today - 1) ltac:(lia)) as Bp.
      rewrite date_new_ok by lia. cbn [bind].
      eexists. split; [reflexivity|].
      split; [apply valid_date_iff; simpl; lia|].
      split; [apply date_leb_le; simpl; lia | reflexivity].
Qed.

(** The cycle end, from the parsed anchor and any start date: total
    except where the next month would fall after year 9999. *)
Lemma period_end_spec (s : string) (anchor start : date) :
  _parse_date_guess s = Ok (Some anchor) ->
  valid_date start = true ->
  ~ (year start = MAXYEAR /\ month start = 12) ->
  exists e,
    _anchored_period_end s start = Ok (Some e)
    /\ valid_date e = true
    /\ date_ltb start e = true
    /\ day e = Z.min (day anchor) (days_in_month (year e) (month e)).
Proof.
  intros P V Hrange.
  pose proof (parse_date_guess_valid _ _ P) as Va.
  apply valid_date_iff in Va. destruct Va as (_ & Hma & Hda).
  pose proof (days_in_month_bounds (year anchor) (month anchor) Hma) as Ba.
  apply valid_date_iff in V. destruct V as (Hy & Hm & Hd).
  unfold _anchored_period_end. rewrite P. cbn [bind].
  unfold MINYEAR, MAXYEAR in *.
  destruct (month start =? 12) eqn:M12.
  - apply Z.eqb_eq in M12.
    rewrite (last_day_of_month_ok (year start + 1) 1) by lia. cbn [bind].
    pose proof (days_in_month_bounds (year start + 1) 1 ltac:(lia)) as Bn.
    rewrite date_new_ok by (unfold MINYEAR, MAXYEAR; lia). cbn [bind].
    eexists. split; [reflexivity|].
    split; [apply valid_date_iff; unfold MINYEAR, MAXYEAR; simpl; lia|].
    split; [apply date_ltb_lt; simpl; lia | reflexivity].
  - apply Z.eqb_neq in M12.
    rewrite (last_day_of_month_ok (year start) (month start + 1)) by lia. cbn [bind].
    pose proof (days_in_month_bounds (year start) (month start + 1) ltac:(lia)) as Bn.
    rewrite date_new_ok by (unfold MINYEAR, MAXYEAR; lia). cbn [bind].
    eexists. split; [reflexivity|].
    split; [apply valid_date_iff; unfold MINYEAR, MAXYEAR; simpl; lia|].
    split; [apply date_ltb_lt; simpl; lia | reflexivity].
Qed.

(** C2, within the range of [datetime.date].  For an anchor whose day of
    month is [d] (so [d] is in 1..31) and a current date [now]: unless
    the cycle would start before year 1 ([now] in January of year 1,
    before the anchor day), the cycle start is a date at or before [now]
    whose day is [min(d, last day of its own month)]; and unless that
    start lies in December 9999, the cycle end is a date strictly after
    the start whose day is [min(d, last day of its own month)].  For the
    anchor "2024-01-31" on 2024-02-15 the cycle runs from 2024-01-31 to
    2024-02-29. *)
Theorem cycle_start_and_end_clamped (s : string) (anchor : date) (d : Z)
  (now_utc : datetime) :
  _parse_date_guess s = Ok (Some anchor) ->
  day anchor = d ->
  valid_date (dt_date now_utc) = true ->
  1 <= d <= 31
  /\ (~ (year (dt_date now_utc) = MINYEAR /\ month (dt_date now_utc) = 1
         /\ day (dt_date now_utc) < d) ->
      exists start ld,
        _anchored_period_start s now_utc = Ok (Some start)
        /\ date_leb start (dt_date now_utc) = true
        /\ _last_day_of_month (year start) (month start) = Ok ld
        /\ day start = Z.min d ld
        /\ (~ (year start = MAXYEAR /\ month start = 12) ->
            exists end_ ld',
              _anchored_period_end s start = Ok (Some end_)
              /\ date_ltb start end_ = true
              /\ _last_day_of_month (year end_) (month end_) = Ok ld'
              /\ day end_ = Z.min d ld'))
  /\ (forall hh mi ss,
        _anchored_period_start "2024-01-31" (DateTime (Date 2024 2 15) hh mi ss)
        = Ok (Some (Date 2024 1 31)))
  /\ _anchored_period_end "2024-01-31" (Date 2024 1 31) = Ok (Some (Date 2024 2 29)).
Proof.
  intros P Hd V. subst d.
  split.
  { pose proof (parse_date_guess_valid _ _ P) as Va.
    apply valid_date_iff in Va. destruct Va as (_ & Hma & Hda).
    pose proof (days_in_month_bounds (year anchor) (month anchor) Hma). lia. }
  split; [|split; [intros; vm_compute; reflexivity | vm_compute; reflexivity]].
  intro Hrange.
  destruct (period_start_spec s anchor now_utc P V Hrange) as (start & Hs & Vs & Ls & Ds).
  exists start, (days_in_month (year start) (month start)).
  split; [exact Hs|]. split; [exact Ls|].
  pose proof Vs as Vs'. apply valid_date_iff in Vs'. destruct Vs' as (_ & Hms & _).
  split; [apply last_day_of_month_ok; exact Hms|]. split; [exact Ds|].
  intro Hend.
  destruct (period_end_spec s anchor start P Vs Hend) as (e & He & Ve & Le & De).
  exists e, (days_in_month (year e) (month e)).
  split; [exact He|]. split; [exact Le|].
  apply valid_date_iff in Ve. destruct Ve as (_ & Hme & _).
  split; [apply last_day_of_month_ok; exact Hme | exact De].
Qed.

Lemma cycle_start_and_end_clamped_witness :
  exists start,
    _anchored_period_start "2024-04-30T08:00:00Z" (DateTime (Date 2024 3 5) 9 0 0)
    = Ok (Some start)
    /\ date_leb start (Date 2024 3 5) = true
    /\ day start = 29.
Proof.
  destruct (cycle_start_and_end_clamped "2024-04-30T08:00:00Z" (Date 2024 4 30) 30
              (DateTime (Date 2024 3 5) 9 0 0))
    as (_ & H & _); [vm_compute; reflexivity | reflexivity | reflexivity |].
  destruct H as (start & ld & Hs & Hl & Hld & Hday & _).
  { cbn. unfold MINYEAR. lia. }
  exists start. split; [exact Hs|]. split; [exact Hl|].
  assert (start = Date 2024 2 29) as -> by (vm_compute in Hs; congruence).
  reflexivity.
Defined.

(** C2 as stated fails at the two ends of the range of dates: on
    0001-01-15 with anchor day 31 the previous month lies in year 0, and
    from a start in December 9999 the next month lies in year 10000;
    [dt.date] raises [ValueError] for both. *)
Lemma cycle_outside_date_range_raises :
  valid_date (Date 1 1 15) = true
  /\ _anchored_period_start "2024-01-31" (DateTime (Date 1 1 15) 0 0 0)
     = Raise ValueError
  /\ _anchored_period_start "2024-01-31" (DateTime (Date 9999 12 31) 0 0 0)
     = Ok (Some (Date 9999 12 31))
  /\ _anchored_period_end "2024-01-31" (Date 9999 12 31) = Raise ValueError.
Proof. vm_compute. repeat split; reflexivity. Qed.

(** ** Dates written as text *)

Lemma digit_char_cases (n : Z) :
  exists k, 0 <= k <= 9 /\ n mod 10 = k /\ digit_char n = chr (48 + k).
Proof.
  exists (n mod 10). pose proof (Z.mod_pos_bound n 10 ltac:(lia)).
  split; [lia|]. split; reflexivity.
Qed.

Ltac digit_cases n :=
  let k := fresh "k" in
  let Hk := fresh "Hk" in
  let Hm := fresh "Hm" in
  let Hc := fresh "Hc" in
  destruct (digit_char_cases n) as (k & Hk & Hm & Hc);
  rewrite ?Hc, ?Hm;
  assert (k = 0 \/ k = 1 \/ k = 2 \/ k = 3 \/ k = 4 \/ k = 5 \/ k = 6 \/ k = 7
          \/ k = 8 \/ k = 9) as Hcases by lia;
  clear Hk Hc Hm;
  repeat (destruct Hcases as [->|Hcases]); [..|subst k].

Lemma digit_char_not_space (n : Z) : isspace (digit_char n) = false.
Proof. digit_cases n; reflexivity. Qed.

Lemma digit_char_is_digit (n : Z) : is_digit (digit_char n) = true.
Proof. digit_cases n; reflexivity. Qed.

Lemma digit_char_val (n : Z) : digit_val (digit_char n) = n mod 10.
Proof. digit_cases n; reflexivity. Qed.

Lemma digit_char_neq (n : Z) (c : ascii) :
  is_digit c = false -> Ascii.eqb (digit_char n) c = false.
Proof.
  intro H. destruct (Ascii.eqb (digit_char n) c) eqn:E; [|reflexivity].
  apply Ascii.eqb_eq in E. subst c. rewrite digit_char_is_digit in H. discriminate.
Qed.

Lemma date_chars_strftime (d : date) : string_forall is_date_char (strftime_ymd d) = true.
Proof.
  unfold strftime_ymd, is_date_char. cbn [string_forall].
  rewrite !digit_char_is_digit. reflexivity.
Qed.

Lemma date_char_plain (c : ascii) :
  is_date_char c = true ->
  isspace c = false /\ Ascii.eqb c "T" = false /\ Ascii.eqb c "Z" = false
  /\ Ascii.eqb c "." = false.
Proof.
  unfold is_date_char. intro H. apply orb_true_iff in H.
  destruct H as [H|H].
  - unfold is_digit, isspace in *. cbv zeta in *.
    apply andb_true_iff in H. destruct H as [H1 H2].
    apply Z.leb_le in H1. apply Z.leb_le in H2.
    assert (code c = 48 \/ code c = 49 \/ code c = 50 \/ code c = 51 \/ code c = 52
            \/ code c = 53 \/ code c = 54 \/ code c = 55 \/ code c = 56
            \/ code c = 57) as C by lia.
    assert (forall c', code c <> code c' -> Ascii.eqb c c' = false) as NE.
    { intros c' Hne. apply Ascii.eqb_neq. intros ->. congruence. }
    repeat split.
    + repeat (destruct C as [C|C]; [rewrite C; reflexivity|]). rewrite C. reflexivity.
    + apply NE. change (code "T") with 84. lia.
    + apply NE. change (code "Z") with 90. lia.
    + apply NE. change (code ".") with 46. lia.
  - apply Ascii.eqb_eq in H. subst c. repeat split.
Qed.

Lemma drop_while_end_keep (p : ascii -> bool) (c : ascii) (s : string) :
  p c = false -> drop_while_end p (String c s) = String c (drop_while_end p s).
Proof.
  intro H. cbn [drop_while_end]. rewrite H.
  destruct (drop_while_end p s); reflexivity.
Qed.

Lemma append_cons (c : ascii) (t rest : string) :
  String c t ++ rest = String c (t ++ rest).
Proof. reflexivity. Qed.

Lemma append_empty (rest : string) : EmptyString ++ rest = rest.
Proof. reflexivity. Qed.

Lemma drop_while_end_prefix (p : ascii -> bool) (t rest : string) :
  string_forall (fun c => negb (p c)) t = true ->
  drop_while_end p (t ++ rest) = t ++ drop_while_end p rest.
Proof.
  induction t as [|c t IH]; cbn [string_forall]; intro H; [reflexivity|].
  apply andb_true_iff in H. destruct H as [Hc Ht].
  rewrite !append_cons.
  rewrite drop_while_end_keep by (now apply negb_true_iff). now rewrite IH.
Qed.

Lemma string_forall_impl (p q : ascii -> bool) (s : string) :
  (forall c, p c = true -> q c = true) ->
  string_forall p s = true -> string_forall q s = true.
Proof.
  intro I. induction s as [|c s IH]; cbn [string_forall]; [reflexivity|].
  intro H. apply andb_true_iff in H. destruct H as [Hc Hs].
  rewrite (I c Hc), (IH Hs). reflexivity.
Qed.

(** Stripping keeps a leading date text. *)
Lemma strip_date_prefix (c : ascii) (t rest : string) :
  string_forall is_date_char (String c t) = true ->
  strip (String c t ++ rest) = String c t ++ drop_while_end isspace rest.
Proof.
  intro H. unfold strip.
  assert (Hc : isspace c = false).
  { cbn [string_forall] in H. apply andb_true_iff in H. destruct H as [H _].
    now apply date_char_plain in H. }
  rewrite append_cons. cbn [drop_while]. rewrite Hc.
  rewrite <- append_cons.
  apply drop_while_end_prefix.
  revert H. apply string_forall_impl. intros c' Hc'.
  apply date_char_plain in Hc'. destruct Hc' as [-> _]. reflexivity.
Qed.

(** The ISO clean-up keeps a leading date text. *)
Lemma cleanup_date_prefix (t rest : string) :
  string_forall is_date_char t = true ->
  split_head "." (replace "Z" "" (replace "T" " " (t ++ rest)))
  = t ++ split_head "." (replace "Z" "" (replace "T" " " rest)).
Proof.
  induction t as [|c t IH]; cbn [string_forall]; intro H; [reflexivity|].
  apply andb_true_iff in H. destruct H as [Hc Ht].
  apply date_char_plain in Hc. destruct Hc as (_ & HT & HZ & Hdot).
  rewrite !append_cons.
  cbn [replace]. rewrite HT. cbn [replace]. rewrite HZ. cbn [split_head].
  rewrite Hdot. now rewrite IH.
Qed.

Lemma take_prefix (t rest : string) : take (String.length t) (t ++ rest) = t.
Proof.
  induction t as [|c t IH]; cbn [String.length take].
  - destruct rest; reflexivity.
  - rewrite append_cons. cbn [take]. now rewrite IH.
Qed.

Lemma strftime_length (d : date) : String.length (strftime_ymd d) = 10%nat.
Proof. reflexivity. Qed.

(** ** The date patterns on a date text *)

Lemma in_m_bind {A B} (m : matcher A) (k : A -> matcher B) (s : string) (x : B * string) :
  In x (m_bind m k s) <-> exists a r, In (a, r) (m s) /\ In x (k a r).
Proof.
  unfold m_bind. rewrite in_flat_map. split.
  - intros ([a r] & H1 & H2). eauto.
  - intros (a & r & H1 & H2). exists (a, r). auto.
Qed.

Lemma m_digit_digit_char (lo hi n : Z) (r : string) :
  m_digit lo hi (String (digit_char n) r)
  = if (lo <=? n mod 10) && (n mod 10 <=? hi) then [(n mod 10, r)] else [].
Proof.
  unfold m_digit. rewrite digit_char_is_digit, digit_char_val. reflexivity.
Qed.

Lemma re_Y_text (y : Z) (r : string) :
  0 <= y <= 9999 ->
  re_Y (String (digit_char (y / 1000)) (String (digit_char (y / 100))
         (String (digit_char (y / 10)) (String (digit_char y) r))))
  = [(y, r)].
Proof.
  intro Hy. unfold re_Y, m_digit2, m_bind, m_ret.
  rewrite m_digit_digit_char.
  pose proof (Z.mod_pos_bound (y / 1000) 10 ltac:(lia)).
  pose proof (Z.mod_pos_bound (y / 100) 10 ltac:(lia)).
  pose proof (Z.mod_pos_bound (y / 10) 10 ltac:(lia)).
  pose proof (Z.mod_pos_bound y 10 ltac:(lia)).
  replace ((0 <=? (y / 1000) mod 10) && ((y / 1000) mod 10 <=? 9)) with true
    by (symmetry; apply andb_true_iff; split; apply Z.leb_le; lia).
  cbn [flat_map]. rewrite m_digit_digit_char.
  replace ((0 <=? (y / 100) mod 10) && ((y / 100) mod 10 <=? 9)) with true
    by (symmetry; apply andb_true_iff; split; apply Z.leb_le; lia).
  cbn [flat_map app]. rewrite m_digit_digit_char.
  replace ((0 <=? (y / 10) mod 10) && ((y / 10) mod 10 <=? 9)) with true
    by (symmetry; apply andb_true_iff; split; apply Z.leb_le; lia).
  cbn [flat_map app]. rewrite m_digit_digit_char.
  replace ((0 <=? y mod 10) && (y mod 10 <=? 9)) with true
    by (symmetry; apply andb_true_iff; split; apply Z.leb_le; lia).
  cbn [flat_map app].
  do 2 f_equal. clear -Hy. Z.to_euclidean_division_equations. lia.
Qed.

Lemma month_cases (m : Z) :
  1 <= m <= 12 ->
    m = 1 \/ m = 2 \/ m = 3 \/ m = 4 \/ m = 5 \/ m = 6 \/ m = 7 \/ m = 8 \/ m = 9 \/
    m = 10 \/ m = 11 \/ m = 12.
Proof. lia. Qed.

Lemma day_cases (d : Z) :
  1 <= d <= 31 ->
    d = 1 \/ d = 2 \/ d = 3 \/ d = 4 \/ d = 5 \/ d = 6 \/ d = 7 \/ d = 8 \/ d = 9 \/
    d = 10 \/ d = 11 \/ d = 12 \/ d = 13 \/ d = 14 \/ d = 15 \/ d = 16 \/ d = 17 \/
    d = 18 \/ d = 19 \/ d = 20 \/ d = 21 \/ d = 22 \/ d = 23 \/ d = 24 \/ d = 25 \/
    d = 26 \/ d = 27 \/ d = 28 \/ d = 29 \/ d = 30 \/ d = 31.
Proof. lia. Qed.

(** What follows the year in the pattern of ["%Y-%m-%d"], on the text of
    a month and a day: the match of both digits of the day comes first;
    when the day has a tens digit, a second match reads that digit alone
    and leaves the other one. *)
Lemma re_month_day_text (y m d : Z) (r : string) :
  1 <= m <= 12 -> 1 <= d <= 31 ->
  m_bind (m_lit "-") (fun _ =>
  m_bind re_m (fun m' =>
  m_bind (m_lit "-") (fun _ =>
  m_bind re_d (fun d' => m_ret (y, m', d')))))
    (String "-" (String (digit_char (m / 10)) (String (digit_char m)
       (String "-" (String (digit_char (d / 10)) (String (digit_char d) r))))))
  = ((y, m, d), r)
    :: (if 10 <=? d then [((y, m, d / 10), String (digit_char d) r)] else []).
Proof.
  intros Hm Hd.
  apply day_cases in Hd. apply month_cases in Hm.
  repeat (destruct Hd as [->|Hd]); try subst d;
    repeat (destruct Hm as [->|Hm]); try subst m; vm_compute; reflexivity.
Qed.

Lemma re_ymd_text (dd : date) (r : string) :
  valid_date dd = true ->
  re_ymd (strftime_ymd dd ++ r)
  = ((year dd, month dd, day dd), r)
    :: (if 10 <=? day dd
        then [((year dd, month dd, day dd / 10), String (digit_char (day dd)) r)]
        else []).
Proof.
  intro V. apply valid_date_iff in V. destruct V as (Hy & Hm & Hd).
  pose proof (days_in_month_bounds (year dd) _ Hm) as B.
  destruct dd as [y m d]. cbn [year month day] in *.
  unfold strftime_ymd. cbn [year month day].
  rewrite !append_cons, append_empty.
  unfold re_ymd. unfold m_bind at 1.
  rewrite re_Y_text by (unfold MINYEAR, MAXYEAR in Hy; lia).
  cbn [flat_map]. rewrite app_nil_r.
  apply re_month_day_text; lia.
Qed.

Lemma append_nil_r' (s : string) : s ++ EmptyString = s.
Proof. induction s as [|c s IH]; [reflexivity|]. now rewrite append_cons, IH. Qed.

Lemma date_eta (dd : date) : Date (year dd) (month dd) (day dd) = dd.
Proof. destruct dd; reflexivity. Qed.

Lemma strptime_ymd_text (dd : date) :
  valid_date dd = true -> strptime_ymd (strftime_ymd dd) = Ok (DateTime dd 0 0 0).
Proof.
  intro V. unfold strptime_ymd, first_full_match.
  rewrite <- (append_nil_r' (strftime_ymd dd)), (re_ymd_text dd EmptyString V).
  cbn [bind]. unfold datetime_new, date_new. rewrite date_eta, V. reflexivity.
Qed.

Lemma re_ymd_hms_text_date (dd : date) (r : string) (x : Z * Z * Z * (Z * Z * Z) * string) :
  valid_date dd = true ->
  In x (re_ymd_hms (strftime_ymd dd ++ r)) ->
  fst (fst x) = (year dd, month dd, day dd).
Proof.
  intros V H. unfold re_ymd_hms in H.
  apply in_m_bind in H. destruct H as (ymd & r1 & Hymd & H).
  rewrite (re_ymd_text dd r V) in Hymd.
  destruct Hymd as [E | Hymd].
  - injection E as <- <-.
    apply in_m_bind in H. destruct H as (? & r2 & _ & H).
    apply in_m_bind in H. destruct H as (hh & r3 & _ & H).
    apply in_m_bind in H. destruct H as (? & r4 & _ & H).
    apply in_m_bind in H. destruct H as (mi & r5 & _ & H).
    apply in_m_bind in H. destruct H as (? & r6 & _ & H).
    apply in_m_bind in H. destruct H as (ss & r7 & _ & H).
    destruct H as [<- | []]. reflexivity.
  - destruct (10 <=? day dd); [|destruct Hymd].
    destruct Hymd as [E | []]. injection E as <- <-.
    apply in_m_bind in H. destruct H as (? & r2 & Hsp & _).
    unfold m_spaces in Hsp. rewrite digit_char_not_space in Hsp. destruct Hsp.
Qed.

Lemma strptime_ymd_hms_text (dd : date) (r : string) :
  valid_date dd = true ->
  strptime_ymd_hms (strftime_ymd dd ++ r) = Raise ValueError
  \/ exists t, strptime_ymd_hms (strftime_ymd dd ++ r) = Ok t /\ dt_date t = dd.
Proof.
  intro V.
  destruct (strptime_ymd_hms (strftime_ymd dd ++ r)) as [t|e] eqn:P.
  - right. exists t. split; [reflexivity|].
    unfold strptime_ymd_hms, first_full_match in P.
    pose proof (re_ymd_hms_text_date dd r) as Hx.
    destruct (re_ymd_hms (strftime_ymd dd ++ r)) as [|[[[[y m] d] [[hh mi] ss]] rest] l];
      [discriminate P|].
    specialize (Hx _ V (or_introl eq_refl)). cbn [fst] in Hx.
    injection Hx as -> -> ->.
    destruct rest; [|discriminate P]. cbn [bind] in P.
    apply datetime_new_inv in P. destruct P as [-> _]. apply date_eta.
  - left. now apply strptime_ymd_hms_raises in P as ->.
Qed.

(** C10. A string that begins with the ten characters of a valid date,
    YYYY-MM-DD, parses to that date whatever follows them; so the parser
    accepts "2024-01-15garbage", which [strptime] accepts in neither of
    the two formats. *)
Theorem leading_date_parses_whatever_follows (dd : date) (rest : string) :
  valid_date dd = true ->
  _parse_date_guess (strftime_ymd dd ++ rest) = Ok (Some dd)
  /\ strftime_ymd (Date 2024 1 15) ++ "garbage" = "2024-01-15garbage"
  /\ _parse_date_guess "2024-01-15garbage" = Ok (Some (Date 2024 1 15))
  /\ is_ok (strptime_ymd "2024-01-15garbage") = false
  /\ is_ok (strptime_ymd_hms "2024-01-15garbage") = false.
Proof.
  intro V.
  split; [|vm_compute; repeat split; reflexivity].
  rewrite parse_date_guess_cases.
  pose proof (date_chars_strftime dd) as DC.
  assert (S : strip (strftime_ymd dd ++ rest)
              = strftime_ymd dd ++ drop_while_end isspace rest).
  { revert DC. unfold strftime_ymd. apply strip_date_prefix. }
  rewrite S.
  replace (str_nonempty _) with true by reflexivity. cbn [negb].
  assert (D : parse_date_only (strftime_ymd dd ++ drop_while_end isspace rest) = Ok dd).
  { unfold parse_date_only.
    rewrite <- (strftime_length dd), take_prefix, (strptime_ymd_text dd V).
    reflexivity. }
  unfold parse_full_timestamp. rewrite (cleanup_date_prefix _ _ DC).
  destruct (strptime_ymd_hms_text dd
              (split_head "." (replace "Z" "" (replace "T" " "
                 (drop_while_end isspace rest)))) V) as [-> | (t & -> & Ht)].
  - cbn [bind]. rewrite D. reflexivity.
  - cbn [bind]. now rewrite Ht.
Qed.

Lemma leading_date_parses_whatever_follows_witness :
  _parse_date_guess "2024-02-29 is a leap day" = Ok (Some (Date 2024 2 29)).
Proof.
  exact (proj1 (leading_date_parses_whatever_follows (Date 2024 2 29)
                  " is a leap day" eq_refl)).
Defined.

(** ** Stripping and lowering *)

Lemma drop_while_idem (p : ascii -> bool) (s : string) :
  drop_while p (drop_while p s) = drop_while p s.
Proof.
  induction s as [|c s IH]; cbn [drop_while]; [reflexivity|].
  destruct (p c) eqn:E; [exact IH|]. cbn [drop_while]. now rewrite E.
Qed.

Lemma drop_while_end_cons (p : ascii -> bool) (c : ascii) (s : string) :
  drop_while_end p (String c s)
  = match drop_while_end p s with
    | EmptyString => if p c then EmptyString else String c EmptyString
    | r' => String c r'
    end.
Proof. reflexivity. Qed.

Lemma drop_while_end_idem (p : ascii -> bool) (s : string) :
  drop_while_end p (drop_while_end p s) = drop_while_end p s.
Proof.
  induction s as [|c s IH]; [reflexivity|].
  destruct (p c) eqn:E.
  - rewrite (drop_while_end_cons p c s), E.
    destruct (drop_while_end p s) as [|c' s'] eqn:D; [reflexivity|].
    now rewrite drop_while_end_cons, IH.
  - rewrite !drop_while_end_keep by exact E. now rewrite IH.
Qed.

Lemma drop_while_drop_while_end (p : ascii -> bool) (s : string) :
  drop_while p (drop_while_end p s) = drop_while_end p (drop_while p s).
Proof.
  induction s as [|c s IH]; [reflexivity|].
  destruct (p c) eqn:E.
  - cbn [drop_while_end drop_while]. rewrite E, <- IH.
    destruct (drop_while_end p s) as [|c' s']; [reflexivity|].
    cbn [drop_while]. now rewrite E.
  - rewrite drop_while_end_keep by exact E. cbn [drop_while]. rewrite E.
    now rewrite drop_while_end_keep by exact E.
Qed.

Lemma strip_idem (s : string) : strip (strip s) = strip s.
Proof.
  unfold strip.
  now rewrite (drop_while_drop_while_end isspace (drop_while isspace s)),
    drop_while_idem, drop_while_end_idem.
Qed.

Lemma isspace_lower_char (c : ascii) : isspace (lower_char c) = isspace c.
Proof. destruct c as [[] [] [] [] [] [] [] []]; reflexivity. Qed.

Lemma lower_char_idem (c : ascii) : lower_char (lower_char c) = lower_char c.
Proof. destruct c as [[] [] [] [] [] [] [] []]; reflexivity. Qed.

Lemma lower_idem (s : string) : lower (lower s) = lower s.
Proof.
  induction s as [|c s IH]; cbn [lower]; [reflexivity|].
  now rewrite lower_char_idem, IH.
Qed.

Lemma drop_while_lower (s : string) :
  drop_while isspace (lower s) = lower (drop_while isspace s).
Proof.
  induction s as [|c s IH]; cbn [lower drop_while]; [reflexivity|].
  rewrite isspace_lower_char. destruct (isspace c); [exact IH | reflexivity].
Qed.

Lemma drop_while_end_lower (s : string) :
  drop_while_end isspace (lower s) = lower (drop_while_end isspace s).
Proof.
  induction s as [|c s IH]; cbn [lower drop_while_end]; [reflexivity|].
  rewrite isspace_lower_char, IH.
  destruct (drop_while_end isspace s); cbn [lower]; [|reflexivity].
  destruct (isspace c); reflexivity.
Qed.

Lemma strip_lower (s : string) : strip (lower s) = lower (strip s).
Proof. unfold strip. now rewrite drop_while_lower, drop_while_end_lower. Qed.

Lemma drop_while_spaces (p : ascii -> bool) (pre s : string) :
  string_forall p pre = true -> drop_while p (pre ++ s) = drop_while p s.
Proof.
  induction pre as [|c pre IH]; cbn [string_forall]; intro H; [reflexivity|].
  apply andb_true_iff in H. destruct H as [Hc Hp].
  rewrite append_cons. cbn [drop_while]. rewrite Hc. auto.
Qed.

Lemma drop_while_end_all (p : ascii -> bool) (post : string) :
  string_forall p post = true -> drop_while_end p post = EmptyString.
Proof.
  induction post as [|c post IH]; cbn [string_forall]; intro H; [reflexivity|].
  apply andb_true_iff in H. destruct H as [Hc Hp].
  cbn [drop_while_end]. now rewrite (IH Hp), Hc.
Qed.

Lemma drop_while_end_spaces (p : ascii -> bool) (s post : string) :
  string_forall p post = true -> drop_while_end p (s ++ post) = drop_while_end p s.
Proof.
  intro H. induction s as [|c s IH].
  - rewrite append_empty. now apply drop_while_end_all.
  - rewrite append_cons. cbn [drop_while_end]. now rewrite IH.
Qed.

Lemma append_assoc' (a b c : string) : (a ++ b) ++ c = a ++ (b ++ c).
Proof.
  induction a as [|x a IH]; [reflexivity|]. now rewrite !append_cons, IH.
Qed.

Lemma strip_padding (pre s post : string) :
  string_forall isspace pre = true -> string_forall isspace post = true ->
  strip (pre ++ s ++ post) = strip s.
Proof.
  intros Hpre Hpost. unfold strip.
  rewrite <- !drop_while_drop_while_end, <- append_assoc'.
  rewrite drop_while_end_spaces by exact Hpost.
  rewrite !drop_while_drop_while_end.
  now rewrite drop_while_spaces by exact Hpre.
Qed.

(** ** The unit-suffix parser *)

Lemma endswith_two_chars (n : string) (x x' y : ascii) :
  endswith n (String x (String y EmptyString)) = true ->
  endswith n (String x' (String y EmptyString)) = true ->
  x = x'.
Proof.
  unfold endswith. cbn [list_ascii_of_string rev app].
  destruct (rev (list_ascii_of_string n)) as [|a [|b l]]; cbn [endswith_rev];
    rewrite ?andb_false_r; try discriminate.
  rewrite !andb_true_r. intros H1 H2.
  apply andb_true_iff in H1, H2. destruct H1 as [_ H1], H2 as [_ H2].
  apply Ascii.eqb_eq in H1, H2. congruence.
Qed.

(** [parse_unit_value] on a string depends on the stripped, lowered
    text only. *)
Lemma parse_unit_value_normal (s t : string) :
  lower (strip s) = lower (strip t) ->
  parse_unit_value (VStr s) = parse_unit_value (VStr t).
Proof. intro H. unfold parse_unit_value. cbn [is_number]. now rewrite H. Qed.

(** C5. The unit-suffix parser reads "1.5GB" as 1 500 000 000 bytes,
    "500MB" as 500 000 000, "2KB" as 2 000 and "10" as 10; the suffixes
    GB, MB, KB and B multiply by 1e9, 1e6, 1e3 and 1; the case of the
    text and white space around it change nothing. *)
Theorem unit_suffix_parser_decimal_multipliers :
  parse_unit_value (VStr "1.5GB") = Ok (Some 1500000000)
  /\ parse_unit_value (VStr "500MB") = Ok (Some 500000000)
  /\ parse_unit_value (VStr "2KB") = Ok (Some 2000)
  /\ parse_unit_value (VStr "10") = Ok (Some 10)
  /\ parse_unit_value (VStr "99B") = Ok (Some 99)
  /\ parse_unit_value (VStr "123.4GB") = Ok (Some 123400000000)
  /\ parse_unit_value (VStr "  1.5 gB ") = Ok (Some 1500000000)
  /\ parse_unit_value (VStr "two GB") = Ok None
  /\ (forall s : string,
         parse_unit_value (VStr (lower s)) = parse_unit_value (VStr s))
  /\ (forall pre s post : string,
         string_forall isspace pre = true -> string_forall isspace post = true ->
         parse_unit_value (VStr (pre ++ s ++ post)) = parse_unit_value (VStr s))
  /\ (forall (s : string) (unit : float) (suffix : string),
         In (suffix, unit) [("gb", GB); ("mb", MB); ("kb", KB)] ->
         endswith (lower (strip s)) suffix = true ->
         parse_unit_value (VStr s)
         = catch
             (let* f := float_of_str (strip (drop_end 2 (lower (strip s)))) in
              let* n := int_of_float (f * unit) in Ok (Some n))
             (Ok None)).
Proof.
  do 8 (split; [vm_compute; reflexivity|]).
  split; [|split].
  - intro s. apply parse_unit_value_normal.
    now rewrite strip_lower, lower_idem.
  - intros pre s post Hpre Hpost. apply parse_unit_value_normal.
    now rewrite strip_padding.
  - intros s unit suffix Hin He. unfold parse_unit_value. cbn [is_number].
    set (n := lower (strip s)) in *.
    destruct Hin as [E|[E|[E|[]]]]; injection E as <- <-.
    + now rewrite He.
    + destruct (endswith n "gb") eqn:G;
        [discriminate (endswith_two_chars _ _ _ _ G He)|].
      now rewrite He.
    + destruct (endswith n "gb") eqn:G;
        [discriminate (endswith_two_chars _ _ _ _ G He)|].
      destruct (endswith n "mb") eqn:M;
        [discriminate (endswith_two_chars _ _ _ _ M He)|].
      now rewrite He.
Qed.

(** ** Ordinals *)

Lemma isleap_spec (y : Z) :
  isleap y = true <-> y mod 4 = 0 /\ (y mod 100 <> 0 \/ y mod 400 = 0).
Proof.
  unfold isleap.
  rewrite andb_true_iff, orb_true_iff, negb_true_iff, !Z.eqb_eq, Z.eqb_neq. tauto.
Qed.

Lemma days_before_year_succ (y : Z) :
  _days_before_year (y + 1)
  = _days_before_year y + 365 + (if isleap y then 1 else 0).
Proof.
  unfold _days_before_year. cbv zeta. replace (y + 1 - 1) with y by lia.
  destruct (isleap y) eqn:L.
  - apply isleap_spec in L. destruct L as [L4 [L100 | L400]];
      Z.to_euclidean_division_equations; lia.
  - unfold isleap in L. apply andb_false_iff in L. destruct L as [L | L].
    + apply Z.eqb_neq in L. Z.to_euclidean_division_equations. lia.
    + apply orb_false_iff in L. destruct L as [L1 L2].
      apply negb_false_iff, Z.eqb_eq in L1. apply Z.eqb_neq in L2.
      Z.to_euclidean_division_equations. lia.
Qed.

Lemma days_before_year_mono (y y' : Z) :
  y < y' ->
  _days_before_year y + 365 + (if isleap y then 1 else 0) <= _days_before_year y'.
Proof.
  intro H. rewrite <- days_before_year_succ.
  assert (G : forall n : nat,
             _days_before_year (y + 1) <= _days_before_year (y + 1 + Z.of_nat n)).
  { induction n as [|n IH]; [rewrite Z.add_0_r; lia|].
    replace (y + 1 + Z.of_nat (S n)) with (y + 1 + Z.of_nat n + 1) by lia.
    rewrite (days_before_year_succ (y + 1 + Z.of_nat n)).
    destruct (isleap (y + 1 + Z.of_nat n)); lia. }
  specialize (G (Z.to_nat (y' - y - 1))).
  replace (y + 1 + Z.of_nat (Z.to_nat (y' - y - 1))) with y' in G by lia.
  exact G.
Qed.

Lemma days_before_month_bounds (y m : Z) :
  1 <= m <= 12 ->
  0 <= _days_before_month y m
  /\ _days_before_month y m + days_in_month y m <= 365 + (if isleap y then 1 else 0).
Proof.
  intro Hm. apply month_cases in Hm. unfold _days_before_month, days_in_month.
  destruct (isleap y);
    repeat (destruct Hm as [->|Hm]); try subst m; vm_compute; split; discriminate.
Qed.

Lemma days_before_month_mono (y m m' : Z) :
  1 <= m -> m < m' -> m' <= 12 ->
  _days_before_month y m + days_in_month y m <= _days_before_month y m'.
Proof.
  intros H1 H2 H3.
  assert (Hm : 1 <= m <= 12) by lia. assert (Hm' : 1 <= m' <= 12) by lia.
  apply month_cases in Hm, Hm'. unfold _days_before_month, days_in_month.
  destruct (isleap y);
    repeat (destruct Hm as [->|Hm]); try subst m;
    repeat (destruct Hm' as [->|Hm']); try subst m';
    try lia; vm_compute; discriminate.
Qed.

(** The ordinal grows strictly with the date. *)
Lemma toordinal_mono (a b : date) :
  valid_date a = true -> valid_date b = true ->
  date_ltb a b = true -> toordinal a < toordinal b.
Proof.
  intros Va Vb L.
  apply valid_date_iff in Va, Vb. destruct Va as (_ & Hma & Hda), Vb as (_ & Hmb & Hdb).
  apply date_ltb_lt in L. unfold toordinal, _ymd2ord.
  pose proof (days_before_month_bounds (year a) (month a) Hma) as Ba.
  pose proof (days_before_month_bounds (year b) (month b) Hmb) as Bb.
  destruct L as [Ly | (Ey & [Lm | (Em & Ld)])].
  - pose proof (days_before_year_mono _ _ Ly). lia.
  - rewrite Ey in *.
    pose proof (days_before_month_mono (year b) (month a) (month b)
                  ltac:(lia) Lm ltac:(lia)). lia.
  - rewrite Ey, Em. lia.
Qed.

Lemma date_trichotomy (a b : date) :
  date_ltb a b = true \/ a = b \/ date_ltb b a = true.
Proof.
  rewrite !date_ltb_lt.
  destruct (Z.lt_trichotomy (year a) (year b)) as [|[Ey|]]; [lia| |lia].
  destruct (Z.lt_trichotomy (month a) (month b)) as [|[Em|]]; [lia| |lia].
  destruct (Z.lt_trichotomy (day a) (day b)) as [|[Ed|]]; [lia| |lia].
  right. left. destruct a, b; simpl in *; congruence.
Qed.

Lemma toordinal_inj (a b : date) :
  valid_date a = true -> valid_date b = true ->
  toordinal a = toordinal b -> a = b.
Proof.
  intros Va Vb E.
  destruct (date_trichotomy a b) as [L | [-> | L]]; [|reflexivity|].
  - pose proof (toordinal_mono a b Va Vb L). lia.
  - pose proof (toordinal_mono b a Vb Va L). lia.
Qed.

Lemma toordinal_lt_iff (a b : date) :
  valid_date a = true -> valid_date b = true ->
  (date_ltb a b = true <-> toordinal a < toordinal b).
Proof.
  intros Va Vb. split; [apply toordinal_mono; assumption|].
  intro H. destruct (date_trichotomy a b) as [L | [-> | L]]; [exact L|lia|].
  pose proof (toordinal_mono b a Vb Va L). lia.
Qed.

Lemma toordinal_le_iff (a b : date) :
  valid_date a = true -> valid_date b = true ->
  (date_leb a b = true <-> toordinal a <= toordinal b).
Proof.
  intros Va Vb. unfold date_leb. rewrite orb_true_iff, date_eqb_eq.
  rewrite (toordinal_lt_iff a b Va Vb). split.
  - intros [H | ->]; lia.
  - intro H. destruct (Z.eq_dec (toordinal a) (toordinal b)) as [E|]; [|left; lia].
    right. now apply toordinal_inj.
Qed.

Lemma toordinal_bounds (a : date) :
  valid_date a = true -> 1 <= toordinal a <= _MAXORDINAL.
Proof.
  intro V. split.
  - destruct (date_trichotomy (Date 1 1 1) a) as [L | [<- | L]].
    + pose proof (toordinal_mono (Date 1 1 1) a eq_refl V L) as H.
      change (toordinal (Date 1 1 1)) with 1 in H. lia.
    + vm_compute. discriminate.
    + exfalso. apply valid_date_iff in V. apply date_ltb_lt in L.
      unfold MINYEAR in V. simpl in L. lia.
  - destruct (date_trichotomy a (Date 9999 12 31)) as [L | [-> | L]].
    + pose proof (toordinal_mono a (Date 9999 12 31) V eq_refl L) as H.
      change (toordinal (Date 9999 12 31)) with _MAXORDINAL in H. lia.
    + vm_compute. discriminate.
    + exfalso. apply valid_date_iff in V. apply date_ltb_lt in L.
      pose proof (days_in_month_bounds (year a) (month a) ltac:(lia)).
      unfold MAXYEAR in V. simpl in L. lia.
Qed.

Lemma all_from_spec (f : Z -> bool) (count : nat) :
  forall r0, all_from f r0 count = true ->
  forall r, r0 <= r < r0 + Z.of_nat count -> f r = true.
Proof.
  induction count as [|k IH]; cbn [all_from]; intros r0 H r Hr; [lia|].
  destruct (f r0) eqn:F; [|discriminate H].
  destruct (Z.eq_dec r r0) as [->|]; [exact F|].
  apply (IH (r0 + 1)); [exact H | lia].
Qed.

Lemma month_days_ok :
  all_from (month_day_ok false) 0 365 = true
  /\ all_from (month_day_ok true) 0 366 = true.
Proof. split; vm_compute; reflexivity. Qed.

Lemma month_day_of_correct (y r : Z) :
  0 <= r < 365 + (if isleap y then 1 else 0) ->
  exists m d,
    month_day_of (isleap y) r = (m, d)
    /\ 1 <= m <= 12 /\ 1 <= d <= days_in_month y m
    /\ _days_before_month y m + d = r + 1.
Proof.
  intro Hr. unfold days_in_month, _days_before_month.
  assert (C : month_day_ok (isleap y) r = true).
  { destruct (isleap y).
    - apply (all_from_spec _ _ 0 (proj2 month_days_ok)). lia.
    - apply (all_from_spec _ _ 0 (proj1 month_days_ok)). lia. }
  unfold month_day_ok in C. destruct (month_day_of (isleap y) r) as [m d].
  rewrite !andb_true_iff, !Z.leb_le, Z.eqb_eq in C.
  exists m, d. split; [reflexivity|]. lia.
Qed.

Lemma ord2ymd_unfold (n : Z) :
  _ord2ymd n
  = let n400 := (n - 1) / _DI400Y in
    let r1 := (n - 1) mod _DI400Y in
    let n100 := r1 / _DI100Y in
    let r2 := r1 mod _DI100Y in
    let n4 := r2 / _DI4Y in
    let r3 := r2 mod _DI4Y in
    let n1 := r3 / 365 in
    let r4 := r3 mod 365 in
    let y := n400 * 400 + 1 + n100 * 100 + n4 * 4 + n1 in
    if (n1 =? 4) || (n100 =? 4) then (y - 1, 12, 31)
    else
      let '(m, d) :=
        month_day_of ((n1 =? 3) && (negb (n4 =? 24) || (n100 =? 3))) r4 in
      (y, m, d).
Proof.
  unfold _ord2ymd, month_day_of. cbv zeta.
  destruct (_ || _); [reflexivity|].
  destruct (_ <? _); reflexivity.
Qed.

(** [_ord2ymd] inverts [_ymd2ord] on every ordinal from 1 on. *)
Lemma ord2ymd_correct (n : Z) :
  1 <= n ->
  exists y m d,
    _ord2ymd n = (y, m, d)
    /\ 1 <= y /\ 1 <= m <= 12 /\ 1 <= d <= days_in_month y m
    /\ _ymd2ord y m d = n.
Proof.
  intro Hn. rewrite ord2ymd_unfold. cbv zeta.
  set (n400 := (n - 1) / _DI400Y). set (r1 := (n - 1) mod _DI400Y).
  set (n100 := r1 / _DI100Y). set (r2 := r1 mod _DI100Y).
  set (n4 := r2 / _DI4Y). set (r3 := r2 mod _DI4Y).
  set (n1 := r3 / 365). set (r4 := r3 mod 365).
  assert (E1 : n - 1 = _DI400Y * n400 + r1 /\ 0 <= r1 < _DI400Y)
    by (split; [apply Z.div_mod | apply Z.mod_pos_bound]; reflexivity || discriminate).
  assert (E2 : r1 = _DI100Y * n100 + r2 /\ 0 <= r2 < _DI100Y)
    by (split; [apply Z.div_mod | apply Z.mod_pos_bound]; reflexivity || discriminate).
  assert (E3 : r2 = _DI4Y * n4 + r3 /\ 0 <= r3 < _DI4Y)
    by (split; [apply Z.div_mod | apply Z.mod_pos_bound]; reflexivity || discriminate).
  assert (E4 : r3 = 365 * n1 + r4 /\ 0 <= r4 < 365)
    by (split; [apply Z.div_mod | apply Z.mod_pos_bound]; reflexivity || discriminate).
  unfold _DI400Y, _DI100Y, _DI4Y in *.
  clearbody n400 r1 n100 r2 n4 r3 n1 r4.
  destruct E1 as [E1 B1], E2 as [E2 B2], E3 as [E3 B3], E4 as [E4 B4].
  set (y := n400 * 400 + 1 + n100 * 100 + n4 * 4 + n1).
  destruct ((n1 =? 4) || (n100 =? 4)) eqn:Dec.
  - exists (y - 1), 12, 31. split; [reflexivity|].
    assert (L : isleap (y - 1) = true).
    { apply isleap_spec. apply orb_true_iff in Dec.
      destruct Dec as [D | D]; apply Z.eqb_eq in D; subst y;
        Z.to_euclidean_division_equations; lia. }
    unfold _ymd2ord, _days_before_month, days_in_month, _days_before_year. cbv zeta.
    rewrite L. change (12 =? 2) with false. change (2 <? 12) with true.
    cbn [andb]. change (mdays 12) with 31. change (_DAYS_BEFORE_MONTH 12) with 334.
    apply orb_true_iff in Dec.
    destruct Dec as [D | D]; apply Z.eqb_eq in D; subst y;
      Z.to_euclidean_division_equations; lia.
  - apply orb_false_iff in Dec. destruct Dec as [D1 D100].
    apply Z.eqb_neq in D1, D100.
    assert (L : (n1 =? 3) && (negb (n4 =? 24) || (n100 =? 3)) = isleap y).
    { destruct (isleap y) eqn:Ly.
      - apply isleap_spec in Ly.
        apply andb_true_iff. rewrite orb_true_iff, negb_true_iff, !Z.eqb_eq, Z.eqb_neq.
        subst y. Z.to_euclidean_division_equations. lia.
      - apply not_true_iff_false. intro T. apply not_true_iff_false in Ly. apply Ly.
        apply isleap_spec.
        apply andb_true_iff in T. rewrite orb_true_iff, negb_true_iff, !Z.eqb_eq, Z.eqb_neq in T.
        subst y. Z.to_euclidean_division_equations. lia. }
    rewrite L.
    destruct (month_day_of_correct y r4 ltac:(destruct (isleap y); lia))
      as (m & d & -> & Hm & Hd & Ho).
    exists y, m, d. split; [reflexivity|].
    split; [subst y; lia|]. split; [exact Hm|]. split; [exact Hd|].
    unfold _ymd2ord. rewrite <- Z.add_assoc, Ho.
    unfold _days_before_year. cbv zeta. subst y.
    Z.to_euclidean_division_equations. lia.
Qed.

Lemma fromordinal_ok (n : Z) :
  1 <= n <= _MAXORDINAL ->
  exists dd, fromordinal n = Ok dd /\ valid_date dd = true /\ toordinal dd = n.
Proof.
  intros [H1 H2].
  destruct (ord2ymd_correct n H1) as (y & m & d & E & Hy & Hm & Hd & Ho).
  assert (Hy' : y <= MAXYEAR).
  { destruct (Z_le_gt_dec y 9999) as [|G]; [exact l|exfalso].
    pose proof (days_before_month_bounds y m Hm) as B.
    assert (_days_before_year 10000 <= _days_before_year y).
    { destruct (Z.eq_dec y 10000) as [->|]; [lia|].
      pose proof (days_before_year_mono 10000 y ltac:(lia)).
      destruct (isleap 10000); lia. }
    unfold _ymd2ord in Ho. change (_days_before_year 10000) with 3652059 in H.
    unfold _MAXORDINAL in H2. lia. }
  unfold fromordinal. rewrite E.
  rewrite date_new_ok by (unfold MINYEAR; lia).
  exists (Date y m d). split; [reflexivity|].
  split; [apply valid_date_iff; unfold MINYEAR; simpl; lia | exact Ho].
Qed.

(** ** The date span *)

Lemma date_add_days_ok (lo : date) (i : Z) :
  valid_date lo = true -> 0 <= i -> toordinal lo + i <= _MAXORDINAL ->
  exists d, date_add_days lo i = Ok d /\ valid_date d = true
            /\ toordinal d = toordinal lo + i.
Proof.
  intros V Hi Hmax. pose proof (toordinal_bounds lo V) as B.
  unfold date_add_days.
  replace ((0 <? toordinal lo + i) && (toordinal lo + i <=? _MAXORDINAL)) with true
    by (symmetry; apply andb_true_iff; split; [apply Z.ltb_lt | apply Z.leb_le]; lia).
  apply fromordinal_ok. lia.
Qed.

Lemma map_result_Forall2 {A B} (f : A -> result B) (P : A -> B -> Prop) (l : list A) :
  (forall a, In a l -> exists b, f a = Ok b /\ P a b) ->
  exists bs, map_result f l = Ok bs /\ Forall2 P l bs.
Proof.
  induction l as [|a l IH]; intro H.
  - exists []. split; [reflexivity | constructor].
  - destruct (H a (or_introl eq_refl)) as (b & Hb & Pb).
    destruct IH as (bs & Hbs & Pbs); [intros a' Ha'; apply H; now right|].
    exists (b :: bs). cbn [map_result]. rewrite Hb. cbn [bind]. rewrite Hbs.
    split; [reflexivity | now constructor].
Qed.

Lemma Forall2_in_l {A B} (P : A -> B -> Prop) (l : list A) (bs : list B) (a : A) :
  Forall2 P l bs -> In a l -> exists b, In b bs /\ P a b.
Proof.
  induction 1 as [|x y l bs Hxy _ IH]; intros [].
  - subst. exists y. split; [now left | assumption].
  - destruct IH as (b & Hb & Pb); [assumption|]. exists b. split; [now right | assumption].
Qed.

Lemma Forall2_in_r {A B} (P : A -> B -> Prop) (l : list A) (bs : list B) (b : B) :
  Forall2 P l bs -> In b bs -> exists a, In a l /\ P a b.
Proof.
  induction 1 as [|x y l bs Hxy _ IH]; intros [].
  - subst. exists x. split; [now left | assumption].
  - destruct IH as (a & Ha & Pa); [assumption|]. exists a. split; [now right | assumption].
Qed.

Lemma in_py_range (n i : Z) : In i (py_range n) <-> 0 <= i < n.
Proof.
  unfold py_range. rewrite in_map_iff. split.
  - intros (k & <- & Hk). apply in_seq in Hk. lia.
  - intro H. exists (Z.to_nat i). split; [lia|]. apply in_seq. lia.
Qed.

(** Dates whose ordinals run through consecutive offsets are in strictly
    increasing date order. *)
Lemma consecutive_ordinals_sorted (base : Z) (n : nat) :
  forall (a : nat) (ds : list date),
    Forall2 (fun i d => valid_date d = true /\ toordinal d = base + i)
      (map Z.of_nat (seq a n)) ds ->
    StronglySorted date_lt ds.
Proof.
  induction n as [|n IH]; intros a ds H; cbn [seq map] in H.
  - inversion H. constructor.
  - inversion H as [|i d l ds' [Vd Od] Hrest]; subst.
    constructor; [exact (IH (S a) ds' Hrest)|].
    apply List.Forall_forall. intros d' Hd'.
    destruct (Forall2_in_r _ _ _ d' Hrest Hd') as (j & Hj & Vd' & Od').
    apply in_map_iff in Hj. destruct Hj as (k & <- & Hk). apply in_seq in Hk.
    apply toordinal_lt_iff; [assumption..|]. lia.
Qed.

Lemma date_ltb_irrefl (a : date) : date_ltb a a = false.
Proof.
  destruct (date_ltb a a) eqn:E; [|reflexivity].
  apply date_ltb_lt in E. lia.
Qed.

Lemma date_ltb_asym (a b : date) : date_ltb a b = true -> date_ltb b a = false.
Proof.
  intro H. destruct (date_ltb b a) eqn:E; [|reflexivity].
  apply date_ltb_lt in H, E. lia.
Qed.

Lemma sorted_NoDup (ds : list date) : StronglySorted date_lt ds -> List.NoDup ds.
Proof.
  induction 1 as [|d ds _ IH Hall]; constructor; [|exact IH].
  intro Hin. rewrite List.Forall_forall in Hall. specialize (Hall d Hin).
  unfold date_lt in Hall. rewrite date_ltb_irrefl in Hall. discriminate.
Qed.

(** The two ends may come in either order. *)
Lemma build_date_span_sym (a b : date) : _build_date_span a b = _build_date_span b a.
Proof.
  unfold _build_date_span.
  destruct (date_trichotomy a b) as [L | [-> | L]]; [|reflexivity|].
  - now rewrite L, (date_ltb_asym _ _ L).
  - now rewrite L, (date_ltb_asym _ _ L).
Qed.

(** The span between two dates in order. *)
Lemma build_date_span_ordered (lo hi : date) :
  valid_date lo = true -> valid_date hi = true -> date_ltb hi lo = false ->
  exists days,
    _build_date_span lo hi = Ok days
    /\ Forall2 (fun i d => valid_date d = true /\ toordinal d = toordinal lo + i)
         (py_range (toordinal hi - toordinal lo + 1)) days.
Proof.
  intros Vlo Vhi L. unfold _build_date_span. rewrite L.
  assert (Hle : toordinal lo <= toordinal hi).
  { destruct (Z_le_gt_dec (toordinal lo) (toordinal hi)) as [|G]; [assumption|].
    assert (date_ltb hi lo = true) by (apply toordinal_lt_iff; [assumption..|lia]).
    congruence. }
  pose proof (toordinal_bounds hi Vhi) as Bhi.
  apply map_result_Forall2. intros i Hi. apply in_py_range in Hi.
  destruct (date_add_days_ok lo i Vlo ltac:(lia) ltac:(lia)) as (d & Hd & Vd & Od).
  exists d. auto.
Qed.

(** ** The daily series *)

Lemma py_max_zero_nonneg (x : float) : (0 <=? py_max 0 x)%float = true.
Proof.
  unfold py_max. destruct (0 <? x)%float eqn:E; [|reflexivity].
  rewrite ltb_spec in E. rewrite leb_spec.
  unfold SFltb in E. unfold SFleb.
  destruct (SFcompare (Prim2SF 0) (Prim2SF x)) as [[]|]; congruence.
Qed.

Lemma chart_values_spec (per_day_bytes : gmap string Z) (days : list date) :
  (forall key b, per_day_bytes !! key = Some b -> is_ok (float_of_int b) = true) ->
  exists y_gb,
    chart_values per_day_bytes days = Ok y_gb
    /\ Forall2
         (fun d y =>
            exists f,
              float_of_int (default 0 (per_day_bytes !! strftime_ymd d)) = Ok f
              /\ y = py_max 0 (f / GB))
         days y_gb.
Proof.
  intro Hfin. unfold chart_values. apply map_result_Forall2. intros d _.
  destruct (per_day_bytes !! strftime_ymd d) as [b|] eqn:E.
  - change (default 0 (Some b)) with b.
    specialize (Hfin _ _ E). destruct (float_of_int b) as [f|e]; [|discriminate Hfin].
    exists (py_max 0 (f / GB)). split; [reflexivity|]. exists f. auto.
  - change (default 0 (@None Z)) with 0.
    exists (py_max 0 (0 / GB)). split; [reflexivity|]. exists 0%float.
    split; reflexivity.
Qed.

(** C7, for byte counts that [float()] can convert.  For two dates in
    either order and a per-day mapping none of whose byte counts
    overflows a float, the series is built; it is the same for both
    orders of the two dates; it has one entry for every date from the
    earlier to the later one, each date once, in date order, so
    [daysBetween + 1] entries; the value of a date is
    [max(0.0, float(bytes) / 1e9)] with 0 bytes for a date absent from
    the mapping; no value is negative, and every value is [0.0] when the
    mapping is empty. *)
Theorem daily_series_covers_span (start end_ : date) (per_day_bytes : gmap string Z) :
  valid_date start = true ->
  valid_date end_ = true ->
  (forall key b, per_day_bytes !! key = Some b -> is_ok (float_of_int b) = true) ->
  let lo := if date_ltb end_ start then end_ else start in
  let hi := if date_ltb end_ start then start else end_ in
  exists days y_gb,
    build_daily_series start end_ per_day_bytes = Ok (days, y_gb)
    /\ build_daily_series end_ start per_day_bytes = Ok (days, y_gb)
    /\ List.length days = Z.to_nat (Z.abs (toordinal end_ - toordinal start) + 1)
    /\ List.length y_gb = List.length days
    /\ Forall (fun d => valid_date d = true) days
    /\ StronglySorted date_lt days
    /\ List.NoDup days
    /\ (forall d, valid_date d = true ->
                  (In d days <-> date_leb lo d = true /\ date_leb d hi = true))
    /\ Forall2
         (fun d y =>
            exists f,
              float_of_int (default 0 (per_day_bytes !! strftime_ymd d)) = Ok f
              /\ y = py_max 0 (f / GB))
         days y_gb
    /\ Forall (fun y => (0 <=? y)%float = true) y_gb
    /\ (per_day_bytes = ∅ -> Forall (fun y => y = 0%float) y_gb).
Proof.
  intros Vs Ve Hfin lo hi.
  assert (Vlo : valid_date lo = true) by (subst lo; destruct (date_ltb end_ start); assumption).
  assert (Vhi : valid_date hi = true) by (subst hi; destruct (date_ltb end_ start); assumption).
  assert (L : date_ltb hi lo = false).
  { subst lo hi. destruct (date_ltb end_ start) eqn:E; [now apply date_ltb_asym | exact E]. }
  assert (Sp : _build_date_span start end_ = _build_date_span lo hi).
  { subst lo hi. destruct (date_ltb end_ start); [apply build_date_span_sym | reflexivity]. }
  assert (Ab : Z.abs (toordinal end_ - toordinal start) = toordinal hi - toordinal lo).
  { assert (toordinal lo <= toordinal hi).
    { destruct (Z_le_gt_dec (toordinal lo) (toordinal hi)) as [|G]; [assumption|].
      assert (date_ltb hi lo = true) by (apply toordinal_lt_iff; [assumption..|lia]).
      congruence. }
    subst lo hi. destruct (date_ltb end_ start); lia. }
  destruct (build_date_span_ordered lo hi Vlo Vhi L) as (days & Hdays & F2).
  destruct (chart_values_spec per_day_bytes days Hfin) as (y_gb & Hy & FY).
  exists days, y_gb.
  assert (B1 : build_daily_series start end_ per_day_bytes = Ok (days, y_gb)).
  { unfold build_daily_series. rewrite Sp, Hdays. cbn [bind]. rewrite Hy. reflexivity. }
  split; [exact B1|].
  split; [unfold build_daily_series in *; now rewrite build_date_span_sym|].
  split.
  { rewrite Ab, <- (List.Forall2_length F2). unfold py_range.
    now rewrite length_map, length_seq. }
  split; [symmetry; exact (List.Forall2_length FY)|].
  split.
  { apply List.Forall_forall. intros d Hd.
    destruct (Forall2_in_r _ _ _ d F2 Hd) as (i & _ & Vd & _). exact Vd. }
  assert (SS : StronglySorted date_lt days)
    by exact (consecutive_ordinals_sorted (toordinal lo) _ 0%nat days F2).
  split; [exact SS|]. split; [exact (sorted_NoDup days SS)|].
  split.
  { intros d Vd. rewrite (toordinal_le_iff lo d Vlo Vd), (toordinal_le_iff d hi Vd Vhi).
    split.
    - intro Hd. destruct (Forall2_in_r _ _ _ d F2 Hd) as (i & Hi & _ & Od).
      apply in_py_range in Hi. lia.
    - intros [H1 H2].
      destruct (Forall2_in_l _ _ _ (toordinal d - toordinal lo) F2) as (d' & Hd' & Vd' & Od').
      { apply in_py_range. lia. }
      assert (d' = d) as <- by (apply toordinal_inj; [assumption..|lia]).
      exact Hd'. }
  split; [exact FY|].
  split.
  - apply List.Forall_forall. intros y Hy'.
    destruct (Forall2_in_r _ _ _ y FY Hy') as (d & _ & f & _ & ->).
    apply py_max_zero_nonneg.
  - intros ->. apply List.Forall_forall. intros y Hy'.
    destruct (Forall2_in_r _ _ _ y FY Hy') as (d & _ & f & Hf & ->).
    rewrite lookup_empty in Hf. change (default 0 (@None Z)) with 0 in Hf.
    injection Hf as <-. reflexivity.
Qed.

Lemma daily_series_covers_span_witness :
  exists y_gb,
    build_daily_series (Date 2024 3 1) (Date 2024 2 28) {["2024-02-29" := 2500000000]}
    = Ok ([Date 2024 2 28; Date 2024 2 29; Date 2024 3 1], y_gb)
    /\ Forall (fun y => (0 <=? y)%float = true) y_gb.
Proof.
  destruct (daily_series_covers_span (Date 2024 3 1) (Date 2024 2 28)
              {["2024-02-29" := 2500000000]} eq_refl eq_refl)
    as (days & y_gb & B & _ & _ & _ & _ & _ & _ & _ & _ & N & _).
  { intros key b H. apply lookup_singleton_Some in H. destruct H as [_ <-].
    vm_compute. reflexivity. }
  exists y_gb. split; [|exact N].
  rewrite B. f_equal. f_equal.
  unfold build_daily_series in B.
  change (_build_date_span (Date 2024 3 1) (Date 2024 2 28))
    with (Ok [Date 2024 2 28; Date 2024 2 29; Date 2024 3 1]) in B.
  cbn [bind] in B. destruct (chart_values _ _); [|discriminate B].
  now injection B.
Defined.

(** C7 as stated fails for a byte count no float can hold: [float()]
    raises [OverflowError], and no series is built. *)
Lemma daily_series_overflows_on_huge_count :
  build_daily_series (Date 2024 1 1) (Date 2024 1 2) {["2024-01-01" := 2 ^ 1024]}
  = Raise OverflowError.
Proof. vm_compute. reflexivity. Qed.

(** ** Per-day accumulation *)

Lemma Z_sum_app (l l' : list Z) : Z_sum (l ++ l')%list = Z_sum l + Z_sum l'.
Proof. unfold Z_sum. induction l as [|a l IH]; simpl; lia. Qed.

Lemma Z_sum_Permutation (l l' : list Z) : Permutation l l' -> Z_sum l = Z_sum l'.
Proof. unfold Z_sum. induction 1; simpl; lia. Qed.

Lemma fold_result_app {A B} (f : A -> B -> result A) (l l' : list B) (a : A) :
  fold_result f (l ++ l')%list a = let* a' := fold_result f l a in fold_result f l' a'.
Proof.
  revert a. induction l as [|b l IH]; intro a; cbn [fold_result app]; [reflexivity|].
  destruct (f a b) as [a'|e]; cbn [bind]; [apply IH | reflexivity].
Qed.

(** The nested loops walk the items of all containers in one sequence. *)
Lemma fold_result_concat {A B} (f : A -> B -> result A) (ls : list (list B)) (a : A) :
  fold_result (fun acc l => fold_result f l acc) ls a = fold_result f (concat ls) a.
Proof.
  revert a. induction ls as [|l ls IH]; intro a; cbn [fold_result concat]; [reflexivity|].
  rewrite fold_result_app.
  destruct (fold_result f l a) as [a'|e]; cbn [bind]; [apply IH | reflexivity].
Qed.

Section Accumulation.

Variable py_repr : value -> string.

Lemma accumulate_item_spec (acc : gmap string Z) (item : value) :
  accumulate_item py_repr acc item
  = match item_day_key py_repr item with
    | None => Ok acc
    | Some key =>
        let* b := extract_bytes item in
        Ok (<[key := default 0 (acc !! key) + b]> acc)
    end.
Proof.
  unfold accumulate_item, item_day_key.
  destruct item as [| | | | | |d]; try reflexivity.
  destruct (extract_date_str py_repr d) as [s|]; [|reflexivity].
  destruct (str_nonempty s); [|reflexivity]. cbn [negb].
  destruct (parse_date_guess_total s) as ([dd|] & ->); reflexivity.
Qed.

Lemma accumulate_lookup (items : list value) :
  forall (acc m : gmap string Z),
    fold_result (accumulate_item py_repr) items acc = Ok m ->
    forall key, m !! key = add_bytes (acc !! key) (keyed_bytes py_repr key items).
Proof.
  induction items as [|item items IH]; intros acc m H key.
  - injection H as <-. reflexivity.
  - cbn [fold_result] in H. rewrite accumulate_item_spec in H.
    cbn [keyed_bytes flat_map]. fold (keyed_bytes py_repr key items).
    destruct (item_day_key py_repr item) as [k|] eqn:K.
    + destruct (extract_bytes item) as [b|e]; [|discriminate H].
      cbn [bind] in H. rewrite (IH _ _ H key).
      destruct (option_string_eqb (Some k) (Some key)) eqn:E.
      * apply option_string_eqb_eq in E. injection E as ->.
        rewrite lookup_insert_eq. cbn [app].
        set (d := default 0 (acc !! key)).
        unfold add_bytes. destruct (keyed_bytes py_repr key items) as [|b' bs].
        -- unfold Z_sum. cbn [fold_right]. f_equal. lia.
        -- change (default 0 (Some (d + b))) with (d + b).
           unfold Z_sum. cbn [fold_right]. f_equal. lia.
      * assert (k <> key).
        { intros ->. rewrite (proj2 (option_string_eqb_eq _ _) eq_refl) in E.
          discriminate E. }
        rewrite lookup_insert_ne by assumption. reflexivity.
    + cbn [bind] in H. cbn [option_string_eqb]. exact (IH _ _ H key).
Qed.

Lemma accumulate_ok_iff (items : list value) :
  forall acc : gmap string Z,
    (exists m, fold_result (accumulate_item py_repr) items acc = Ok m)
    <-> Forall (item_ok py_repr) items.
Proof.
  induction items as [|item items IH]; intro acc.
  - split; [constructor | eauto].
  - cbn [fold_result]. rewrite accumulate_item_spec. split.
    + intros (m & H). unfold item_ok.
      destruct (item_day_key py_repr item) as [k|] eqn:K.
      * destruct (extract_bytes item) as [b|e] eqn:Eb; [|discriminate H].
        cbn [bind] in H. constructor; [now rewrite K, Eb|].
        apply (IH (<[k := default 0 (acc !! k) + b]> acc)). eauto.
      * cbn [bind] in H. constructor; [now rewrite K|]. apply (IH acc). eauto.
    + intro F. inversion F as [|? ? Hi Hrest]; subst. unfold item_ok in Hi.
      destruct (item_day_key py_repr item) as [k|] eqn:K.
      * specialize (Hi ltac:(discriminate)).
        destruct (extract_bytes item) as [b|e]; [|discriminate Hi].
        cbn [bind]. now apply IH.
      * cbn [bind]. now apply IH.
Qed.

Lemma keyed_bytes_Permutation (key : string) (items items' : list value) :
  Permutation items items' ->
  Permutation (keyed_bytes py_repr key items) (keyed_bytes py_repr key items').
Proof. intro P. unfold keyed_bytes. now apply Permutation_flat_map. Qed.

Lemma add_bytes_Permutation (o : option Z) (bs bs' : list Z) :
  Permutation bs bs' -> add_bytes o bs = add_bytes o bs'.
Proof.
  intro P. unfold add_bytes. rewrite (Z_sum_Permutation _ _ P).
  destruct bs as [|b bs], bs' as [|b' bs']; try reflexivity.
  - apply Permutation_nil in P. discriminate P.
  - apply Permutation_sym, Permutation_nil in P. discriminate P.
Qed.

Lemma accumulate_Permutation (items items' : list value) (acc m : gmap string Z) :
  Permutation items items' ->
  fold_result (accumulate_item py_repr) items acc = Ok m ->
  fold_result (accumulate_item py_repr) items' acc = Ok m.
Proof.
  intros P H.
  assert (F : Forall (item_ok py_repr) items') .
  { apply (Permutation_Forall P). apply (accumulate_ok_iff items acc). eauto. }
  apply (accumulate_ok_iff items' acc) in F. destruct F as (m' & H').
  rewrite H'. f_equal. apply map_eq. intro key.
  rewrite (accumulate_lookup _ _ _ H key), (accumulate_lookup _ _ _ H' key).
  apply add_bytes_Permutation. symmetry. now apply keyed_bytes_Permutation.
Qed.

Lemma daily_bytes_as_fold (traffic : value) :
  _daily_bytes_from_traffic py_repr traffic
  = fold_result (accumulate_item py_repr) (traffic_items traffic) ∅.
Proof.
  unfold _daily_bytes_from_traffic, traffic_items.
  destruct traffic as [| | | | | |d]; try reflexivity.
  rewrite <- fold_result_concat.
  destruct (traffic_containers d); reflexivity.
Qed.

(** C6. When the extraction returns a mapping, the value stored under a
    day key is the sum of the byte counts of all the items that resolve
    to that key, and a key is present exactly when an item resolves to
    it; two items with one day key are summed; and the mapping is the
    same for every order of the items. *)
Theorem per_day_bytes_summed_in_any_order (traffic traffic' : value)
  (m : gmap string Z) :
  _daily_bytes_from_traffic py_repr traffic = Ok m ->
  (forall key,
      m !! key
      = match keyed_bytes py_repr key (traffic_items traffic) with
        | [] => None
        | bs => Some (Z_sum bs)
        end)
  /\ (Permutation (traffic_items traffic) (traffic_items traffic') ->
      _daily_bytes_from_traffic py_repr traffic' = Ok m)
  /\ (forall item1 item2 key b1 b2,
         item_day_key py_repr item1 = Some key -> item_day_key py_repr item2 = Some key ->
         extract_bytes item1 = Ok b1 -> extract_bytes item2 = Ok b2 ->
         _daily_bytes_from_traffic py_repr (VDict [("data", VList [item1; item2])])
         = Ok {[key := b1 + b2]}
         /\ _daily_bytes_from_traffic py_repr (VDict [("data", VList [item2; item1])])
            = Ok {[key := b1 + b2]}).
Proof.
  intro H. rewrite daily_bytes_as_fold in H.
  split; [|split].
  - intro key. rewrite (accumulate_lookup _ _ _ H key), lookup_empty.
    unfold add_bytes. destruct (keyed_bytes py_repr key (traffic_items traffic)); reflexivity.
  - intro P. rewrite daily_bytes_as_fold. exact (accumulate_Permutation _ _ _ _ P H).
  - intros item1 item2 key b1 b2 K1 K2 E1 E2.
    rewrite !daily_bytes_as_fold.
    change (traffic_items (VDict [("data", VList [item1; item2])])) with [item1; item2].
    change (traffic_items (VDict [("data", VList [item2; item1])])) with [item2; item1].
    cbn [fold_result]. rewrite !accumulate_item_spec, K1, K2, E1, E2. cbn [bind].
    rewrite !accumulate_item_spec, K1, K2, E1, E2. cbn [bind].
    rewrite !lookup_insert_eq, !insert_insert_eq, lookup_empty.
    change (default 0 (@None Z)) with 0.
    split; f_equal; unfold singletonM, map_singleton; f_equal;
      cbn [default Datatypes.id]; lia.
Qed.

End Accumulation.

Lemma per_day_bytes_summed_in_any_order_witness :
  _daily_bytes_from_traffic (fun _ => EmptyString)
    (VDict [("data", VList [sample_item_b; sample_item_a])])
  = Ok {["2024-01-01" := 8]}.
Proof.
  apply (proj1 (proj2
           (per_day_bytes_summed_in_any_order (fun _ => EmptyString)
              (VDict [("data", VList [sample_item_a; sample_item_b])])
              (VDict [("data", VList [sample_item_b; sample_item_a])])
              {["2024-01-01" := 8]} eq_refl))).
  apply perm_swap.
Defined.

(** ** Where the extraction passes raise *)

(** C4 fails on the code for numbers no [int] or [float] conversion
    accepts.  The per-day pass converts a numeric field with [int(v)]
    outside any [try], so an infinite number (as [json] reads [1e999])
    raises [OverflowError]; the snapshot pass catches only [TypeError]
    and [ValueError] around [float(v)], so an integer beyond the range of
    floats raises [OverflowError].  Without such numbers an absent field
    gives [None] in the snapshot and no entry in the per-day mapping. *)
Theorem extraction_raises_on_unconvertible_numbers (py_repr : value -> string) :
  _daily_bytes_from_traffic py_repr
    (VDict [("data",
             VList [VDict [("date", VStr "2024-01-01");
                           ("rx_tx_bytes", VFloat infinity)]])])
  = Raise OverflowError
  /\ _extract_subs_info py_repr (VDict [("limit", VInt (10 ^ 400))])
     = Raise OverflowError
  /\ _extract_subs_info py_repr (VDict [("unrelated", VInt 1)])
     = Ok (SubsInfo VNone VNone VNone VNone VNone)
  /\ _extract_subs_info py_repr VNone = Ok (SubsInfo VNone VNone VNone VNone VNone)
  /\ _daily_bytes_from_traffic py_repr (VDict [("unrelated", VInt 1)]) = Ok ∅
  /\ _daily_bytes_from_traffic py_repr
       (VDict [("data", VList [VInt 3; VDict [("bytes", VInt 7)]])])
     = Ok ∅.
Proof. repeat split; vm_compute; reflexivity. Qed.

(** ** The usage lines of the report *)

Lemma remaining_not_negative (l u : float) : (py_max (l - u) 0 <? 0)%float = false.
Proof.
  unfold py_max. destruct (l - u <? 0)%float eqn:E; [reflexivity | exact E].
Qed.

(** C3 fails on the code where the two tests of "a limit resolves"
    disagree.  The early return looks at the raw [limit] value, the usage
    lines at its conversion to a number: with a limit that is present but
    no number ("unlimited") and no used figure, the report has a title and
    a time stamp and no usage line, and it does not say that usage could
    not be determined; with a limit under a key only the snapshot pass
    knows ([data_limit]), the report says so although a limit resolves.
    The usage lines themselves are as claimed: both figures give "used of
    limit" with a remaining figure that is never negative, one figure
    gives its line, none gives no line. *)
Theorem format_usage_usage_lines (py_repr : value -> string) (now : datetime)
  (tz_name : string) :
  format_usage py_repr (VDict [("traffic_limit", VStr "unlimited")]) (VDict [])
    None None now tz_name
  = Ok (ReportLines [TitleLine None; BlankLine; AsOfLine now tz_name])
  /\ format_usage py_repr (VDict [("data_limit", VInt 100)]) (VDict [])
       None None now tz_name
     = Ok CouldNotDetermineUsage
  /\ format_usage py_repr VNone (VDict []) None None now tz_name
     = Ok CouldNotDetermineUsage
  /\ (forall u l,
         usage_lines (Some u) (Some l)
         = [UsageOfLine u l; RemainingLine (py_max (l - u) 0)]
         /\ (py_max (l - u) 0 <? 0)%float = false)
  /\ (forall u, usage_lines (Some u) None = [UsedLine u])
  /\ (forall l, usage_lines None (Some l) = [LimitLine l])
  /\ usage_lines None None = [].
Proof.
  split; [vm_compute; reflexivity|].
  split; [vm_compute; reflexivity|].
  split; [vm_compute; reflexivity|].
  split; [intros u l; split; [reflexivity | apply remaining_not_negative]|].
  repeat split.
Qed.

(* ================================================================== *)
(** * Part III. Further properties                                     *)
(* ================================================================== *)

(** ** Checks of the settings, the window and the chart against the interpreter *)

Example settings_samples :
  parse_allowed_chat_ids None = Ok None
  /\ parse_allowed_chat_ids (Some "") = Ok None
  /\ parse_allowed_chat_ids (Some " , ") = Ok None
  /\ parse_allowed_chat_ids (Some "12, x") = Raise ValueError
  /\ parse_allowed_chat_ids (Some "1.5") = Raise ValueError
  /\ match parse_allowed_chat_ids (Some "12, -7,,+1_000 ") with
     | Ok (Some ids) =>
         bool_decide (12 ∈ ids) && bool_decide (-7 ∈ ids) && bool_decide (1000 ∈ ids)
         && negb (bool_decide (7 ∈ ids))
     | _ => false
     end = true
  /\ str_split "," "a,,b," = ["a"; ""; "b"; ""]
  /\ str_split "," "" = [""].
Proof. vm_compute. repeat split; reflexivity. Qed.

Example window_samples :
  to_ts " 2024-01-05 " true = "2024-01-05 23:59:59"
  /\ to_ts "2024-13-45" false = "2024-13-45 00:00:00"
  /\ to_ts "2024-01-05T10:00:00" false = "2024-01-05T10:00:00"
  /\ d_only "?" = "?"
  /\ d_only "2024-01-05T10:00:00Z" = "2024-01-05"
  /\ strftime_ymd_hms (DateTime (Date 2024 3 5) 7 8 9) = "2024-03-05 07:08:09"
  /\ query_window None (Some "2024-02-10") (DateTime (Date 2024 3 5) 7 8 9)
     = Ok (None, "2024-02-10 23:59:59")
  /\ query_window None None (DateTime (Date 2024 3 5) 7 8 9)
     = Ok (Some "2024-03-01 00:00:00", "2024-03-05 07:08:09")
  /\ query_window (Some "soon") None (DateTime (Date 2024 3 5) 7 8 9)
     = Ok (Some "soon", "2024-03-05 07:08:09")
  /\ query_window (Some "2024-01-15") None (DateTime (Date 2024 3 5) 7 8 9)
     = Ok (Some "2024-02-15 00:00:00", "2024-03-05 07:08:09").
Proof. vm_compute. repeat split; reflexivity. Qed.

Example chart_samples :
  chart_span None (Some "2024-02-03") (DateTime (Date 2024 3 5) 7 8 9) (Date 2024 3 5)
  = Ok [Date 2024 2 1; Date 2024 2 2; Date 2024 2 3]
  /\ chart_span None None (DateTime (Date 2024 3 2) 23 0 0) (Date 2024 3 3)
     = Ok [Date 2024 3 1; Date 2024 3 2; Date 2024 3 3]
  /\ tick_positions 5 = [0; 1; 2; 3; 4]
  /\ tick_positions 24 = [0; 2; 4; 6; 8; 10; 12; 14; 16; 18; 20; 22]
  /\ tick_positions 0 = []
  /\ on_text_buttons (Some " Daily Chart ") = HandleChart
  /\ on_text_buttons (Some "USAGE") = HandleUsage
  /\ on_text_buttons (Some "/usage") = NoHandler
  /\ on_text_buttons None = NoHandler
  /\ chart_bars [Date 2024 3 1; Date 2024 3 2] [0%float; 1.5%float] "t"
     = ([Date 2024 3 1; Date 2024 3 2], [0%float; 1.5%float], "t").
Proof. vm_compute. repeat split; reflexivity. Qed.

(** ** Settings and access control *)

Lemma int_of_str_raises (s : string) (e : exn) :
  int_of_str s = Raise e -> e = ValueError.
Proof.
  unfold int_of_str.
  destruct (read_sign _) as [neg body].
  destruct (read_digitpart body) as [[ds [|c r]]|]; try (intro H; now injection H).
  destruct (_ <? _); intro H; [now injection H | discriminate H].
Qed.

Lemma chat_ids_fold_ok (l : list string) :
  forall items : gset Z,
    Forall (fun p => is_ok (int_of_str p) = true)
      (List.filter str_nonempty (map strip l)) ->
    fold_result chat_id_step l items
    = Ok (items ∪ list_to_set (parsed_ids (List.filter str_nonempty (map strip l)))).
Proof.
  induction l as [|part l IH]; intros items F.
  - cbn. f_equal. now rewrite (right_id_L ∅ (∪)).
  - cbn [fold_result map List.filter] in *. unfold chat_id_step at 1.
    destruct (str_nonempty (strip part)) eqn:NE; cbn [negb].
    + inversion F as [|? ? Hp Hrest]; subst.
      destruct (int_of_str (strip part)) as [n|e] eqn:I; [|discriminate Hp].
      cbn [bind]. rewrite (IH _ Hrest). f_equal.
      cbn [parsed_ids flat_map]. rewrite I. fold (parsed_ids (List.filter str_nonempty (map strip l))).
      cbn [app list_to_set]. now rewrite (assoc_L (∪)).
    + cbn [bind]. now apply IH.
Qed.

Lemma chat_ids_fold_raises (l : list string) :
  forall items : gset Z,
    ~ Forall (fun p => is_ok (int_of_str p) = true)
        (List.filter str_nonempty (map strip l)) ->
    fold_result chat_id_step l items = Raise ValueError.
Proof.
  induction l as [|part l IH]; intros items F.
  - exfalso. apply F. constructor.
  - cbn [fold_result map List.filter] in *. unfold chat_id_step at 1.
    destruct (str_nonempty (strip part)) eqn:NE; cbn [negb].
    + destruct (int_of_str (strip part)) as [n|e] eqn:I.
      * cbn [bind]. apply IH. intro G. apply F. constructor; [now rewrite I | exact G].
      * apply int_of_str_raises in I. subst e. reflexivity.
    + cbn [bind]. now apply IH.
Qed.

Lemma parsed_ids_In (parts : list string) (c : Z) :
  In c (parsed_ids parts) <-> In (Ok c) (map int_of_str parts).
Proof.
  unfold parsed_ids. rewrite in_flat_map, in_map_iff. split.
  - intros (p & Hp & Hc). exists p. split; [|exact Hp].
    destruct (int_of_str p) as [n|e]; [|destruct Hc].
    destruct Hc as [->|[]]. reflexivity.
  - intros (p & Hc & Hp). exists p. split; [exact Hp|]. rewrite Hc. now left.
Qed.

Lemma parsed_ids_nil (parts : list string) :
  Forall (fun p => is_ok (int_of_str p) = true) parts ->
  parsed_ids parts = [] -> parts = [].
Proof.
  intros F E. destruct parts as [|p parts]; [reflexivity|].
  inversion F as [|? ? Hp _]; subst.
  cbn [parsed_ids flat_map] in E. destruct (int_of_str p); [discriminate E | discriminate Hp].
Qed.

(** X1. The setting of the allowed chats is read part by part, the parts
    being what the commas separate, stripped, the blank ones left out.
    When every part reads as an integer the setting is accepted; no chat
    is refused when there is no part (an absent, empty or blank setting,
    commas alone), and otherwise a chat is allowed exactly when its id is
    the integer of one of the parts.  When some part does not read as an
    integer, [ValueError] is raised. *)
Theorem allowed_chat_ids_access_rule (value : option string) :
  let parts := chat_id_parts (default "" value) in
  (Forall (fun p => is_ok (int_of_str p) = true) parts ->
   exists allowed,
     parse_allowed_chat_ids value = Ok allowed
     /\ (allowed = None <-> parts = [])
     /\ forall chat_id,
          _is_allowed chat_id allowed = true
          <-> parts = [] \/ In (Ok chat_id) (map int_of_str parts))
  /\ (~ Forall (fun p => is_ok (int_of_str p) = true) parts ->
      parse_allowed_chat_ids value = Raise ValueError).
Proof.
  intro parts. unfold parse_allowed_chat_ids.
  destruct (option_string_truthy value) eqn:T; cbn [negb].
  - split.
    + intro F. rewrite (chat_ids_fold_ok _ ∅ F). cbn [bind]. fold parts.
      destruct (decide (_ = ∅)) as [E|NE].
      * assert (P : parsed_ids parts = []).
        { destruct (parsed_ids parts) as [|n ns] eqn:P; [reflexivity|].
          exfalso. apply (not_elem_of_empty (C:=gset Z) n). rewrite <- E.
          apply elem_of_union_r, elem_of_list_to_set.
          change (n ∈ parsed_ids parts). rewrite P. now left. }
        pose proof (parsed_ids_nil parts F P) as PN.
        exists None. split; [reflexivity|]. split; [tauto|].
        intro c. cbn. tauto.
      * eexists. split; [reflexivity|].
        assert (PN : parts <> []).
        { intro PN. apply NE.
          change (∅ ∪ list_to_set (parsed_ids parts) = (∅ : gset Z)).
          rewrite PN. cbn. now rewrite (right_id_L ∅ (∪)). }
        split; [split; [discriminate | contradiction]|].
        intro c. cbn [_is_allowed]. rewrite bool_decide_eq_true.
        change (c ∈ (∅ : gset Z) ∪ list_to_set (parsed_ids parts)
                <-> parts = [] \/ In (Ok c) (map int_of_str parts)).
        rewrite elem_of_union, elem_of_list_to_set, list_elem_of_In, parsed_ids_In.
        split; [intros [H|H]; [now apply not_elem_of_empty in H | now right]
               | intros [H|H]; [contradiction | now right]].
    + intro F. now rewrite (chat_ids_fold_raises _ ∅ F).
  - assert (PN : parts = []).
    { subst parts. destruct value as [[|c s]|]; [reflexivity | discriminate T | reflexivity]. }
    split.
    + intros _. exists None. split; [reflexivity|]. split; [tauto|].
      intro c. cbn. tauto.
    + intro F. exfalso. apply F. rewrite PN. constructor.
Qed.

(** ** The proxy-type mapping as a normal form *)

Lemma table_get_cases (table : list (string * string)) (k : string) :
  (forall d, table_get table k d = d)
  \/ exists v, In v (map snd table) /\ forall d, table_get table k d = v.
Proof.
  induction table as [|[k' v] table IH]; [left; reflexivity|].
  cbn [table_get map snd]. destruct (String.eqb k' k).
  - right. exists v. split; [now left | reflexivity].
  - destruct IH as [IH | (w & Hw & IH)]; [left; exact IH|].
    right. exists w. split; [now right | exact IH].
Qed.

Lemma lower_strip_normal (s : string) :
  lower (strip (lower (strip s))) = lower (strip s).
Proof. now rewrite strip_lower, strip_idem, lower_idem. Qed.

Lemma str_nonempty_lower (s : string) : str_nonempty (lower s) = str_nonempty s.
Proof. destruct s; reflexivity. Qed.

(** X2. Mapping a mapped service type changes nothing, except that the
    empty token a blank setting maps to is dropped the second time; the
    mapping ignores the case of the setting and, for a setting that is
    not empty, white space around it. *)
Theorem proxy_type_mapping_is_a_normal_form (value : option string) :
  _map_service_to_proxy_type (_map_service_to_proxy_type value)
  = (if option_string_truthy (_map_service_to_proxy_type value)
     then _map_service_to_proxy_type value else None)
  /\ (forall s, value = Some s ->
        _map_service_to_proxy_type (Some (lower s)) = _map_service_to_proxy_type value)
  /\ (forall pre s post, value = Some s -> str_nonempty s = true ->
        string_forall isspace pre = true -> string_forall isspace post = true ->
        _map_service_to_proxy_type (Some (pre ++ s ++ post))
        = _map_service_to_proxy_type value).
Proof.
  split; [|split].
  - destruct value as [s|]; [|reflexivity].
    unfold _map_service_to_proxy_type at 2 3 4.
    destruct (str_nonempty s); cbn [negb]; [|reflexivity].
    set (n := lower (strip s)).
    assert (Hn : lower (strip n) = n) by apply lower_strip_normal.
    destruct (table_get_cases proxy_type_mapping n) as [Miss | (v & Hv & Hit)].
    + rewrite (Miss n). cbn [option_string_truthy].
      unfold _map_service_to_proxy_type.
      destruct (str_nonempty n); cbn [negb]; [|reflexivity].
      now rewrite Hn, (Miss n).
    + rewrite (Hit n). clear Hit Hn. cbn [map snd proxy_type_mapping] in Hv.
      repeat (destruct Hv as [<-|Hv]; [vm_compute; reflexivity|]). destruct Hv.
  - intros s ->. unfold _map_service_to_proxy_type.
    rewrite str_nonempty_lower. destruct (str_nonempty s); cbn [negb]; [|reflexivity].
    now rewrite strip_lower, lower_idem.
  - intros pre s post -> NE Hpre Hpost. unfold _map_service_to_proxy_type.
    rewrite NE. cbn [negb].
    assert (NE' : str_nonempty (pre ++ s ++ post) = true).
    { destruct pre; [|reflexivity]. rewrite append_empty.
      destruct s; [discriminate NE | reflexivity]. }
    rewrite NE'. cbn [negb]. now rewrite strip_padding.
Qed.

(** ** Text buttons *)

(** X3. The text buttons answer to their words in any case and with any
    white space around them. *)
Theorem text_buttons_ignore_case_and_padding (s : string) :
  on_text_buttons (Some (lower s)) = on_text_buttons (Some s)
  /\ (forall pre post,
        string_forall isspace pre = true -> string_forall isspace post = true ->
        on_text_buttons (Some (pre ++ s ++ post)) = on_text_buttons (Some s)).
Proof.
  split.
  - unfold on_text_buttons. cbn [option_string_truthy default Datatypes.id].
    rewrite str_nonempty_lower. destruct (str_nonempty s); cbn [negb]; [|reflexivity].
    now rewrite strip_lower, lower_idem.
  - intros pre post Hpre Hpost. unfold on_text_buttons.
    cbn [option_string_truthy default Datatypes.id]. rewrite strip_padding by assumption.
    destruct (str_nonempty s) eqn:NE; cbn [negb].
    + assert (NE' : str_nonempty (pre ++ s ++ post) = true).
      { destruct pre; [|reflexivity]. rewrite append_empty.
        destruct s; [discriminate NE | reflexivity]. }
      now rewrite NE'.
    + destruct s; [clear NE|discriminate NE].
      destruct (str_nonempty (pre ++ _ ++ post)); reflexivity.
Qed.

(** ** The tolerant parser as a whole *)

(** X4. The tolerant parser never raises; a date it returns is a date of
    the calendar (year 1 to 9999, a month, a day of that month); a blank
    text gives [None]; white space around the text changes nothing. *)
Theorem parser_returns_only_calendar_dates (s : string) :
  (exists o, _parse_date_guess s = Ok o
             /\ forall d, o = Some d -> valid_date d = true)
  /\ (strip s = EmptyString -> _parse_date_guess s = Ok None)
  /\ (forall pre post,
        string_forall isspace pre = true -> string_forall isspace post = true ->
        _parse_date_guess (pre ++ s ++ post) = _parse_date_guess s).
Proof.
  split; [|split].
  - destruct (parse_date_guess_total s) as (o & H). exists o. split; [exact H|].
    intros d ->. exact (parse_date_guess_valid _ _ H).
  - intro E. unfold _parse_date_guess. now rewrite E.
  - intros pre post Hpre Hpost. rewrite !parse_date_guess_cases.
    now rewrite strip_padding.
Qed.

(** ** The last day of a month *)

(** X5. For a month from 1 to 12 the last day of the month is between 28
    and 31, it is 29 exactly in the February of a leap year, and (for a
    year [dt.date] accepts) the days [dt.date] accepts in that month are
    those from 1 to it; for any other month number [ValueError] is
    raised. *)
Theorem last_day_of_month_is_the_last_valid_day (y m : Z) :
  (1 <= m <= 12 ->
   exists ld,
     _last_day_of_month y m = Ok ld
     /\ 28 <= ld <= 31
     /\ (ld = 29 <-> m = 2 /\ isleap y = true)
     /\ (MINYEAR <= y <= MAXYEAR ->
         forall d, date_new y m d = Ok (Date y m d) <-> 1 <= d <= ld))
  /\ (~ 1 <= m <= 12 -> _last_day_of_month y m = Raise ValueError).
Proof.
  split.
  - intro Hm. exists (days_in_month y m).
    split; [now apply last_day_of_month_ok|].
    split; [now apply days_in_month_bounds|].
    split.
    + unfold days_in_month. apply month_cases in Hm.
      destruct (isleap y);
        repeat (destruct Hm as [->|Hm]; [vm_compute; split; [discriminate || auto | intros [? ?]; discriminate || auto]|]);
        subst m; vm_compute; (split; [discriminate || auto | intros [? ?]; discriminate || auto]).
    + intros Hy d. split.
      * intro H. apply date_new_inv in H. destruct H as [_ V].
        apply valid_date_iff in V. cbn [year month day] in V. lia.
      * intro Hd. now apply date_new_ok.
  - intro Hm. unfold _last_day_of_month, monthrange_ndays.
    destruct ((1 <=? m) && (m <=? 12)) eqn:E; [|reflexivity].
    apply andb_true_iff in E. rewrite !Z.leb_le in E. contradiction.
Qed.

(** ** The cycle, written out *)

Lemma anchor_day_bounds (s : string) (anchor : date) :
  _parse_date_guess s = Ok (Some anchor) -> 1 <= day anchor <= 31.
Proof.
  intro P. pose proof (parse_date_guess_valid _ _ P) as Va.
  apply valid_date_iff in Va. destruct Va as (_ & Hma & Hda).
  pose proof (days_in_month_bounds (year anchor) (month anchor) Hma). lia.
Qed.

Lemma period_start_value (s : string) (anchor : date) (now_utc : datetime) :
  _parse_date_guess s = Ok (Some anchor) ->
  valid_date (dt_date now_utc) = true ->
  ~ (year (dt_date now_utc) = MINYEAR /\ month (dt_date now_utc) = 1
     /\ day (dt_date now_utc) < day anchor) ->
  _anchored_period_start s now_utc
  = Ok (Some (cycle_start_of (day anchor) (dt_date now_utc)))
  /\ valid_date (cycle_start_of (day anchor) (dt_date now_utc)) = true.
Proof.
  intros P V Hrange.
  pose proof (anchor_day_bounds _ _ P) as Ba.
  set (today := dt_date now_utc) in *.
  apply valid_date_iff in V. destruct V as (Hy & Hm & Hd).
  pose proof (days_in_month_bounds (year today) (month today) Hm) as Bt.
  unfold _anchored_period_start, cycle_start_of. rewrite P. cbn [bind]. fold today.
  rewrite (last_day_of_month_ok _ _ Hm). cbn [bind].
  rewrite date_new_ok by lia. cbn [bind].
  set (c := Z.min (day anchor) (days_in_month (year today) (month today))).
  assert (L : date_leb (Date (year today) (month today) c) today = (c <=? day today)).
  { destruct (c <=? day today) eqn:E.
    - apply Z.leb_le in E. apply date_leb_le. simpl. lia.
    - apply Z.leb_gt in E. apply not_true_iff_false. intro H.
      apply date_leb_le in H. simpl in H. lia. }
  rewrite L. destruct (c <=? day today) eqn:E.
  - split; [reflexivity|]. apply valid_date_iff. simpl. lia.
  - apply Z.leb_gt in E. unfold MINYEAR, MAXYEAR in *.
    destruct (month today =? 1) eqn:M1.
    + apply Z.eqb_eq in M1.
      assert (year today <> 1) by (intro; apply Hrange; lia).
      rewrite (last_day_of_month_ok (year today - 1) 12) by lia. cbn [bind].
      pose proof (days_in_month_bounds (year today - 1) 12 ltac:(lia)) as Bp.
      rewrite date_new_ok by (unfold MINYEAR, MAXYEAR; lia). cbn [bind].
      split; [reflexivity|]. apply valid_date_iff. unfold MINYEAR, MAXYEAR. simpl. lia.
    + apply Z.eqb_neq in M1.
      rewrite (last_day_of_month_ok (year today) (month today - 1)) by lia. cbn [bind].
      pose proof (days_in_month_bounds (year today) (month today - 1) ltac:(lia)) as Bp.
      rewrite date_new_ok by (unfold MINYEAR, MAXYEAR; lia). cbn [bind].
      split; [reflexivity|]. apply valid_date_iff. unfold MINYEAR, MAXYEAR. simpl. lia.
Qed.

Lemma period_end_value (s : string) (anchor start : date) :
  _parse_date_guess s = Ok (Some anchor) ->
  valid_date start = true ->
  ~ (year start = MAXYEAR /\ month start = 12) ->
  _anchored_period_end s start = Ok (Some (cycle_end_of (day anchor) start))
  /\ valid_date (cycle_end_of (day anchor) start) = true.
Proof.
  intros P V Hrange.
  pose proof (anchor_day_bounds _ _ P) as Ba.
  apply valid_date_iff in V. destruct V as (Hy & Hm & Hd).
  unfold _anchored_period_end, cycle_end_of. rewrite P. cbn [bind].
  unfold MINYEAR, MAXYEAR in *.
  destruct (month start =? 12) eqn:M12.
  - apply Z.eqb_eq in M12.
    rewrite (last_day_of_month_ok (year start + 1) 1) by lia. cbn [bind].
    pose proof (days_in_month_bounds (year start + 1) 1 ltac:(lia)) as Bn.
    rewrite date_new_ok by (unfold MINYEAR, MAXYEAR; lia). cbn [bind].
    split; [reflexivity|]. apply valid_date_iff. unfold MINYEAR, MAXYEAR. simpl. lia.
  - apply Z.eqb_neq in M12.
    rewrite (last_day_of_month_ok (year start) (month start + 1)) by lia. cbn [bind].
    pose proof (days_in_month_bounds (year start) (month start + 1) ltac:(lia)) as Bn.
    rewrite date_new_ok by (unfold MINYEAR, MAXYEAR; lia). cbn [bind].
    split; [reflexivity|]. apply valid_date_iff. unfold MINYEAR, MAXYEAR. simpl. lia.
Qed.

(** The facts about the written-out cycle that the properties below
    rest on. *)
Lemma cycle_start_facts (a : Z) (today : date) :
  1 <= a <= 31 -> valid_date today = true ->
  let start := cycle_start_of a today in
  day start = Z.min a (days_in_month (year start) (month start))
  /\ ((year start = year today /\ month start = month today /\ day start <= day today)
      \/ (day today < Z.min a (days_in_month (year today) (month today))
          /\ ((month today = 1 /\ year start = year today - 1 /\ month start = 12)
              \/ (month today <> 1 /\ year start = year today
                  /\ month start = month today - 1)))).
Proof.
  intros Ha V. apply valid_date_iff in V. destruct V as (Hy & Hm & Hd).
  unfold cycle_start_of. cbv zeta.
  destruct (_ <=? day today) eqn:E.
  - apply Z.leb_le in E. cbn [year month day]. split; [reflexivity|]. left. lia.
  - apply Z.leb_gt in E. destruct (month today =? 1) eqn:M1.
    + apply Z.eqb_eq in M1. cbn [year month day]. split; [reflexivity|]. right. lia.
    + apply Z.eqb_neq in M1. cbn [year month day]. split; [reflexivity|]. right. lia.
Qed.

Lemma cycle_end_facts (a : Z) (start : date) :
  let e := cycle_end_of a start in
  day e = Z.min a (days_in_month (year e) (month e))
  /\ ((month start = 12 /\ year e = year start + 1 /\ month e = 1)
      \/ (month start <> 12 /\ year e = year start /\ month e = month start + 1)).
Proof.
  unfold cycle_end_of. destruct (month start =? 12) eqn:M12.
  - apply Z.eqb_eq in M12. cbn [year month day]. split; [reflexivity|]. left. lia.
  - apply Z.eqb_neq in M12. cbn [year month day]. split; [reflexivity|]. right. lia.
Qed.

Lemma days_before_next_month (m : Z) (b : bool) :
  1 <= m <= 11 ->
  _DAYS_BEFORE_MONTH (m + 1) + (if (2 <? m + 1) && b then 1 else 0)
  = _DAYS_BEFORE_MONTH m + (if (2 <? m) && b then 1 else 0)
    + (if (m =? 2) && b then 29 else mdays m).
Proof.
  intro Hm.
  assert (C : m = 1 \/ m = 2 \/ m = 3 \/ m = 4 \/ m = 5 \/ m = 6 \/ m = 7 \/ m = 8
              \/ m = 9 \/ m = 10 \/ m = 11) by lia.
  destruct b; repeat (destruct C as [->|C]; [vm_compute; reflexivity|]);
    subst m; vm_compute; reflexivity.
Qed.

(** The ordinal of the last day of a month is one less than the ordinal
    of the first day of the next month. *)
Lemma ordinal_of_next_month (start e : date) (d : Z) :
  1 <= month start <= 12 ->
  (month start = 12 /\ year e = year start + 1 /\ month e = 1)
  \/ (month start <> 12 /\ year e = year start /\ month e = month start + 1) ->
  toordinal e - toordinal start
  = days_in_month (year start) (month start) - day start + day e.
Proof.
  intros Hm [(M & Ey & Em) | (M & Ey & Em)]; unfold toordinal, _ymd2ord.
  - rewrite Ey, Em, M, days_before_year_succ.
    unfold _days_before_month, days_in_month.
    change (_DAYS_BEFORE_MONTH 1) with 0. change (_DAYS_BEFORE_MONTH 12) with 334.
    change (mdays 12) with 31. change (2 <? 1) with false. change (2 <? 12) with true.
    change (12 =? 2) with false. cbn [andb].
    destruct (isleap (year start)); lia.
  - rewrite Ey, Em. unfold _days_before_month, days_in_month.
    pose proof (days_before_next_month (month start) (isleap (year start)) ltac:(lia)).
    lia.
Qed.

(** The cycle around the current day: its two ends, in order around
    today, and its length. *)
Lemma cycle_of_today (s : string) (anchor : date) (now_utc : datetime) :
  _parse_date_guess s = Ok (Some anchor) ->
  valid_date (dt_date now_utc) = true ->
  ~ (year (dt_date now_utc) = MINYEAR /\ month (dt_date now_utc) = 1
     /\ day (dt_date now_utc) < day anchor) ->
  ~ (year (dt_date now_utc) = MAXYEAR /\ month (dt_date now_utc) = 12) ->
  exists start end_,
    _anchored_period_start s now_utc = Ok (Some start)
    /\ _anchored_period_end s start = Ok (Some end_)
    /\ valid_date start = true /\ valid_date end_ = true
    /\ date_leb start (dt_date now_utc) = true
    /\ date_ltb (dt_date now_utc) end_ = true
    /\ toordinal end_ - toordinal start
       = days_in_month (year start) (month start) - day start + day end_
    /\ 28 <= toordinal end_ - toordinal start <= 31.
Proof.
  intros P V H1 H2.
  pose proof (anchor_day_bounds _ _ P) as Ba.
  destruct (period_start_value s anchor now_utc P V H1) as [Hs Vs].
  set (today := dt_date now_utc) in *.
  set (start := cycle_start_of (day anchor) today) in *.
  destruct (cycle_start_facts (day anchor) today Ba V) as [Ds Cs]. fold start in Ds, Cs.
  pose proof V as V'. apply valid_date_iff in V'. destruct V' as (Hy & Hm & Hd).
  assert (Hend : ~ (year start = MAXYEAR /\ month start = 12)).
  { unfold MINYEAR, MAXYEAR in *. lia. }
  destruct (period_end_value s anchor start P Vs Hend) as [He Ve].
  set (e := cycle_end_of (day anchor) start) in *.
  destruct (cycle_end_facts (day anchor) start) as [De Ce]. fold e in De, Ce.
  exists start, e. split; [exact Hs|]. split; [exact He|].
  split; [exact Vs|]. split; [exact Ve|].
  pose proof Vs as Vs'. apply valid_date_iff in Vs'. destruct Vs' as (_ & Hms & Hds).
  pose proof Ve as Ve'. apply valid_date_iff in Ve'. destruct Ve' as (_ & Hme & Hde).
  split; [apply date_leb_le; lia|].
  split.
  { apply date_ltb_lt.
    destruct Cs as [Cs | (Lt & Cs)]; [lia|].
    assert (year e = year today /\ month e = month today) as [Ey Em] by lia.
    rewrite Ey, Em in De. lia. }
  pose proof (ordinal_of_next_month start e (day e) Hms Ce) as O.
  split; [exact O|]. rewrite O.
  pose proof (days_in_month_bounds (year start) (month start) Hms).
  pose proof (days_in_month_bounds (year e) (month e) Hme).
  lia.
Qed.

(** ** The billing cycle around the current day *)

(** X6. The cycle computed for a day contains that day: its start is at
    or before the day and its end is strictly after it.  (The two ends
    of the range of dates are left out: January of year 1 before the
    anchor day, and December 9999.) *)
Theorem today_lies_in_its_cycle (s : string) (anchor : date) (now_utc : datetime) :
  _parse_date_guess s = Ok (Some anchor) ->
  valid_date (dt_date now_utc) = true ->
  ~ (year (dt_date now_utc) = MINYEAR /\ month (dt_date now_utc) = 1
     /\ day (dt_date now_utc) < day anchor) ->
  ~ (year (dt_date now_utc) = MAXYEAR /\ month (dt_date now_utc) = 12) ->
  exists start end_,
    _anchored_period_start s now_utc = Ok (Some start)
    /\ _anchored_period_end s start = Ok (Some end_)
    /\ date_leb start (dt_date now_utc) = true
    /\ date_ltb (dt_date now_utc) end_ = true.
Proof.
  intros P V H1 H2.
  destruct (cycle_of_today s anchor now_utc P V H1 H2)
    as (start & e & Hs & He & _ & _ & L1 & L2 & _).
  exists start, e. auto.
Qed.

Lemma today_lies_in_its_cycle_witness :
  exists start end_,
    _anchored_period_start "2024-01-31" (DateTime (Date 2024 3 5) 12 0 0) = Ok (Some start)
    /\ _anchored_period_end "2024-01-31" start = Ok (Some end_)
    /\ date_leb start (Date 2024 3 5) = true
    /\ date_ltb (Date 2024 3 5) end_ = true.
Proof.
  apply (today_lies_in_its_cycle "2024-01-31" (Date 2024 1 31)
           (DateTime (Date 2024 3 5) 12 0 0)).
  - vm_compute. reflexivity.
  - reflexivity.
  - cbn. unfold MINYEAR. lia.
  - cbn. unfold MAXYEAR. lia.
Defined.

(** X7. From the start of a cycle to its end there are 28 to 31 days: the
    days left in the month of the start, and the day of the month of the
    end. *)
Theorem cycle_lasts_28_to_31_days (s : string) (anchor : date) (now_utc : datetime) :
  _parse_date_guess s = Ok (Some anchor) ->
  valid_date (dt_date now_utc) = true ->
  ~ (year (dt_date now_utc) = MINYEAR /\ month (dt_date now_utc) = 1
     /\ day (dt_date now_utc) < day anchor) ->
  ~ (year (dt_date now_utc) = MAXYEAR /\ month (dt_date now_utc) = 12) ->
  exists start end_,
    _anchored_period_start s now_utc = Ok (Some start)
    /\ _anchored_period_end s start = Ok (Some end_)
    /\ toordinal end_ - toordinal start
       = days_in_month (year start) (month start) - day start + day end_
    /\ 28 <= toordinal end_ - toordinal start <= 31.
Proof.
  intros P V H1 H2.
  destruct (cycle_of_today s anchor now_utc P V H1 H2)
    as (start & e & Hs & He & _ & _ & _ & _ & O & B).
  exists start, e. auto.
Qed.

Lemma cycle_lasts_28_to_31_days_witness :
  exists start end_,
    _anchored_period_start "2023-01-31" (DateTime (Date 2023 2 10) 0 0 0) = Ok (Some start)
    /\ _anchored_period_end "2023-01-31" start = Ok (Some end_)
    /\ toordinal end_ - toordinal start = 28.
Proof.
  destruct (cycle_lasts_28_to_31_days "2023-01-31" (Date 2023 1 31)
              (DateTime (Date 2023 2 10) 0 0 0))
    as (start & e & Hs & He & O & _).
  - vm_compute. reflexivity.
  - reflexivity.
  - cbn. unfold MINYEAR. lia.
  - cbn. unfold MAXYEAR. lia.
  - exists start, e. split; [exact Hs|]. split; [exact He|].
    assert (start = Date 2023 1 31) as -> by (vm_compute in Hs; congruence).
    assert (e = Date 2023 2 28) as -> by (vm_compute in He; congruence).
    reflexivity.
Defined.

(** X8. Every day from the start of a cycle up to the day before its end
    has that same start; and the day of the end is the start of its own
    cycle: the cycles follow one another without gap or overlap. *)
Theorem cycle_is_the_same_on_each_of_its_days (s : string) (anchor : date)
  (now_utc : datetime) :
  _parse_date_guess s = Ok (Some anchor) ->
  valid_date (dt_date now_utc) = true ->
  ~ (year (dt_date now_utc) = MINYEAR /\ month (dt_date now_utc) = 1
     /\ day (dt_date now_utc) < day anchor) ->
  ~ (year (dt_date now_utc) = MAXYEAR /\ month (dt_date now_utc) = 12) ->
  exists start end_,
    _anchored_period_start s now_utc = Ok (Some start)
    /\ _anchored_period_end s start = Ok (Some end_)
    /\ (forall now' : datetime,
          valid_date (dt_date now') = true ->
          date_leb start (dt_date now') = true ->
          date_ltb (dt_date now') end_ = true ->
          _anchored_period_start s now' = Ok (Some start))
    /\ (forall hh mi ss : Z,
          _anchored_period_start s (DateTime end_ hh mi ss) = Ok (Some end_)).
Proof.
  intros P V H1 H2.
  pose proof (anchor_day_bounds _ _ P) as Ba.
  destruct (period_start_value s anchor now_utc P V H1) as [Hs Vs].
  set (today := dt_date now_utc) in *.
  set (start := cycle_start_of (day anchor) today) in *.
  destruct (cycle_start_facts (day anchor) today Ba V) as [Ds Cs]. fold start in Ds, Cs.
  pose proof V as V'. apply valid_date_iff in V'. destruct V' as (Hy & Hm & Hd).
  assert (Hend : ~ (year start = MAXYEAR /\ month start = 12)).
  { unfold MINYEAR, MAXYEAR in *. lia. }
  destruct (period_end_value s anchor start P Vs Hend) as [He Ve].
  set (e := cycle_end_of (day anchor) start) in *.
  destruct (cycle_end_facts (day anchor) start) as [De Ce]. fold e in De, Ce.
  exists start, e. split; [exact Hs|]. split; [exact He|].
  pose proof Vs as Vs'. apply valid_date_iff in Vs'. destruct Vs' as (Hys & Hms & Hds).
  pose proof Ve as Ve'. apply valid_date_iff in Ve'. destruct Ve' as (Hye & Hme & Hde).
  clear Cs H1 H2 Hs He. clearbody start e. unfold MINYEAR, MAXYEAR in *.
  split.
  - intros now' V' L1 L2.
    apply date_leb_le in L1. apply date_ltb_lt in L2.
    set (t := dt_date now') in *.
    pose proof V' as V''. apply valid_date_iff in V''. destruct V'' as (Hyt & Hmt & Hdt).
    assert (H1' : ~ (year t = MINYEAR /\ month t = 1 /\ day t < day anchor)).
    { unfold MINYEAR. intros (Y & M & D).
      assert (days_in_month (year start) (month start) = 31).
      { assert (year start = 1 /\ month start = 1) as [-> ->] by lia. reflexivity. }
      lia. }
    destruct (period_start_value s anchor now' P V' H1') as [Hs' _]. fold t in Hs'.
    rewrite Hs'. do 2 f_equal.
    destruct (cycle_start_facts (day anchor) t Ba V') as [Ds' Cs'].
    set (start' := cycle_start_of (day anchor) t) in *. clearbody start'.
    assert (M : (year t = year start /\ month t = month start)
                \/ (year t = year e /\ month t = month e)).
    { clear - L1 L2 Ce Hms Hmt Hme. lia. }
    assert (year start' = year start /\ month start' = month start) as [Ey Em].
    { destruct Cs' as [(E1 & E2 & E3) | (Lt & Cs')].
      - rewrite E1, E2 in Ds'.
        destruct M as [[Ey Em] | [Ey Em]]; [split; congruence|].
        exfalso. rewrite Ey, Em in Ds'. rewrite <- De in Ds'.
        clear - L2 Ey Em E3 Ds'. lia.
      - destruct M as [[Ey Em] | [Ey Em]].
        + exfalso. rewrite Ey, Em, <- Ds in Lt. clear - L1 Ey Em Lt. lia.
        + clear - Cs' Ce Ey Em Hms Hme. lia. }
    destruct start as [ys ms ds], start' as [ys' ms' ds']. cbn [year month day] in *.
    subst. reflexivity.
  - intros hh mi ss.
    assert (H1' : ~ (year e = MINYEAR /\ month e = 1 /\ day e < day anchor)).
    { unfold MINYEAR. lia. }
    destruct (period_start_value s anchor (DateTime e hh mi ss) P Ve H1') as [Hs' _].
    cbn [dt_date] in Hs'. rewrite Hs'. do 2 f_equal.
    unfold cycle_start_of. cbv zeta. rewrite <- De.
    rewrite Z.leb_refl. destruct e; reflexivity.
Qed.

Lemma cycle_is_the_same_on_each_of_its_days_witness :
  _anchored_period_start "2024-01-31" (DateTime (Date 2024 3 30) 23 59 59)
  = Ok (Some (Date 2024 2 29))
  /\ _anchored_period_start "2024-01-31" (DateTime (Date 2024 3 31) 0 0 0)
     = Ok (Some (Date 2024 3 31)).
Proof.
  destruct (cycle_is_the_same_on_each_of_its_days "2024-01-31" (Date 2024 1 31)
              (DateTime (Date 2024 3 5) 12 0 0))
    as (start & e & Hs & He & Same & Next).
  - vm_compute. reflexivity.
  - reflexivity.
  - cbn. unfold MINYEAR. lia.
  - cbn. unfold MAXYEAR. lia.
  - assert (start = Date 2024 2 29) as -> by (vm_compute in Hs; congruence).
    assert (e = Date 2024 3 31) as -> by (vm_compute in He; congruence).
    split; [apply Same; reflexivity | apply Next].
Defined.

(** ** Dates expanded to time stamps *)

Lemma length_append (a b : string) :
  String.length (a ++ b) = (String.length a + String.length b)%nat.
Proof.
  induction a as [|c a IH]; [reflexivity|].
  rewrite append_cons. cbn [String.length]. now rewrite IH.
Qed.

Lemma drop_while_end_nonempty (p : ascii -> bool) (a b : string) :
  b <> EmptyString -> drop_while_end p b = b -> drop_while_end p (a ++ b) = a ++ b.
Proof.
  intros NE Hb. induction a as [|c a IH]; [exact Hb|].
  rewrite append_cons, drop_while_end_cons, IH.
  destruct (a ++ b) eqn:E; [|reflexivity].
  destruct a; [|discriminate E]. rewrite append_empty in E. contradiction.
Qed.

Lemma drop_while_first (p : ascii -> bool) (s : string) (c : ascii) (r : string) :
  drop_while p s = String c r -> p c = false.
Proof.
  induction s as [|c' s IH]; cbn [drop_while]; [discriminate|].
  destruct (p c') eqn:E; [exact IH|]. intro H. injection H as -> _. exact E.
Qed.

Lemma drop_while_end_first (p : ascii -> bool) (s : string) (c : ascii) (r : string) :
  (forall c0 r0, s = String c0 r0 -> p c0 = false) ->
  drop_while_end p s = String c r -> p c = false.
Proof.
  intros Hs H. destruct s as [|c0 s]; [discriminate H|].
  rewrite drop_while_end_keep in H by (eapply Hs; reflexivity).
  injection H as <- _. eapply Hs; reflexivity.
Qed.

Lemma strip_first (s : string) (c : ascii) (r : string) :
  strip s = String c r -> isspace c = false.
Proof.
  unfold strip. apply drop_while_end_first.
  intros c0 r0 E. exact (drop_while_first _ _ _ _ E).
Qed.

Lemma time_text_cases (end_of_day : bool) :
  let t := " " ++ (if end_of_day then "23:59:59" else "00:00:00") in
  t <> EmptyString /\ drop_while_end isspace t = t /\ String.length t = 9%nat.
Proof. destruct end_of_day; repeat split; discriminate. Qed.

(** X9. [to_ts] applied to its own result changes nothing, whichever end
    of the day is asked for. *)
Theorem to_ts_idempotent (date_str : string) (end_of_day end_of_day' : bool) :
  to_ts (to_ts date_str end_of_day) end_of_day' = to_ts date_str end_of_day.
Proof.
  unfold to_ts at 2 3. set (s := strip date_str).
  assert (Hs : strip s = s) by apply strip_idem.
  destruct ((String.length s =? 10)%nat && char_is 4 "-" s && char_is 7 "-" s) eqn:Sh.
  - destruct (time_text_cases end_of_day) as (NE & Ht & Lt).
    set (t := " " ++ (if end_of_day then "23:59:59" else "00:00:00")) in *.
    apply andb_true_iff in Sh. destruct Sh as [Sh _].
    apply andb_true_iff in Sh. destruct Sh as [Sh _]. apply Nat.eqb_eq in Sh.
    assert (St : strip (s ++ t) = s ++ t).
    { unfold strip. destruct s as [|c r] eqn:Es; [discriminate Sh|].
      rewrite append_cons. cbn [drop_while].
      rewrite (strip_first date_str c r Es).
      rewrite <- append_cons. now apply drop_while_end_nonempty. }
    unfold to_ts. rewrite St, length_append, Sh, Lt. reflexivity.
  - unfold to_ts. rewrite Hs. fold s. now rewrite Sh.
Qed.

Lemma strip_date_text (dd : date) : strip (strftime_ymd dd) = strftime_ymd dd.
Proof.
  pose proof (date_chars_strftime dd) as DC.
  rewrite <- (append_nil_r' (strftime_ymd dd)) at 1.
  revert DC. unfold strftime_ymd. intro DC.
  rewrite (strip_date_prefix _ _ EmptyString DC). cbn [drop_while_end].
  now rewrite append_nil_r'.
Qed.

Lemma to_ts_date_text (dd : date) (end_of_day : bool) :
  to_ts (strftime_ymd dd) end_of_day
  = strftime_ymd dd ++ " " ++ (if end_of_day then "23:59:59" else "00:00:00").
Proof. unfold to_ts. rewrite strip_date_text. reflexivity. Qed.

Lemma strptime_day_bounds (dd : date) (hh mi ss : Z) (t : string) :
  valid_date dd = true ->
  (forall ymd : Z * Z * Z,
      exists l,
        m_bind m_spaces (fun _ =>
        m_bind re_H (fun H =>
        m_bind (m_lit ":") (fun _ =>
        m_bind re_M (fun M =>
        m_bind (m_lit ":") (fun _ =>
        m_bind re_S (fun S => m_ret (ymd, (H, M, S))))))))
          t
        = ((ymd, (hh, mi, ss)), EmptyString) :: l) ->
  (0 <=? hh) && (hh <=? 23) && (0 <=? mi) && (mi <=? 59) && (0 <=? ss) && (ss <=? 59)
  = true ->
  strptime_ymd_hms (strftime_ymd dd ++ t) = Ok (DateTime dd hh mi ss).
Proof.
  intros V Ht B. unfold strptime_ymd_hms, first_full_match, re_ymd_hms.
  unfold m_bind at 1. rewrite (re_ymd_text dd t V). cbn [flat_map].
  destruct (Ht (year dd, month dd, day dd)) as (l & ->).
  cbn [app bind]. unfold datetime_new, date_new. rewrite date_eta, V. cbn [bind].
  now rewrite B.
Qed.

(** X10. The text of a date, with or without white space around it,
    becomes the first or the last second of that day, in the form
    [strptime] reads back with ["%Y-%m-%d %H:%M:%S"]. *)
Theorem to_ts_expands_a_date_to_its_day_bounds (dd : date) :
  valid_date dd = true ->
  to_ts (strftime_ymd dd) false = strftime_ymd dd ++ " 00:00:00"
  /\ to_ts (strftime_ymd dd) true = strftime_ymd dd ++ " 23:59:59"
  /\ strptime_ymd_hms (to_ts (strftime_ymd dd) false) = Ok (DateTime dd 0 0 0)
  /\ strptime_ymd_hms (to_ts (strftime_ymd dd) true) = Ok (DateTime dd 23 59 59)
  /\ (forall pre post,
        string_forall isspace pre = true -> string_forall isspace post = true ->
        to_ts (pre ++ strftime_ymd dd ++ post) false = to_ts (strftime_ymd dd) false
        /\ to_ts (pre ++ strftime_ymd dd ++ post) true = to_ts (strftime_ymd dd) true).
Proof.
  intro V.
  split; [apply to_ts_date_text|]. split; [apply to_ts_date_text|].
  split; [|split].
  - rewrite to_ts_date_text. apply strptime_day_bounds; [exact V | | reflexivity].
    intro ymd. eexists. vm_compute. reflexivity.
  - rewrite to_ts_date_text. apply strptime_day_bounds; [exact V | | reflexivity].
    intro ymd. eexists. vm_compute. reflexivity.
  - intros pre post Hpre Hpost. unfold to_ts.
    rewrite strip_padding by assumption. split; reflexivity.
Qed.

Lemma to_ts_expands_a_date_to_its_day_bounds_witness :
  to_ts "2024-02-29" true = "2024-02-29 23:59:59"
  /\ strptime_ymd_hms "2024-02-29 00:00:00" = Ok (DateTime (Date 2024 2 29) 0 0 0).
Proof.
  destruct (to_ts_expands_a_date_to_its_day_bounds (Date 2024 2 29) eq_refl)
    as (_ & H1 & H2 & _).
  split; [exact H1 | exact H2].
Defined.

(** ** The window of the query *)

Lemma parsed_text_nonempty (s : string) (d : date) :
  _parse_date_guess s = Ok (Some d) -> str_nonempty s = true.
Proof. destruct s; [discriminate | reflexivity]. Qed.

Lemma datetime_new_valid (d : date) (hh mi ss : Z) :
  valid_date d = true ->
  (0 <=? hh) && (hh <=? 23) && (0 <=? mi) && (mi <=? 59) && (0 <=? ss) && (ss <=? 59)
  = true ->
  datetime_new (year d) (month d) (day d) hh mi ss = Ok (DateTime d hh mi ss).
Proof.
  intros V B. unfold datetime_new, date_new. rewrite date_eta, V. cbn [bind].
  now rewrite B.
Qed.

Lemma py_min_datetime_earlier_day (now : datetime) (e : date) (hh mi ss : Z) :
  date_ltb (dt_date now) e = true -> py_min_datetime now (DateTime e hh mi ss) = now.
Proof.
  intro L. unfold py_min_datetime, datetime_ltb. cbn [dt_date].
  rewrite (date_ltb_asym _ _ L).
  destruct (date_eqb e (dt_date now)) eqn:E; [|reflexivity].
  apply date_eqb_eq in E. subst e. now rewrite date_ltb_irrefl in L.
Qed.

(** X11. With a start date that parses, the window of the traffic query
    runs from the first second of the start of the current cycle to the
    current instant: the end of the cycle lies after today, so the
    minimum taken with it is always the current instant. *)
Theorem anchored_query_window_ends_now (s : string) (env_to : option string)
  (anchor : date) (now : datetime) :
  _parse_date_guess s = Ok (Some anchor) ->
  valid_date (dt_date now) = true ->
  ~ (year (dt_date now) = MINYEAR /\ month (dt_date now) = 1
     /\ day (dt_date now) < day anchor) ->
  ~ (year (dt_date now) = MAXYEAR /\ month (dt_date now) = 12) ->
  exists start,
    _anchored_period_start s now = Ok (Some start)
    /\ date_leb start (dt_date now) = true
    /\ query_window (Some s) env_to now
       = Ok (Some (strftime_ymd start ++ " 00:00:00"), strftime_ymd_hms now).
Proof.
  intros P V H1 H2.
  destruct (cycle_of_today s anchor now P V H1 H2)
    as (start & e & Hs & He & Vs & Ve & L1 & L2 & _).
  exists start. split; [exact Hs|]. split; [exact L1|].
  unfold query_window. cbn [option_string_truthy default Datatypes.id].
  rewrite (parsed_text_nonempty _ _ P), Hs. cbn [bind]. rewrite He. cbn [bind].
  rewrite (datetime_new_valid e 23 59 59 Ve eq_refl). cbn [bind].
  now rewrite (py_min_datetime_earlier_day now e 23 59 59 L2).
Qed.

Lemma anchored_query_window_ends_now_witness :
  query_window (Some "2024-01-31") None (DateTime (Date 2024 3 5) 12 30 0)
  = Ok (Some "2024-02-29 00:00:00", "2024-03-05 12:30:00").
Proof.
  destruct (anchored_query_window_ends_now "2024-01-31" None (Date 2024 1 31)
              (DateTime (Date 2024 3 5) 12 30 0))
    as (start & Hs & _ & W).
  - vm_compute. reflexivity.
  - reflexivity.
  - cbn. unfold MINYEAR. lia.
  - cbn. unfold MAXYEAR. lia.
  - assert (start = Date 2024 2 29) as -> by (vm_compute in Hs; congruence).
    exact W.
Defined.

(** ** The days of the chart *)

Lemma Forall2_eq_map {A B} (P : A -> B -> Prop) (f : A -> B) (l : list A) (bs : list B) :
  Forall2 P l bs -> (forall a b, In a l -> P a b -> b = f a) -> bs = map f l.
Proof.
  induction 1 as [|a b l bs Hab _ IH]; intro H; [reflexivity|].
  cbn [map]. f_equal.
  - apply H; [now left | exact Hab].
  - apply IH. intros a' b' Ha'. apply H. now right.
Qed.

(** The span from the first of a month to one of its days lists the
    days of the month up to that day. *)
Lemma month_span (y m d : Z) :
  valid_date (Date y m d) = true ->
  date_new y m 1 = Ok (Date y m 1)
  /\ _build_date_span (Date y m 1) (Date y m d) = Ok (month_days_to y m d).
Proof.
  intro V. pose proof V as V'. apply valid_date_iff in V'.
  cbn [year month day] in V'. destruct V' as (Hy & Hm & Hd).
  assert (V1 : valid_date (Date y m 1) = true)
    by (apply valid_date_iff; cbn [year month day]; lia).
  split; [unfold date_new; now rewrite V1|].
  assert (L : date_ltb (Date y m d) (Date y m 1) = false).
  { apply not_true_iff_false. intro H. apply date_ltb_lt in H.
    cbn [year month day] in H. lia. }
  destruct (build_date_span_ordered _ _ V1 V L) as (days & Hdays & F2).
  rewrite Hdays. f_equal.
  assert (O : toordinal (Date y m d) - toordinal (Date y m 1) + 1 = d)
    by (unfold toordinal, _ymd2ord; cbn [year month day]; lia).
  rewrite O in F2. unfold month_days_to.
  apply (Forall2_eq_map _ _ _ _ F2).
  intros i dd Hi [Vd Od]. apply in_py_range in Hi.
  apply toordinal_inj; [exact Vd | apply valid_date_iff; cbn [year month day]; lia|].
  rewrite Od. unfold toordinal, _ymd2ord. cbn [year month day]. lia.
Qed.

(** X12. Without a start date, the chart shows a month from its first
    day: the month of the end date up to that date when an end date is
    set and parses, the local month up to the local date otherwise; a
    start date that does not parse gives the local month to date as
    well. *)
Theorem chart_span_of_a_month_starts_on_its_first_day (now_utc : datetime)
  (today_local : date) :
  (forall start_setting end_text ed,
      option_string_truthy start_setting = false ->
      _parse_date_guess end_text = Ok (Some ed) ->
      chart_span start_setting (Some end_text) now_utc today_local
      = Ok (month_days_to (year ed) (month ed) (day ed)))
  /\ (valid_date today_local = true ->
      (forall start_setting end_setting,
          option_string_truthy start_setting = false ->
          match end_setting with
          | Some end_text => _parse_date_guess end_text = Ok None
          | None => True
          end ->
          chart_span start_setting end_setting now_utc today_local
          = Ok (month_days_to (year today_local) (month today_local) (day today_local)))
      /\ (forall start_text end_setting,
             str_nonempty start_text = true ->
             _parse_date_guess start_text = Ok None ->
             chart_span (Some start_text) end_setting now_utc today_local
             = Ok (month_days_to (year today_local) (month today_local)
                     (day today_local)))).
Proof.
  split; [|intro Vt; split].
  - intros start_setting end_text ed T P. unfold chart_span. rewrite T.
    cbn [option_string_truthy default Datatypes.id].
    rewrite (parsed_text_nonempty _ _ P), P. cbn [bind].
    pose proof (parse_date_guess_valid _ _ P) as V. rewrite <- (date_eta ed) in V.
    destruct (month_span _ _ _ V) as [N Sp].
    rewrite N. cbn [bind]. rewrite date_eta in Sp. exact Sp.
  - intros start_setting end_setting T PE. unfold chart_span. rewrite T.
    rewrite <- (date_eta today_local) in Vt.
    destruct (month_span _ _ _ Vt) as [N Sp].
    destruct end_setting as [end_text|]; cbn [option_string_truthy default Datatypes.id].
    + destruct (str_nonempty end_text).
      * rewrite PE. cbn [bind]. rewrite N. cbn [bind]. rewrite date_eta in Sp. exact Sp.
      * rewrite N. cbn [bind]. rewrite date_eta in Sp. exact Sp.
    + rewrite N. cbn [bind]. rewrite date_eta in Sp. exact Sp.
  - intros start_text end_setting NE P. unfold chart_span.
    cbn [option_string_truthy default Datatypes.id]. rewrite NE.
    unfold _anchored_period_start, _anchored_period_end. rewrite P. cbn [bind].
    rewrite <- (date_eta today_local) in Vt.
    destruct (month_span _ _ _ Vt) as [N Sp].
    rewrite N. cbn [bind]. rewrite date_eta in Sp. exact Sp.
Qed.

(** The span between two dates in order: its length and its members. *)
Lemma date_span_members (lo hi : date) :
  valid_date lo = true -> valid_date hi = true -> date_leb lo hi = true ->
  exists days,
    _build_date_span lo hi = Ok days
    /\ Z.of_nat (List.length days) = toordinal hi - toordinal lo + 1
    /\ (forall d, valid_date d = true ->
                  (In d days <-> date_leb lo d = true /\ date_leb d hi = true)).
Proof.
  intros Vlo Vhi Le.
  pose proof (proj1 (toordinal_le_iff lo hi Vlo Vhi) Le) as Hle.
  assert (L : date_ltb hi lo = false).
  { apply not_true_iff_false. intro H.
    apply (toordinal_lt_iff hi lo Vhi Vlo) in H. lia. }
  destruct (build_date_span_ordered lo hi Vlo Vhi L) as (days & Hdays & F2).
  exists days. split; [exact Hdays|]. split.
  - rewrite <- (List.Forall2_length F2). unfold py_range.
    rewrite length_map, length_seq. lia.
  - intros d Vd. rewrite (toordinal_le_iff lo d Vlo Vd), (toordinal_le_iff d hi Vd Vhi).
    split.
    + intro Hd. destruct (Forall2_in_r _ _ _ d F2 Hd) as (i & Hi & _ & Od).
      apply in_py_range in Hi. lia.
    + intros [H1 H2].
      destruct (Forall2_in_l _ _ _ (toordinal d - toordinal lo) F2) as (d' & Hd' & Vd' & Od').
      { apply in_py_range. lia. }
      assert (d' = d) as <- by (apply toordinal_inj; [assumption..|lia]).
      exact Hd'.
Qed.

(** X13. With a start date that parses, the chart shows the cycle of the
    current day from its start to its end, both included: 29 to 32 days,
    the current day among them. *)
Theorem chart_span_is_the_cycle_of_today (s : string) (end_setting : option string)
  (anchor : date) (now_utc : datetime) (today_local : date) :
  _parse_date_guess s = Ok (Some anchor) ->
  valid_date (dt_date now_utc) = true ->
  ~ (year (dt_date now_utc) = MINYEAR /\ month (dt_date now_utc) = 1
     /\ day (dt_date now_utc) < day anchor) ->
  ~ (year (dt_date now_utc) = MAXYEAR /\ month (dt_date now_utc) = 12) ->
  exists start end_ days,
    _anchored_period_start s now_utc = Ok (Some start)
    /\ _anchored_period_end s start = Ok (Some end_)
    /\ chart_span (Some s) end_setting now_utc today_local = Ok days
    /\ 29 <= Z.of_nat (List.length days) <= 32
    /\ (forall d, valid_date d = true ->
                  (In d days <-> date_leb start d = true /\ date_leb d end_ = true))
    /\ In (dt_date now_utc) days.
Proof.
  intros P V H1 H2.
  destruct (cycle_of_today s anchor now_utc P V H1 H2)
    as (start & e & Hs & He & Vs & Ve & L1 & L2 & _ & B).
  assert (Le : date_leb start e = true).
  { apply (toordinal_le_iff start e Vs Ve). lia. }
  destruct (date_span_members start e Vs Ve Le) as (days & Hdays & Len & Mem).
  exists start, e, days. split; [exact Hs|]. split; [exact He|].
  split.
  { unfold chart_span. cbn [option_string_truthy default Datatypes.id].
    rewrite (parsed_text_nonempty _ _ P), Hs. cbn [bind]. rewrite He. cbn [bind].
    exact Hdays. }
  split; [lia|]. split; [exact Mem|].
  apply (Mem _ V). split; [exact L1|].
  unfold date_leb. now rewrite L2.
Qed.

Lemma chart_span_is_the_cycle_of_today_witness :
  exists days,
    chart_span (Some "2023-01-31") None (DateTime (Date 2023 2 10) 8 0 0) (Date 2023 2 10)
    = Ok days
    /\ List.length days = 29%nat
    /\ In (Date 2023 2 10) days.
Proof.
  destruct (chart_span_is_the_cycle_of_today "2023-01-31" None (Date 2023 1 31)
              (DateTime (Date 2023 2 10) 8 0 0) (Date 2023 2 10))
    as (start & e & days & Hs & He & Hd & _ & _ & I).
  - vm_compute. reflexivity.
  - reflexivity.
  - cbn. unfold MINYEAR. lia.
  - cbn. unfold MAXYEAR. lia.
  - exists days. split; [exact Hd|]. split; [|exact I].
    vm_compute in Hd. injection Hd as <-. reflexivity.
Defined.

(** ** The keys of the per-day mapping *)


Section DayKeys.

Variable py_repr : value -> string.




End DayKeys.


(** ** The usage total and the daily counts *)

Lemma map_sum_insert (m : gmap string Z) (key : string) (b : Z) :
  map_sum (<[key := default 0 (m !! key) + b]> m) = map_sum m + b.
Proof.
  unfold map_sum.
  assert (C : forall (m' : gmap string Z) (j1 j2 : string) (z1 z2 y : Z),
             j1 <> j2 -> m' !! j1 = Some z1 -> m' !! j2 = Some z2 ->
             z1 + (z2 + y) = z2 + (z1 + y)) by (intros; lia).
  destruct (m !! key) as [v|] eqn:L.
  - change (default 0 (Some v)) with v.
    rewrite <- (insert_delete_id m key v L) at 2.
    rewrite <- (insert_delete_eq m key (v + b)).
    rewrite !map_fold_insert_L; try apply lookup_delete_eq; [lia | apply C | apply C].
  - change (default 0 (@None Z)) with 0.
    rewrite map_fold_insert_L; [lia | apply C | exact L].
Qed.

Lemma dict_get_default_found (d : fields_t) (k : string) (v default default' : value) :
  dict_get_default d k default = v -> v <> default ->
  dict_get_default d k default' = v.
Proof.
  unfold dict_get_default. destruct (dict_lookup d k); [auto | congruence].
Qed.

Lemma extract_bytes_rx_tx_bytes (d : fields_t) (n : Z) :
  dict_get d "rx_tx_bytes" = VInt n -> extract_bytes (VDict d) = Ok n.
Proof.
  intro H. cbn [extract_bytes first_of]. rewrite H. reflexivity.
Qed.

Section Totals.

Variable py_repr : value -> string.

Lemma daily_fold_sum (items : list value) (ns : list Z) :
  Forall2 (dated_count py_repr) items ns ->
  forall acc : gmap string Z,
    exists m,
      fold_result (accumulate_item py_repr) items acc = Ok m
      /\ map_sum m = map_sum acc + Z_sum ns.
Proof.
  induction 1 as [|item n items ns (d & -> & Hn & Hk) _ IH]; intro acc.
  - exists acc. split; [reflexivity|]. unfold Z_sum. cbn. lia.
  - cbn [fold_result]. rewrite accumulate_item_spec.
    destruct (item_day_key py_repr (VDict d)) as [key|]; [|contradiction].
    rewrite (extract_bytes_rx_tx_bytes d n Hn). cbn [bind].
    destruct (IH (<[key := default 0 (acc !! key) + n]> acc)) as (m & Hm & Sm).
    exists m. split; [exact Hm|]. rewrite Sm, map_sum_insert.
    unfold Z_sum. cbn [fold_right]. lia.
Qed.

Lemma itemized_fold_sum (items : list value) (ns : list Z) :
  Forall2 (dated_count py_repr) items ns ->
  forall acc : Z,
    fold_result
      (fun total_bytes item =>
         match item with
         | VDict item =>
             let* n := py_int (dict_get_default item "rx_tx_bytes" (VInt 0)) in
             Ok (total_bytes + n)
         | _ => Ok total_bytes
         end)
      items acc
    = Ok (acc + Z_sum ns).
Proof.
  induction 1 as [|item n items ns (d & -> & Hn & Hk) _ IH]; intro acc.
  - cbn. f_equal. unfold Z_sum. cbn. lia.
  - cbn [fold_result].
    rewrite (dict_get_default_found d "rx_tx_bytes" (VInt n) VNone (VInt 0) Hn)
      by discriminate.
    cbn [py_int bind]. rewrite IH. f_equal. unfold Z_sum. cbn [fold_right]. lia.
Qed.

(** X15. For a response whose [data] items each resolve to a day and carry
    an integer [rx_tx_bytes], the byte counts of the per-day mapping add
    up to the sum of the items, and the used figure of the report is that
    sum as a float, in GB (none when no float holds it). *)
Theorem usage_total_is_the_sum_of_the_daily_counts (items : list value) (ns : list Z) :
  Forall2 (dated_count py_repr) items ns ->
  let traffic := VDict [("data", VList items)] in
  exists m,
    _daily_bytes_from_traffic py_repr traffic = Ok m
    /\ map_sum m = Z_sum ns
    /\ total_used_gb traffic
       = match float_of_int (Z_sum ns) with
         | Ok f => Some (f / GB)%float
         | Raise _ => None
         end.
Proof.
  intros F traffic.
  destruct (daily_fold_sum items ns F ∅) as (m & Hm & Sm).
  exists m. split; [|split].
  - subst traffic. rewrite daily_bytes_as_fold.
    change (traffic_items (VDict [("data", VList items)])) with (concat [items]).
    cbn [concat]. rewrite app_nil_r. exact Hm.
  - rewrite Sm. unfold map_sum. rewrite map_fold_empty. lia.
  - subst traffic. unfold total_used_gb.
    change (metadata_total_gb (VDict [("data", VList items)])) with (@None float).
    unfold itemized_total_gb.
    change (dict_get [("data", VList items)] "data") with (VList items).
    cbv beta iota. rewrite (itemized_fold_sum items ns F 0). cbn [bind].
    rewrite Z.add_0_l.
    destruct (float_of_int (Z_sum ns)) as [f|e] eqn:Fl; cbn [bind catch]; [reflexivity|].
    unfold float_of_int in Fl.
    destruct (binary_normalize _ _ _ _ _); try discriminate Fl.
    injection Fl as <-. reflexivity.
Qed.

End Totals.

Lemma usage_total_is_the_sum_of_the_daily_counts_witness :
  total_used_gb
    (VDict [("data",
             VList [VDict [("date", VStr "2024-01-01"); ("rx_tx_bytes", VInt 2000000000)];
                    VDict [("date", VStr "2024-01-02"); ("rx_tx_bytes", VInt 500000000)]])])
  = Some 2.5%float.
Proof.
  destruct (usage_total_is_the_sum_of_the_daily_counts (fun _ => EmptyString)
              [VDict [("date", VStr "2024-01-01"); ("rx_tx_bytes", VInt 2000000000)];
               VDict [("date", VStr "2024-01-02"); ("rx_tx_bytes", VInt 500000000)]]
              [2000000000; 500000000])
    as (m & _ & _ & T).
  - apply List.Forall2_cons; [|apply List.Forall2_cons; [|apply List.Forall2_nil]];
      (eexists; split; [reflexivity|]; split; [reflexivity | vm_compute; discriminate]).
  - exact T.
Defined.

(** ** Date texts of the report and of the label *)

Lemma is_py_isdigit_digit_char (n : Z) : is_py_isdigit (digit_char n) = true.
Proof. unfold is_py_isdigit. now rewrite digit_char_is_digit. Qed.

Lemma date_text_shape (dd : date) (rest : string) :
  let s := strftime_ymd dd ++ rest in
  (10 <=? String.length s)%nat = true
  /\ char_is 4 "-" s = true /\ char_is 7 "-" s = true
  /\ take 10 s = strftime_ymd dd
  /\ str_isdigit (replace "-" "" (strftime_ymd dd)) = true.
Proof.
  cbv zeta. split; [|split; [|split; [|split]]].
  - rewrite length_append, strftime_length. reflexivity.
  - reflexivity.
  - reflexivity.
  - rewrite <- (strftime_length dd). apply take_prefix.
  - unfold strftime_ymd. cbn [replace].
    rewrite !digit_char_neq by reflexivity.
    change (Ascii.eqb "-" "-") with true. cbn [replace append].
    rewrite ?digit_char_neq by reflexivity.
    rewrite !append_empty. cbn [str_isdigit string_forall].
    now rewrite !is_py_isdigit_digit_char.
Qed.

Section DateTexts.

Variable py_repr : value -> string.

(** X16. A text that begins with a date YYYY-MM-DD is shown as that date
    alone, whatever follows it, by the helper of the report and by the
    helper of the label. *)
Theorem date_only_texts_keep_the_leading_date (dd : date) (rest : string) :
  valid_date dd = true ->
  _date_only_text py_repr (VStr (strftime_ymd dd ++ rest)) = Some (strftime_ymd dd)
  /\ d_only (strftime_ymd dd ++ rest) = strftime_ymd dd.
Proof.
  intros _. pose proof (date_chars_strftime dd) as DC.
  split.
  - unfold _date_only_text. cbn [truthy py_str].
    replace (str_nonempty (strftime_ymd dd ++ rest)) with true by reflexivity.
    cbn [negb].
    assert (S : strip (strftime_ymd dd ++ rest)
                = strftime_ymd dd ++ drop_while_end isspace rest).
    { revert DC. unfold strftime_ymd. apply strip_date_prefix. }
    rewrite S, (cleanup_date_prefix _ _ DC).
    set (tail := split_head "." _).
    destruct (date_text_shape dd tail) as (H1 & H2 & H3 & H4 & H5).
    unfold char_is in H2, H3.
    destruct (char_at 4 (strftime_ymd dd ++ tail)) as [c4|]; [|discriminate H2].
    destruct (char_at 7 (strftime_ymd dd ++ tail)) as [c7|]; [|discriminate H3].
    now rewrite H1, H2, H3, H4, H5.
  - unfold d_only. rewrite (cleanup_date_prefix _ _ DC).
    set (tail := split_head "." _).
    destruct (date_text_shape dd tail) as (H1 & H2 & H3 & H4 & _).
    now rewrite H1, H2, H3, H4.
Qed.

End DateTexts.

Lemma date_only_texts_keep_the_leading_date_witness :
  _date_only_text (fun _ => EmptyString) (VStr "2024-01-31T08:15:00.250Z") = Some "2024-01-31"
  /\ d_only "2024-01-31T08:15:00.250Z" = "2024-01-31".
Proof.
  destruct (date_only_texts_keep_the_leading_date (fun _ => EmptyString)
              (Date 2024 1 31) "T08:15:00.250Z" eq_refl) as (H1 & H2).
  split; [exact H1 | exact H2].
Defined.

(** ** The snapshot of a subscription *)

Lemma numeric_or_raw_kept (current : value) (node : fields_t) (keys : list string)
  (v : value) :
  is_none current = false -> numeric_or_raw current node keys = Ok v -> v = current.
Proof. unfold numeric_or_raw. intros ->. intro H. now injection H. Qed.

Lemma numeric_or_raw_typed (current : value) (node : fields_t) (keys : list string)
  (v : value) :
  is_figure_or_raw current -> numeric_or_raw current node keys = Ok v ->
  is_figure_or_raw v.
Proof.
  unfold numeric_or_raw. intro T.
  destruct (is_none current); [|intro H; injection H as <-; exact T].
  destruct (first_key _ node keys) as [w|]; [|intro H; injection H as <-; exact T].
  destruct (py_float w) as [f|e] eqn:F; cbn [bind catch_type_value].
  - intro H. injection H as <-. exact I.
  - destruct e; intro H; try discriminate H; injection H as <-;
      destruct w; try exact I; cbn [is_figure_or_raw]; auto.
Qed.

Section Snapshot.

Variable py_repr : value -> string.

Lemma text_field_kept (current : value) (node : fields_t) (keys : list string) :
  is_none current = false -> text_field py_repr current node keys = current.
Proof. unfold text_field. now intros ->. Qed.

Lemma text_field_typed (current : value) (node : fields_t) (keys : list string) :
  is_text_or_none current = true ->
  is_text_or_none (text_field py_repr current node keys) = true.
Proof.
  unfold text_field. intro T. destruct (is_none current); [|exact T].
  destruct (first_key truthy node keys); [reflexivity | exact T].
Qed.

Lemma subs_info_step_spec (info info' : subs_info) (node : value) :
  subs_info_step py_repr info node = Ok info' ->
  (snapshot_typed info -> snapshot_typed info') /\ snapshot_kept info info'.
Proof.
  unfold subs_info_step. destruct node as [| | | | | |d]; try discriminate.
  destruct (numeric_or_raw (info_limit info) d keys_limit) as [l|e] eqn:L;
    [|discriminate].
  destruct (numeric_or_raw (info_used info) d keys_used) as [u|e] eqn:U;
    [|discriminate].
  cbn [bind]. intro H. injection H as <-.
  unfold snapshot_typed, snapshot_kept. cbn [info_limit info_used info_period_start
    info_period_end info_plan].
  split.
  - intros (T1 & T2 & T3 & T4 & T5).
    split; [exact (numeric_or_raw_typed _ _ _ _ T1 L)|].
    split; [exact (numeric_or_raw_typed _ _ _ _ T2 U)|].
    split; [now apply text_field_typed|].
    split; now apply text_field_typed.
  - split; [intro N; exact (numeric_or_raw_kept _ _ _ _ N L)|].
    split; [intro N; exact (numeric_or_raw_kept _ _ _ _ N U)|].
    split; [apply text_field_kept|]. split; apply text_field_kept.
Qed.

Lemma snapshot_kept_trans (a b c : subs_info) :
  snapshot_kept a b -> snapshot_kept b c -> snapshot_kept a c.
Proof.
  unfold snapshot_kept.
  intros (A1 & A2 & A3 & A4 & A5) (B1 & B2 & B3 & B4 & B5).
  repeat split; intro N.
  - rewrite <- (A1 N). apply B1. now rewrite (A1 N).
  - rewrite <- (A2 N). apply B2. now rewrite (A2 N).
  - rewrite <- (A3 N). apply B3. now rewrite (A3 N).
  - rewrite <- (A4 N). apply B4. now rewrite (A4 N).
  - rewrite <- (A5 N). apply B5. now rewrite (A5 N).
Qed.

Lemma snapshot_fold_spec (candidates : list value) :
  forall info info',
    fold_result (subs_info_step py_repr) candidates info = Ok info' ->
    (snapshot_typed info -> snapshot_typed info') /\ snapshot_kept info info'.
Proof.
  induction candidates as [|node candidates IH]; intros info info' H.
  - injection H as <-. split; [auto|]. unfold snapshot_kept. auto.
  - cbn [fold_result] in H.
    destruct (subs_info_step py_repr info node) as [info1|e] eqn:S; [|discriminate H].
    cbn [bind] in H. destruct (subs_info_step_spec _ _ _ S) as [T1 K1].
    destruct (IH _ _ H) as [T2 K2].
    split; [auto | exact (snapshot_kept_trans _ _ _ K1 K2)].
Qed.

(** X17. In a snapshot the limit and the used figure are [None], a
    [float], or a raw value that [float()] refuses with [TypeError] or
    [ValueError]; the two period bounds and the plan are [None] or a
    [str].  So the conversion of the snapshot limit in the formatter
    never raises. *)
Theorem snapshot_fields_are_typed (subscriptions : value) (info : subs_info) :
  _extract_subs_info py_repr subscriptions = Ok info ->
  is_figure_or_raw (info_limit info) /\ is_figure_or_raw (info_used info)
  /\ is_text_or_none (info_period_start info) = true
  /\ is_text_or_none (info_period_end info) = true
  /\ is_text_or_none (info_plan info) = true
  /\ exists limit_final, limit_final_of VNone info = Ok limit_final.
Proof.
  intro H.
  assert (T : snapshot_typed info).
  { unfold _extract_subs_info in H.
    destruct subscriptions as [| | | | |l|d];
      try (injection H as <-; repeat split; exact I).
    - apply (snapshot_fold_spec _ _ _ H). repeat split; exact I.
    - apply (snapshot_fold_spec _ _ _ H). repeat split; exact I. }
  destruct T as (T1 & T2 & T3 & T4 & T5).
  repeat (split; [assumption|]).
  unfold limit_final_of. cbn [is_none negb bind].
  unfold try_float.
  destruct (info_limit info) as [| | | | | |]; cbn [is_none negb is_figure_or_raw] in *;
    try (eexists; reflexivity);
    destruct T1 as [-> | ->]; eexists; reflexivity.
Qed.

(** X18. What the top level of a response object settles, the nested
    objects under [data], [subscription] and [result] do not change: the
    first listed key present at the top level gives the limit, the used
    figure, the two period bounds and the plan. *)
Theorem snapshot_prefers_the_top_level (d : fields_t) (info : subs_info) :
  _extract_subs_info py_repr (VDict d) = Ok info ->
  (forall v f, first_key (fun v => negb (is_none v)) d keys_limit = Some v ->
               py_float v = Ok f -> info_limit info = VFloat f)
  /\ (forall v f, first_key (fun v => negb (is_none v)) d keys_used = Some v ->
                  py_float v = Ok f -> info_used info = VFloat f)
  /\ (forall v, first_key truthy d keys_start = Some v ->
                info_period_start info = VStr (py_str py_repr v))
  /\ (forall v, first_key truthy d keys_end = Some v ->
                info_period_end info = VStr (py_str py_repr v))
  /\ (forall v, first_key truthy d keys_plan = Some v ->
                info_plan info = VStr (py_str py_repr v)).
Proof.
  intro H. unfold _extract_subs_info in H.
  destruct d as [|kv d'].
  { repeat split; intros; discriminate. }
  cbn [flat_map _first_mapping_candidate truthy app] in H.
  cbn [app fold_result] in H.
  set (d := kv :: d') in *.
  destruct (subs_info_step py_repr _ (VDict d)) as [info1|e] eqn:S; [|discriminate H].
  cbn [bind] in H.
  destruct (snapshot_fold_spec _ _ _ H) as [_ (K1 & K2 & K3 & K4 & K5)].
  unfold subs_info_step in S. cbn [info_limit info_used info_period_start
    info_period_end info_plan] in S.
  unfold numeric_or_raw, text_field in S. cbn [is_none] in S.
  repeat split.
  - intros v f Fk Pf. rewrite Fk, Pf in S. cbn [bind catch_type_value] in S.
    destruct (match first_key _ d keys_used with Some _ => _ | None => _ end);
      [|discriminate S].
    cbn [bind] in S. injection S as <-. now apply K1.
  - intros v f Fk Pf. rewrite Fk, Pf in S.
    destruct (match first_key _ d keys_limit with Some _ => _ | None => _ end);
      [|discriminate S].
    cbn [bind catch_type_value] in S. injection S as <-. now apply K2.
  - intros v Fk. rewrite Fk in S.
    destruct (match first_key _ d keys_limit with Some _ => _ | None => _ end);
      [|discriminate S].
    destruct (match first_key _ d keys_used with Some _ => _ | None => _ end);
      [|discriminate S].
    cbn [bind] in S. injection S as <-. now apply K3.
  - intros v Fk. rewrite Fk in S.
    destruct (match first_key _ d keys_limit with Some _ => _ | None => _ end);
      [|discriminate S].
    destruct (match first_key _ d keys_used with Some _ => _ | None => _ end);
      [|discriminate S].
    cbn [bind] in S. injection S as <-. now apply K4.
  - intros v Fk. rewrite Fk in S.
    destruct (match first_key _ d keys_limit with Some _ => _ | None => _ end);
      [|discriminate S].
    destruct (match first_key _ d keys_used with Some _ => _ | None => _ end);
      [|discriminate S].
    cbn [bind] in S. injection S as <-. now apply K5.
Qed.

End Snapshot.

Lemma snapshot_fields_are_typed_witness :
  is_text_or_none (VStr "2024-01-01T00:00:00Z") = true.
Proof.
  destruct (snapshot_fields_are_typed (fun _ => EmptyString)
              (VDict [("data", VDict [("traffic_limit", VInt 100);
                                      ("current_period_start", VStr "2024-01-01T00:00:00Z")])])
              (SubsInfo (VFloat 100) VNone (VStr "2024-01-01T00:00:00Z") VNone VNone)
              eq_refl) as (_ & _ & T & _).
  exact T.
Defined.

Lemma snapshot_prefers_the_top_level_witness :
  info_limit (SubsInfo (VFloat 5) VNone VNone VNone (VStr "basic")) = VFloat 5.
Proof.
  destruct (snapshot_prefers_the_top_level (fun _ => EmptyString)
              [("limit", VStr "5"); ("data", VDict [("traffic_limit", VInt 100); ("plan", VStr "basic")])]
              (SubsInfo (VFloat 5) VNone VNone VNone (VStr "basic"))) as (L & _).
  - vm_compute. reflexivity.
  - apply (L (VStr "5") 5%float); vm_compute; reflexivity.
Defined.

(** ** The report for a subscription built from the settings *)

Section EnvReport.

Variable py_repr : value -> string.

Lemma subscription_figures_env (limit : option float) (ps pe : option string) :
  subscription_figures (env_subscription limit ps pe)
  = Ok (match limit with
        | Some f => if (f =? 0)%float then VNone else VFloat f
        | None => VNone
        end, None).
Proof.
  destruct limit as [f|]; unfold subscription_figures, env_subscription.
  - cbn [dict_get dict_get_default dict_lookup String.eqb Ascii.eqb Bool.eqb py_or truthy
         is_none negb bind fold_result].
    unfold py_or. cbn [truthy]. destruct (f =? 0)%float; reflexivity.
  - reflexivity.
Qed.

Lemma extract_subs_info_env (limit : option float) (ps pe : option string) :
  _extract_subs_info py_repr (env_subscription limit ps pe)
  = Ok (SubsInfo
          (match limit with Some f => VFloat f | None => VNone end)
          VNone
          (match ps with
           | Some s => if str_nonempty s then VStr s else VNone
           | None => VNone
           end)
          (match pe with
           | Some s => if str_nonempty s then VStr s else VNone
           | None => VNone
           end)
          VNone).
Proof.
  destruct limit as [f|], ps as [s|], pe as [s'|];
    try destruct (str_nonempty s) eqn:E; try destruct (str_nonempty s') eqn:E';
    unfold _extract_subs_info, env_subscription;
    cbn [flat_map _first_mapping_candidate truthy app fold_result dict_lookup
         String.eqb Ascii.eqb Bool.eqb];
    unfold subs_info_step, numeric_or_raw, text_field, first_key;
    cbn [info_limit info_used info_period_start info_period_end info_plan is_none
         keys_limit keys_used keys_start keys_end keys_plan first_some dict_lookup
         String.eqb Ascii.eqb Bool.eqb negb truthy py_float bind catch_type_value py_str];
    rewrite ?E, ?E'; reflexivity.
Qed.

(** X19. For the subscription the handlers build from the settings (a
    limit that is a float or absent, two period texts) the formatter
    never raises, whatever the traffic response is.  It answers that the
    usage could not be determined exactly when the response gives no
    total and the limit is absent or zero.  Otherwise the report is the
    title, the period line (the label when there is one, else the two
    period texts as [_date_only_text] shows them, a question mark where
    it shows nothing, and no line when both texts are absent or empty),
    the usage lines of the total and the configured limit, a blank line
    and the time of the report; there is no plan line. *)
Theorem format_usage_of_env_subscription (limit : option float) (ps pe : option string)
  (traffic : value) (label proxy_type : option string) (now : datetime) (tz_name : string) :
  let used := total_used_gb traffic in
  let no_limit := match limit with Some f => (f =? 0)%float | None => true end in
  let shown bound :=
    or_question
      (if option_string_truthy bound
       then _date_only_text py_repr (VStr (default "" bound)) else None) in
  let period :=
    if option_string_truthy label then [PeriodLine (default "" label)]
    else if option_string_truthy ps || option_string_truthy pe
         then [SubscriptionPeriodLine (shown ps) (shown pe)]
         else [] in
  format_usage py_repr (env_subscription limit ps pe) traffic label proxy_type now tz_name
  = Ok (match used with
          | None =>
              if no_limit then CouldNotDetermineUsage
              else ReportLines
                     ([TitleLine (if option_string_truthy proxy_type then proxy_type
                                  else None)]
                      ++ period ++ usage_lines None limit
                      ++ [BlankLine; AsOfLine now tz_name])
          | Some _ =>
              ReportLines
                ([TitleLine (if option_string_truthy proxy_type then proxy_type else None)]
                 ++ period ++ usage_lines used limit
                 ++ [BlankLine; AsOfLine now tz_name])
          end)%list.
Proof.
  cbv zeta. unfold format_usage.
  rewrite subscription_figures_env. cbn [bind].
  rewrite extract_subs_info_env.
  set (u := total_used_gb traffic). clearbody u.
  assert (S : forall bound : option string,
             let v := match bound with
                      | Some s => if str_nonempty s then VStr s else VNone
                      | None => VNone
                      end in
             truthy v = option_string_truthy bound
             /\ _date_only_text py_repr v
                = (if option_string_truthy bound
                   then _date_only_text py_repr (VStr (default "" bound)) else None)).
  { intros [s|]; cbn [option_string_truthy]; [|split; reflexivity].
    destruct (str_nonempty s) eqn:E; cbn [truthy default Datatypes.id];
      [rewrite E|]; split; reflexivity. }
  destruct (S ps) as [Tp Dp], (S pe) as [Te De]. cbv zeta in Tp, Dp, Te, De.
  destruct limit as [f|]; [destruct (f =? 0)%float eqn:Z|]; destruct u as [g|];
    try reflexivity;
    cbv beta iota zeta; cbn [bind]; cbn [info_period_start info_period_end];
    rewrite Tp, Te, Dp, De; reflexivity.
Qed.

End EnvReport.

(** ** The executor on the candidate list of the settings *)

Lemma build_candidates_eq (env_value : option string) :
  let first := _map_service_to_proxy_type env_value in
  _build_proxy_type_candidates env_value
  = ((if option_string_truthy first then [first] else []) ++ [None]
     ++ map Some
          (List.filter (fun v => negb (option_string_eqb (Some v) first))
             canonical_proxy_types))%list.
Proof.
  intro first. unfold _build_proxy_type_candidates. fold first.
  rewrite (fold_left_append_filter
             (fun v => negb (option_string_eqb (Some v) first)) Some).
  destruct first as [p|]; simpl option_string_truthy; [destruct (str_nonempty p)|];
    simpl; reflexivity.
Qed.

Lemma build_candidates_NoDup (env_value : option string) :
  List.NoDup (_build_proxy_type_candidates env_value).
Proof.
  rewrite build_candidates_eq. cbv zeta.
  set (first := _map_service_to_proxy_type env_value).
  pose proof (NoDup_map_Some_filter
                (fun v => negb (option_string_eqb (Some v) first))) as ND.
  set (tail := map Some _) in *.
  assert (NN : ~ List.In None tail).
  { intro H. apply in_map_iff in H. destruct H as (x & Hx & _). discriminate. }
  assert (NF : ~ List.In first tail).
  { intro H. apply in_map_iff in H. destruct H as (x & Hx & Hin).
    apply filter_In in Hin. destruct Hin as [_ Hk].
    apply negb_true_iff in Hk.
    assert (option_string_eqb (Some x) first = true) by now apply option_string_eqb_eq.
    congruence. }
  assert (NT : List.NoDup (None :: tail)) by (apply List.NoDup_cons; assumption).
  destruct (option_string_truthy first) eqn:T; cbn [app]; [|exact NT].
  apply List.NoDup_cons; [|exact NT].
  intros [H|H]; [|contradiction].
  rewrite <- H in T. discriminate T.
Qed.

Lemma build_candidates_length (env_value : option string) :
  (1 <= List.length (_build_proxy_type_candidates env_value) <= 9)%nat.
Proof.
  rewrite build_candidates_eq. cbv zeta.
  rewrite !length_app, length_map. cbn [List.length].
  pose proof (List.filter_length_le
                (fun v => negb (option_string_eqb (Some v)
                                  (_map_service_to_proxy_type env_value)))
                canonical_proxy_types) as L.
  change (List.length canonical_proxy_types) with 7%nat in L.
  destruct (option_string_truthy _); cbn [List.length]; lia.
Qed.

Lemma NoDup_firstn {A} (n : nat) (l : list A) : List.NoDup l -> List.NoDup (firstn n l).
Proof.
  revert n. induction l as [|a l IH]; intros n ND; [now rewrite firstn_nil|].
  destruct n as [|n]; [constructor|]. cbn [firstn].
  inversion ND as [|? ? Ha Hl]; subst. constructor; [|now apply IH].
  intro H. apply Ha. revert H. generalize (firstn_skipn n l). intros E H.
  rewrite <- E. apply in_or_app. now left.
Qed.

Lemma replay_length {W R} (query : query_fn W R) (pts : list (option string)) :
  forall w, List.length (fst (replay query pts w)) = List.length pts.
Proof.
  induction pts as [|pt pts IH]; intro w; [reflexivity|].
  rewrite replay_cons. cbn [fst List.length]. now rewrite IH.
Qed.

Lemma last_In {A} (l : list A) (d : A) : l <> [] -> In (List.last l d) l.
Proof.
  induction l as [|a l IH]; [contradiction|]. intros _.
  destruct l as [|b l]; [now left|].
  right. change (List.last (a :: b :: l) d) with (List.last (b :: l) d).
  apply IH. discriminate.
Qed.

Lemma fetch_loop_calls_nonempty {W R} (query : query_fn W R) pt rest last_err (w : W) :
  exists tail, calls (fetch_loop query (pt :: rest) last_err w) = pt :: tail.
Proof.
  rewrite fetch_loop_step. destruct (query pt w) as [[r|e] w']; [eexists; reflexivity|].
  destruct (retried e); eexists; reflexivity.
Qed.

(** X20. On the candidate list built from the settings the executor makes
    at least one and at most nine calls, no two with the same proxy type,
    the first with the first candidate; and an error it raises is an
    error one of its calls raised (the assertion on the recorded error
    never fails). *)
Theorem fallback_queries_each_proxy_type_at_most_once {W R} (query : query_fn W R)
  (env_value : option string) (w : W) :
  let proxy_types := _build_proxy_type_candidates env_value in
  let r := _fetch_month_usage_with_fallback query proxy_types w in
  List.NoDup (calls r)
  /\ (1 <= List.length (calls r) <= 9)%nat
  /\ hd_error (calls r) = hd_error proxy_types
  /\ (forall e, outcome r = Raise e -> In (Raise e) (fst (replay query (calls r) w))).
Proof.
  intros proxy_types r.
  pose proof (build_candidates_NoDup env_value) as ND. fold proxy_types in ND.
  pose proof (build_candidates_length env_value) as Len. fold proxy_types in Len.
  pose proof (fetch_loop_spec query proxy_types None w) as Sp. cbv zeta in Sp.
  change (fetch_loop query proxy_types None w) with r in Sp.
  destruct Sp as ((n & Hn) & _ & Ho).
  assert (NE : exists pt tail, proxy_types = pt :: tail /\ exists tail', calls r = pt :: tail').
  { destruct proxy_types as [|pt tail] eqn:E; [cbn in Len; lia|].
    exists pt, tail. split; [reflexivity|].
    subst r. unfold _fetch_month_usage_with_fallback. apply fetch_loop_calls_nonempty. }
  destruct NE as (pt & tail & Ep & tail' & Ec).
  split; [rewrite Hn; now apply NoDup_firstn|].
  split.
  { split; [rewrite Ec; cbn; lia|].
    rewrite Hn, length_firstn. lia. }
  split; [now rewrite Ec, Ep|].
  intros e He. rewrite He in Ho.
  destruct Ho as [(before & Hb & _) | (Hc & _ & Hl)].
  - rewrite Hb. apply in_or_app. right. now left.
  - rewrite Hl. apply last_In.
    intro E. apply (f_equal (@List.length _)) in E.
    rewrite replay_length, Ec in E. discriminate E.
Qed.

(** ** The hourly fallback *)

Lemma hourly_loop_step {W R} (query : query_fn W R) pt rest (w : W) :
  hourly_loop query (pt :: rest) w
  = match query pt w with
    | (Ok r, w') => Run (Ok (Some r)) w' [pt]
    | (Raise e, w') =>
        if retried e then called pt (hourly_loop query rest w')
        else Run (Raise e) w' [pt]
    end.
Proof.
  simpl. destruct (query pt w) as [[r|e] w']; [reflexivity|].
  destruct e as [| | | | |[[|[]|]|] | |]; try reflexivity.
  all: unfold retried; simpl; try reflexivity.
  all: repeat match goal with |- context [match ?p with xH => _ | xO _ => _ | xI _ => _ end] => destruct p end; reflexivity.
Qed.

Lemma retried_is_Exception (e : exn) : retried e = true -> is_Exception e = true.
Proof. destruct e as [| | | | |[s|]| |]; try reflexivity; try discriminate. Qed.

(** The loop of the fallback makes the calls of the executor's loop. *)
Lemma hourly_loop_as_fetch_loop {W R} (query : query_fn W R) (pts : list (option string)) :
  forall (last_err : option exn) (w : W),
    match last_err with Some e0 => is_Exception e0 = true | None => True end ->
    let h := hourly_loop query pts w in
    let r := fetch_loop query pts last_err w in
    calls h = calls r /\ world h = world r
    /\ match outcome r with
       | Ok t => outcome h = Ok (Some t)
       | Raise e =>
           (outcome h = Ok None /\ is_Exception e = true) \/ outcome h = Raise e
       end.
Proof.
  induction pts as [|pt rest IH]; intros last_err w Hl.
  - cbv zeta. destruct last_err as [e0|]; cbn [hourly_loop fetch_loop calls world outcome];
      (split; [reflexivity|]; split; [reflexivity|]; left; split; auto).
  - cbv zeta. rewrite hourly_loop_step, fetch_loop_step.
    destruct (query pt w) as [[t|e] w']; [cbn; auto|].
    destruct (retried e) eqn:Re; [|cbn; auto].
    destruct (IH (Some e) w' (retried_is_Exception e Re)) as (Hc & Hw & Ho).
    unfold called. cbn [calls world outcome]. rewrite Hc, Hw. auto.
Qed.

Section HourlyFallbackFacts.

Variable py_repr : value -> string.

(** X21. The hourly fallback of the chart does nothing when the per-day
    mapping has an entry.  Otherwise it makes the calls the executor
    would make, and it gives the aggregate of the first response, or the
    empty mapping when the response is empty, when its aggregation
    raises, when no candidate answers or when a call fails for good: no
    [Exception] leaves it. *)
Theorem hourly_fallback_is_best_effort {W} (per_day_bytes : gmap string Z)
  (query : query_fn W value) (proxy_types : list (option string)) (w : W) :
  let r := hourly_fallback py_repr per_day_bytes query proxy_types w in
  let main := fetch_loop query proxy_types None w in
  (per_day_bytes <> ∅ -> r = Run (Ok per_day_bytes) w [])
  /\ (per_day_bytes = ∅ ->
      calls r = calls main /\ world r = world main
      /\ outcome r
         = match outcome main with
           | Ok t =>
               if truthy t then catch (_daily_bytes_from_traffic py_repr t) (Ok ∅)
               else Ok ∅
           | Raise e => if is_Exception e then Ok ∅ else Raise e
           end)
  /\ (forall e, outcome r = Raise e -> is_Exception e = false).
Proof.
  cbv zeta. unfold hourly_fallback.
  destruct (decide (per_day_bytes = ∅)) as [E|NE].
  - subst per_day_bytes.
    destruct (hourly_loop_as_fetch_loop query proxy_types None w I) as (Hc & Hw & Ho).
    cbv zeta in Hc, Hw, Ho.
    split; [intro H; now contradiction H|]. cbn [calls world outcome].
    assert (O : catch
                  (let* traffic_hour := outcome (hourly_loop query proxy_types w) in
                   match traffic_hour with
                   | Some t =>
                       if truthy t then _daily_bytes_from_traffic py_repr t else Ok ∅
                   | None => Ok ∅
                   end)
                  (Ok ∅)
                = match outcome (fetch_loop query proxy_types None w) with
                  | Ok t =>
                      if truthy t then catch (_daily_bytes_from_traffic py_repr t) (Ok ∅)
                      else Ok ∅
                  | Raise e => if is_Exception e then Ok ∅ else Raise e
                  end).
    { destruct (outcome (fetch_loop query proxy_types None w)) as [t|e].
      - rewrite Ho. cbn [bind]. destruct (truthy t); reflexivity.
      - destruct Ho as [[-> Ex] | ->]; cbn [bind catch]; [now rewrite Ex|].
        destruct (is_Exception e); reflexivity. }
    split; [intros _; auto|].
    intros e. rewrite O.
    destruct (outcome (fetch_loop query proxy_types None w)) as [t|e'].
    + destruct (truthy t); [|discriminate].
      destruct (_daily_bytes_from_traffic py_repr t) as [m|e']; cbn [catch]; [discriminate|].
      destruct (is_Exception e') eqn:Ex; [discriminate|].
      intro H. injection H as <-. exact Ex.
    + destruct (is_Exception e') eqn:Ex; [discriminate|].
      intro H. injection H as <-. exact Ex.
  - split; [reflexivity|]. split; [intro E; contradiction|].
    cbn [outcome]. discriminate.
Qed.

End HourlyFallbackFacts.

(** ** The chart without data *)

Lemma py_sum_zeros (values : list float) :
  Forall (fun y => y = 0%float) values -> py_sum values = 0%float.
Proof.
  unfold py_sum. induction 1 as [|y values -> _ IH]; [reflexivity|].
  cbn [fold_left]. exact IH.
Qed.

Lemma chart_values_empty (days : list date) :
  chart_values ∅ days = Ok (map (fun _ => 0%float) days).
Proof.
  unfold chart_values. induction days as [|d days IH]; [reflexivity|].
  cbn [map_result map]. rewrite lookup_empty.
  change (float_of_int (default 0 None)) with (Ok 0%float). cbn [bind].
  rewrite IH. reflexivity.
Qed.

(** X22. With an empty per-day mapping every value of the series is zero,
    and the chart is cut to the first seven days of the span at most, all
    bars zero, its title marked "(no data)". *)
Theorem chart_without_data_shows_a_week_of_zeros (start end_ : date) (title : string) :
  valid_date start = true -> valid_date end_ = true ->
  exists days,
    _build_date_span start end_ = Ok days
    /\ build_daily_series start end_ ∅ = Ok (days, map (fun _ => 0%float) days)
    /\ chart_bars days (map (fun _ => 0%float) days) title
       = (firstn 7 days, map (fun _ => 0%float) (firstn 7 days), title ++ " (no data)")
    /\ (List.length (firstn 7 days) <= 7)%nat.
Proof.
  intros Vs Ve.
  assert (Ex : exists days, _build_date_span start end_ = Ok days).
  { destruct (date_ltb end_ start) eqn:L.
    - rewrite build_date_span_sym.
      destruct (build_date_span_ordered end_ start Ve Vs (date_ltb_asym _ _ L))
        as (days & H & _). eauto.
    - destruct (build_date_span_ordered start end_ Vs Ve L) as (days & H & _). eauto. }
  destruct Ex as (days & Hd). exists days. split; [exact Hd|].
  split; [unfold build_daily_series; rewrite Hd; cbn [bind];
          now rewrite chart_values_empty|].
  split.
  - unfold chart_bars. rewrite py_sum_zeros.
    + change (0 =? 0)%float with true. cbv iota zeta.
      destruct (List.length days <=? 7)%nat eqn:E; [|reflexivity].
      apply Nat.leb_le in E. now rewrite firstn_all2.
    + apply List.Forall_forall. intros y Hy. apply in_map_iff in Hy.
      now destruct Hy as (_ & <- & _).
  - apply firstn_le_length.
Qed.

Lemma chart_without_data_shows_a_week_of_zeros_witness :
  exists days,
    _build_date_span (Date 2024 2 1) (Date 2024 2 29) = Ok days
    /\ fst (fst (chart_bars days (map (fun _ => 0%float) days) "Daily usage (GB)"))
       = firstn 7 days.
Proof.
  destruct (chart_without_data_shows_a_week_of_zeros (Date 2024 2 1) (Date 2024 2 29)
              "Daily usage (GB)" eq_refl eq_refl) as (days & Hd & _ & C & _).
  exists days. split; [exact Hd|]. now rewrite C.
Defined.

(** ** The labels of the chart *)

Lemma py_range_length (n : Z) : 0 <= n -> Z.of_nat (List.length (py_range n)) = n.
Proof. intro H. unfold py_range. rewrite length_map, length_seq. lia. Qed.

(** X23. Under a chart of [n] bars there are never more than 23 date labels
    and, from 12 bars on, never fewer than 12; every label is the label
    of a bar; below 24 bars every bar has its label. *)
Theorem chart_shows_at_most_23_date_labels (n : Z) :
  0 <= n ->
  Z.of_nat (List.length (tick_positions n)) <= 23
  /\ (12 <= n -> 12 <= Z.of_nat (List.length (tick_positions n)))
  /\ Forall (fun i => 0 <= i < n) (tick_positions n)
  /\ (n < 24 -> tick_positions n = py_range n).
Proof.
  intro Hn. unfold tick_positions, py_range_step, tick_step.
  set (s := Z.max 1 (n / 12)).
  assert (Hs : 1 <= s) by (subst s; lia).
  assert (Hq : 0 <= (n + s - 1) / s) by (apply Z.div_pos; lia).
  rewrite length_map, (py_range_length _ Hq).
  split; [|split; [|split]].
  - subst s. destruct (Z.max_spec 1 (n / 12)) as [[L ->] | [L ->]].
    + Z.to_euclidean_division_equations. nia.
    + rewrite Z.add_simpl_r, Z.div_1_r.
      Z.to_euclidean_division_equations. lia.
  - intro H12. subst s. destruct (Z.max_spec 1 (n / 12)) as [[L ->] | [L ->]].
    + Z.to_euclidean_division_equations. nia.
    + rewrite Z.add_simpl_r, Z.div_1_r. lia.
  - apply List.Forall_forall. intros i Hi. apply in_map_iff in Hi.
    destruct Hi as (k & <- & Hk). apply in_py_range in Hk.
    split; [nia|].
    assert (k * s + s <= (n + s - 1) / s * s) by nia.
    assert ((n + s - 1) / s * s <= n + s - 1).
    { rewrite Z.mul_comm. apply Z.mul_div_le. lia. }
    lia.
  - intro H24. assert (s = 1) as ->.
    { subst s. Z.to_euclidean_division_equations. lia. }
    rewrite Z.add_simpl_r, Z.div_1_r.
    rewrite <- (map_id (py_range n)) at 2. apply map_ext. intro k. lia.
Qed.

Lemma chart_shows_at_most_23_date_labels_witness :
  tick_positions 32 = [0; 2; 4; 6; 8; 10; 12; 14; 16; 18; 20; 22; 24; 26; 28; 30]
  /\ Z.of_nat (List.length (tick_positions 23)) <= 23.
Proof.
  split; [reflexivity|].
  exact (proj1 (chart_shows_at_most_23_date_labels 23 ltac:(lia))).
Defined.
